(** * sonex: the media organizer of [sonex.py], embedded and verified

    The program walks a camera directory, resolves a capture date for every
    file, creates a date-named folder under the destination root, and hands
    images and AVCHD clips to ffmpeg.  The embedding below follows
    [MediaOrganizer] method by method.

    Text is kept as Python holds it on a POSIX system, in UTF-8: a string
    is its bytes.  Where the program looks at characters and not at
    bytes, the embedding decodes: the [\d] of [strptime] takes every
    decimal digit of Unicode, and [str.strip] every white-space character.
    [str.lower] is written out for ASCII only, which decides the same
    endings: no character outside ASCII lowers to text that ends in a
    letter of the extensions (or in the [y] of an answer).  [os.path] is
    [posixpath], and [strftime] is that of the C library, which prints a
    year below 1000 without leading zeros.

    The file system, ffprobe, ffmpeg, the directory listing, the clock and
    the encoding of the standard output are the environment of the run
    and are kept abstract in a record.  The file system is a map from
    paths to what they name; what the operating system refuses to create
    is part of the world.  The configuration file is not modelled, and
    the progress bar of [tqdm] goes to the standard error stream and is
    left out. *)

From Stdlib Require Import ZArith Ascii String List Bool Lia.
From stdpp Require Import base option gmap strings list pretty.

Local Open Scope string_scope.

(** stdpp freezes [String.append] under [simpl]; the proofs below compute
    with it. *)
Local Arguments String.append !_ _ / : simpl nomatch.
Local Arguments Ascii.eqb : simpl never.

(** ** Python [str] methods used by the program *)

Module Str.

(** [str.lower] on ASCII text: only 'A'..'Z' change. *)
Definition is_upper (c : ascii) : bool :=
  let n := nat_of_ascii c in (65 <=? n)%nat && (n <=? 90)%nat.

Definition lower_char (c : ascii) : ascii :=
  if is_upper c then ascii_of_nat (nat_of_ascii c + 32) else c.

Fixpoint lower (s : string) : string :=
  match s with
  | EmptyString => EmptyString
  | String c s' => String (lower_char c) (lower s')
  end.

(** [s.endswith(suf)]: some tail of [s] is [suf]. *)
Fixpoint endswith (s suf : string) : bool :=
  if String.eqb s suf then true
  else match s with
       | EmptyString => false
       | String _ s' => endswith s' suf
       end.

(** [s.endswith((e1, ..., en))] with a tuple argument. *)
Definition endswith_any (s : string) (sufs : list string) : bool :=
  existsb (endswith s) sufs.

(** [s.startswith(pre)]. *)
Fixpoint startswith (s pre : string) : bool :=
  match pre, s with
  | EmptyString, _ => true
  | String a pre', String b s' => Ascii.eqb a b && startswith s' pre'
  | String _ _, EmptyString => false
  end.

(** [c in s] for a single character. *)
Fixpoint contains (c : ascii) (s : string) : bool :=
  match s with
  | EmptyString => false
  | String d s' => Ascii.eqb c d || contains c s'
  end.

(** [s.replace(old, '')] for a non-empty [old]: occurrences are removed
    from left to right and do not overlap.  [skip] counts the characters
    of an occurrence that are still to be dropped. *)
Fixpoint remove_go (old : string) (skip : nat) (s : string) : string :=
  match s with
  | EmptyString => EmptyString
  | String c s' =>
      match skip with
      | S k => remove_go old k s'
      | O => if startswith s old
             then remove_go old (String.length old - 1) s'
             else String c (remove_go old 0 s')
      end
  end.

Definition remove_all (s old : string) : string := remove_go old 0 s.

(** [s.rstrip('/')]. *)
Fixpoint rstrip_slash (s : string) : string :=
  match s with
  | EmptyString => EmptyString
  | String c s' =>
      match rstrip_slash s' with
      | EmptyString => if Ascii.eqb c "/" then EmptyString else String c EmptyString
      | r => String c r
      end
  end.

(** The last character, when there is one. *)
Fixpoint last_char (s : string) : option ascii :=
  match s with
  | EmptyString => None
  | String c EmptyString => Some c
  | String _ s' => last_char s'
  end.

End Str.

(** ** Text as bytes

    A Python [str] is held as the bytes of its UTF-8 encoding.  The methods
    that look at single ASCII characters ([lower] and [endswith] on the
    extensions, [replace], the functions of [os.path]) act on the bytes;
    the two that follow the Unicode database, white space for [strip] and
    decimal digits for the [\d] of a regular expression, decode the
    characters first. *)

Module Utf8.

Definition byte (c : ascii) : Z := Z.of_nat (nat_of_ascii c).

(** The payload of a continuation byte [10xxxxxx]. *)
Definition cont (c : ascii) : option Z :=
  let b := byte c in
  if ((128 <=? b) && (b <? 192))%Z then Some (b - 128)%Z else None.

(** The first code point of [s] and what follows it, when [s] starts with
    a well-formed sequence of one to four bytes. *)
Definition decode (s : string) : option (Z * string) :=
  match s with
  | EmptyString => None
  | String c0 r0 =>
      let b0 := byte c0 in
      if (b0 <? 128)%Z then Some (b0, r0)
      else if ((194 <=? b0) && (b0 <? 224))%Z then
        match r0 with
        | String c1 r1 =>
            match cont c1 with
            | Some x1 => Some (((b0 - 192) * 64 + x1)%Z, r1)
            | None => None
            end
        | EmptyString => None
        end
      else if ((224 <=? b0) && (b0 <? 240))%Z then
        match r0 with
        | String c1 (String c2 r2) =>
            match cont c1, cont c2 with
            | Some x1, Some x2 =>
                let cp := (((b0 - 224) * 64 + x1) * 64 + x2)%Z in
                if (2048 <=? cp)%Z then Some (cp, r2) else None
            | _, _ => None
            end
        | _ => None
        end
      else if ((240 <=? b0) && (b0 <? 245))%Z then
        match r0 with
        | String c1 (String c2 (String c3 r3)) =>
            match cont c1, cont c2, cont c3 with
            | Some x1, Some x2, Some x3 =>
                let cp := ((((b0 - 240) * 64 + x1) * 64 + x2) * 64 + x3)%Z in
                if ((65536 <=? cp) && (cp <=? 1114111))%Z then Some (cp, r3)
                else None
            | _, _, _ => None
            end
        | _ => None
        end
      else None
  end.

(** The characters of category Nd (Unicode 14, the database of Python
    3.11) come in runs of ten, from the digit zero to the digit nine; the
    list holds the zero of every run. *)
Definition digit_zeros : list Z :=
  [
    48; 1632; 1776; 1984; 2406; 2534; 2662; 2790; 2918; 3046; 3174;
    3302; 3430; 3558; 3664; 3792; 3872; 4160; 4240; 6112; 6160; 6470;
    6608; 6784; 6800; 6992; 7088; 7232; 7248; 42528; 43216; 43264;
    43472; 43504; 43600; 44016; 65296; 66720; 68912; 69734; 69872;
    69942; 70096; 70384; 70736; 70864; 71248; 71360; 71472; 71904;
    72016; 72784; 73040; 73120; 92768; 92864; 93008; 120782; 120792;
    120802; 120812; 120822; 123200; 123632; 125264; 130032
  ]%Z.

(** The value of a decimal digit, as [int] reads it. *)
Definition digit_value (cp : Z) : option Z :=
  match List.find (fun z => ((z <=? cp) && (cp <? z + 10))%Z) digit_zeros with
  | Some z => Some (cp - z)%Z
  | None => None
  end.

(** The characters for which [str.isspace] holds. *)
Definition spaces : list Z :=
  [
    9; 10; 11; 12; 13; 28; 29; 30; 31; 32; 133; 160; 5760; 8192; 8193;
    8194; 8195; 8196; 8197; 8198; 8199; 8200; 8201; 8202; 8232; 8233;
    8239; 8287; 12288
  ]%Z.

Definition is_space (cp : Z) : bool := existsb (Z.eqb cp) spaces.

End Utf8.

(** ** [os.path] (posixpath) *)

Module Path.

(** [(p[:i], p[i:])] for [i = p.rfind('/') + 1]. *)
Fixpoint rpartition (p : string) : string * string :=
  match p with
  | EmptyString => (EmptyString, EmptyString)
  | String c p' =>
      if Str.contains "/" p' then
        let '(h, t) := rpartition p' in (String c h, t)
      else if Ascii.eqb c "/" then (String c EmptyString, p')
      else (EmptyString, String c p')
  end.

Definition basename (p : string) : string := snd (rpartition p).

(** [os.path.dirname]: the head with its trailing slashes stripped, unless
    the head is made of slashes only (stripping would then empty it). *)
Definition dirname (p : string) : string :=
  let head := fst (rpartition p) in
  match Str.rstrip_slash head with
  | EmptyString => head
  | stripped => stripped
  end.

(** [os.path.join(a, b)] for two components. *)
Definition join (a b : string) : string :=
  if Str.startswith b "/" then b
  else if String.eqb a "" || Str.endswith a "/" then a +:+ b
  else a +:+ "/" +:+ b.

(** [(n[:dot], n[dot:])] for [dot = n.rfind('.')], when [n] has a dot. *)
Fixpoint rsplit_dot (n : string) : option (string * string) :=
  match n with
  | EmptyString => None
  | String c n' =>
      match rsplit_dot n' with
      | Some (r, e) => Some (String c r, e)
      | None => if Ascii.eqb c "." then Some (EmptyString, n) else None
      end
  end.

Fixpoint all_dots (s : string) : bool :=
  match s with
  | EmptyString => true
  | String c s' => Ascii.eqb c "." && all_dots s'
  end.

(** [os.path.splitext] on a name without directory part: the extension
    starts at the last dot, unless only dots precede it. *)
Definition splitext_name (n : string) : string * string :=
  match rsplit_dot n with
  | Some (r, e) => if all_dots r then (n, EmptyString) else (r, e)
  | None => (n, EmptyString)
  end.

(** [os.path.splitext(p)]: a dot counts only after the last slash. *)
Definition splitext (p : string) : string * string :=
  let '(h, t) := rpartition p in
  let '(r, e) := splitext_name t in (h +:+ r, e).

(** The directories above [p], the nearest first: its [dirname], the
    [dirname] of that, and so on, up to but without the root and the
    current directory.  Every step shortens the path, so its length is
    fuel enough. *)
Fixpoint parents_go (fuel : nat) (p : string) : list string :=
  match fuel with
  | O => []
  | S fuel' =>
      let h := dirname p in
      if String.eqb (Str.rstrip_slash h) "" then [] else h :: parents_go fuel' h
  end.

Definition parents (p : string) : list string := parents_go (String.length p) p.

End Path.

(** ** Python exceptions and results *)

(** The exceptions that can occur in the modelled code: [ValueError] from
    [strptime], [KeyError] from a missing key of the probe result,
    [OverflowError] and [OSError] from [fromtimestamp] and [getctime],
    [FileExistsError], [NotADirectoryError], [FileNotFoundError] and
    [PermissionError] from [makedirs], [UnicodeEncodeError] from [print],
    and what ffmpeg-python raises, with its text.  All of them derive from
    [Exception], so [except Exception] catches every one. *)
Inductive exn : Type :=
  | ValueError
  | KeyError
  | OverflowError
  | OSError
  | FileExistsError
  | NotADirectoryError
  | FileNotFoundError
  | PermissionError
  | UnicodeEncodeError
  | FfmpegError (msg : string).

Inductive result (A : Type) : Type :=
  | Ok (a : A)
  | Raise (e : exn).
Arguments Ok {A} a.
Arguments Raise {A} e.

(** Sequencing: an exception of the first step ends the computation. *)
Global Instance result_ret : MRet result := fun A a => Ok a.
Global Instance result_bind : MBind result := fun A B f r =>
  match r with
  | Ok a => f a
  | Raise e => Raise e
  end.

(** ** [datetime]: parsing with [strptime], printing with [strftime] *)

Record datetime : Type := mkdt {
  year : Z; month : Z; day : Z;
  hour : Z; minute : Z; second : Z; microsecond : Z
}.

Module Re.

(** Backtracking matchers in the order in which the [re] module tries
    alternatives: the list holds every way to match a prefix, the
    preferred one first. *)
Definition t (A : Type) : Type := string -> list (A * string).

Definition ret {A} (a : A) : t A := fun s => [(a, s)].

Definition bind {A B} (p : t A) (f : A -> t B) : t B :=
  fun s => flat_map (fun ar => f (fst ar) (snd ar)) (p s).

Definition alt {A} (p q : t A) : t A := fun s => (p s ++ q s)%list.

(** One of the characters [0] to [9]. *)
Definition ascii_digit (c : ascii) : option Z :=
  let n := nat_of_ascii c in
  if (48 <=? n)%nat && (n <=? 57)%nat then Some (Z.of_nat n - 48)%Z else None.

(** A bracket class of digits, [[lo-hi]]: it holds the ASCII digits of the
    range only. *)
Definition cls (lo hi : Z) : t Z := fun s =>
  match s with
  | String c r =>
      match ascii_digit c with
      | Some d => if (lo <=? d)%Z && (d <=? hi)%Z then [(d, r)] else []
      | None => []
      end
  | EmptyString => []
  end.

(** A literal character; [_strptime] compiles its pattern with
    [IGNORECASE]. *)
Definition lit (c : ascii) : t unit := fun s =>
  match s with
  | String d r =>
      if Ascii.eqb (Str.lower_char d) (Str.lower_char c) then [(tt, r)] else []
  | EmptyString => []
  end.

(** [\d]: in a pattern on [str] it matches every decimal digit of the
    Unicode database, and [int] reads the digit's value. *)
Definition dec : t Z := fun s =>
  match Utf8.decode s with
  | Some (cp, r) =>
      match Utf8.digit_value cp with
      | Some d => [(d, r)]
      | None => []
      end
  | None => []
  end.

(** Two digits, the first in [[a-b]] and the second in [[c-d]]. *)
Definition two (a b c d : Z) : t Z :=
  bind (cls a b) (fun x => bind (cls c d) (fun y => ret (10 * x + y)%Z)).

(** Two digits, the first in [[a-b]] and the second any [\d]. *)
Definition two_d (a b : Z) : t Z :=
  bind (cls a b) (fun x => bind dec (fun y => ret (10 * x + y)%Z)).

(** Exactly [k] digits of [[0-9]], read as a decimal number. *)
Fixpoint digits (k : nat) (acc : Z) : t Z :=
  match k with
  | O => ret acc
  | S k' => bind (cls 0 9) (fun x => digits k' (10 * acc + x)%Z)
  end.

(** Exactly [k] times [\d], read as a decimal number. *)
Fixpoint decs (k : nat) (acc : Z) : t Z :=
  match k with
  | O => ret acc
  | S k' => bind dec (fun x => decs k' (10 * acc + x)%Z)
  end.

End Re.

Module Strptime.
Import Re.

Notation "x <~ p ;; k" := (bind p (fun x => k))
  (at level 100, p at next level, right associativity).

(** The groups of [_strptime.TimeRE]. *)
Definition grp_Y : t Z := decs 4 0.                              (* \d\d\d\d *)
Definition grp_m : t Z :=                                        (* 1[0-2]|0[1-9]|[1-9] *)
  alt (two 1 1 0 2) (alt (two 0 0 1 9) (cls 1 9)).
Definition grp_d : t Z :=                      (* 3[0-1]|[1-2]\d|0[1-9]|[1-9]| [1-9] *)
  alt (two 3 3 0 1) (alt (two_d 1 2) (alt (two 0 0 1 9)
    (alt (cls 1 9) (_ <~ lit " " ;; cls 1 9)))).
Definition grp_H : t Z :=                                        (* 2[0-3]|[0-1]\d|\d *)
  alt (two 2 2 0 3) (alt (two_d 0 1) dec).
Definition grp_M : t Z :=                                        (* [0-5]\d|\d *)
  alt (two_d 0 5) dec.
Definition grp_S : t Z :=                                        (* 6[0-1]|[0-5]\d|\d *)
  alt (two 6 6 0 1) (alt (two_d 0 5) dec).
(** [[0-9]{1,6}], greedy, a bracket class and so ASCII digits only; the
    digits are padded with zeros on the right to six before conversion. *)
Definition grp_f : t Z :=
  alt (digits 6 0)
    (alt (x <~ digits 5 0 ;; ret (x * 10)%Z)
    (alt (x <~ digits 4 0 ;; ret (x * 100)%Z)
    (alt (x <~ digits 3 0 ;; ret (x * 1000)%Z)
    (alt (x <~ digits 2 0 ;; ret (x * 10000)%Z)
         (x <~ digits 1 0 ;; ret (x * 100000)%Z))))).

(** The regular expression of the format ['%Y-%m-%dT%H:%M:%S.%fZ']. *)
Definition iso_pattern : t datetime :=
  Y <~ grp_Y ;; _ <~ lit "-" ;; m <~ grp_m ;; _ <~ lit "-" ;; d <~ grp_d ;;
  _ <~ lit "T" ;; H <~ grp_H ;; _ <~ lit ":" ;; M <~ grp_M ;; _ <~ lit ":" ;;
  S <~ grp_S ;; _ <~ lit "." ;; f <~ grp_f ;; _ <~ lit "Z" ;;
  ret (mkdt Y m d H M S f).

Definition is_leap (y : Z) : bool :=
  ((y mod 4 =? 0) && (negb (y mod 100 =? 0) || (y mod 400 =? 0)))%Z.

Definition days_in_month (y m : Z) : Z :=
  if (m =? 2)%Z then (if is_leap y then 29 else 28)%Z
  else if ((m =? 4) || (m =? 6) || (m =? 9) || (m =? 11))%Z then 30%Z
  else 31%Z.

(** What the [date] and [datetime] constructors accept among the values
    the pattern lets through: year 0, a day past the end of the month and
    the leap seconds 60 and 61 are refused with [ValueError]. *)
Definition valid (dt : datetime) : bool :=
  ((1 <=? year dt) && (day dt <=? days_in_month (year dt) (month dt))
   && (second dt <=? 59))%Z.

(** [datetime.strptime(s, '%Y-%m-%dT%H:%M:%S.%fZ')]: the first match of
    the pattern must reach the end of [s]. *)
Definition strptime (s : string) : result datetime :=
  match iso_pattern s with
  | (dt, EmptyString) :: _ => if valid dt then Ok dt else Raise ValueError
  | _ => Raise ValueError
  end.

End Strptime.

Module Strftime.

Definition digit_char (d : Z) : ascii := ascii_of_nat (48 + Z.to_nat (d mod 10)).

Definition pad2 (n : Z) : string :=
  String (digit_char (n / 10)) (String (digit_char n) EmptyString).

Definition pad4 (n : Z) : string :=
  String (digit_char (n / 1000)) (String (digit_char (n / 100)) (pad2 n)).

(** A number in decimal without leading zeros; [n] is fuel enough, as
    every step divides by ten. *)
Fixpoint decimal_go (fuel : nat) (n : Z) (acc : string) : string :=
  let acc' := String (digit_char n) acc in
  match fuel with
  | O => acc'
  | S fuel' => if (n <? 10)%Z then acc' else decimal_go fuel' (n / 10) acc'
  end.

Definition decimal (n : Z) : string := decimal_go (Z.to_nat n) n EmptyString.

(** [dt.strftime('%m-%d-%Y')]: [%m] and [%d] are two digits; [%Y] is what
    the C library prints, and glibc prints the year as a plain number, so
    that a year below 1000 has fewer than four digits. *)
Definition strftime (dt : datetime) : string :=
  pad2 (month dt) +:+ "-" +:+ pad2 (day dt) +:+ "-" +:+ decimal (year dt).

End Strftime.

(** ** The environment of a run *)

(** What a path names in the file system. *)
Inductive node : Type := File | Dir.

(** The JSON that [ffmpeg.probe] returns, as far as the program reads it:
    the ['streams'] list, and for each stream its ['tags'] dictionary.
    Either key may be missing. *)
Record stream : Type := mkstream { tags : option (gmap string string) }.
Record probe_result : Type := mkprobe { streams : option (list stream) }.

(** One [ffmpeg.run] of [ffmpeg.output(ffmpeg.input(in_file), out_file, **kwargs)]. *)
Record ffmpeg_args : Type := mkargs {
  in_file : string;
  out_file : string;
  kwargs : list (string * string)
}.

(** How the external encoder ends: it produces the output file, or it
    raises; [msg] is the text of the exception and [partial] tells whether
    a truncated output file is left behind. *)
Inductive run_outcome : Type :=
  | Completed
  | Failed (msg : string) (partial : bool).

(** The state the program changes: the file system, what was printed, and
    (as a trace, for stating which jobs were executed) the encoder runs.
    Paths are told apart as strings.  The root and the current directory
    are there without being recorded.  [refused d] is the error with
    which the operating system refuses to create a directory at [d]
    although nothing is recorded there: no permission, a read-only or full
    file system, a dangling link of that name. *)
Record world : Type := mkworld {
  fs : gmap string node;
  stdout : list string;
  ffmpeg_calls : list ffmpeg_args;
  refused : string -> option exn
}.

(** What the program only asks.  The source tree is read, never written:
    an output is created only where nothing exists, so the answers for the
    enumerated files do not change during a run, and no output name
    (.jpg, .m2ts) or date folder can match the pairer's [*.MTS] pattern.
    [listdir d] lists the entries of [d] in the order of [os.scandir]
    ([""] is the current directory); [glob_other] answers the patterns that
    [Glob] below does not interpret; [stdout_encodes s] tells whether the
    encoding of the standard output can hold the text [s] (a file name
    that [os.walk] decoded with [surrogateescape], for one, it cannot). *)
Record platform : Type := mkplatform {
  timestamp : Type;
  ffprobe : string -> result probe_result;
  getctime : string -> result timestamp;
  fromtimestamp : timestamp -> result datetime;
  listdir : string -> list string;
  glob_other : string -> list string;
  ffmpeg_run : world -> ffmpeg_args -> run_outcome;
  os_walk : string -> list string;
  stdout_encodes : string -> bool
}.

(** ** [glob] and [fnmatch] *)

Module Glob.

Definition has_magic (s : string) : bool :=
  Str.contains "*" s || Str.contains "?" s || Str.contains "[" s.

(** [fnmatch] for patterns made of literal characters, [*] and [?]. *)
Fixpoint fnmatch (pat name : string) : bool :=
  match pat with
  | EmptyString => String.eqb name ""
  | String p pat' =>
      if Ascii.eqb p "*" then
        (fix star (n : string) : bool :=
           fnmatch pat' n ||
           match n with
           | EmptyString => false
           | String _ n' => star n'
           end) name
      else
        match name with
        | EmptyString => false
        | String c name' => (Ascii.eqb p "?" || Ascii.eqb p c) && fnmatch pat' name'
        end
  end.

Definition ishidden (n : string) : bool := Str.startswith n ".".

(** The patterns interpreted here: a wildcard in the last component, no
    bracket expression, and no wildcard in the directory part. *)
Definition simple (pattern : string) : bool :=
  let b := Path.basename pattern in
  negb (has_magic (Path.dirname pattern)) && negb (Str.contains "[" b)
  && has_magic b.

(** [glob.glob(pattern)]: the entries of the directory that match the
    last component, in directory order, joined to the directory; names
    starting with a dot are left out unless the pattern starts with one. *)
Definition glob (E : platform) (pattern : string) : list string :=
  if simple pattern then
    let d := Path.dirname pattern in
    let b := Path.basename pattern in
    let names := listdir E d in
    let names := if ishidden b then names
                 else List.filter (fun n => negb (ishidden n)) names in
    List.map (Path.join d) (List.filter (fnmatch b) names)
  else glob_other E pattern.

End Glob.

(** ** [MediaOrganizer] *)

Record organizer : Type := mkorganizer {
  camera_path : string;
  destination_root : string
}.

(** The loop state of [process_media_files]. *)
Record run_state : Type := mkstate {
  st_world : world;
  processed_count : nat;
  skipped_count : nat
}.

Definition image_exts : list string := [".jpg"; ".jpeg"; ".png"; ".bmp"; ".tiff"].
Definition video_exts : list string := [".mts"; ".cpi"].

Definition jpg_kwargs : list (string * string) :=
  [("vcodec", "mjpeg"); ("qscale", "2")].
Definition m2ts_kwargs : list (string * string) :=
  [("vcodec", "copy"); ("acodec", "copy"); ("f", "mpegts")].

(** [os.path.exists]. *)
Definition path_exists (w : world) (p : string) : bool :=
  match fs w !! p with Some _ => true | None => false end.

Definition add_dir (d : string) (w : world) : world :=
  mkworld (<[d := Dir]> (fs w)) (stdout w) (ffmpeg_calls w) (refused w).

(** What [os.makedirs] does for the directories above its target, from
    the top down: a directory that is there is passed, a file in its place
    makes the [mkdir] below it fail with [NotADirectoryError], and a
    missing one is created with [os.mkdir].  An error of that [mkdir]
    leaves [makedirs], except [FileExistsError], which [makedirs] catches
    for the directories above the target; the [mkdir] below it then fails
    with [FileNotFoundError]. *)
Fixpoint ensure_dirs (l : list string) (w : world) : result world :=
  match l with
  | [] => Ok w
  | a :: rest =>
      match fs w !! a with
      | Some Dir => ensure_dirs rest w
      | Some File => Raise NotADirectoryError
      | None =>
          match refused w a with
          | Some FileExistsError => Raise FileNotFoundError
          | Some e => Raise e
          | None => ensure_dirs rest (add_dir a w)
          end
      end
  end.

(** [os.makedirs(d, exist_ok=True)]: a directory that is there is
    accepted as it is (it has its parents); [FileExistsError] is raised
    when the path is taken by a file; otherwise the missing directories
    above [d] are created, and then [d] itself. *)
Definition makedirs (d : string) (w : world) : result world :=
  match fs w !! d with
  | Some Dir => Ok w
  | Some File => Raise FileExistsError
  | None =>
      w1 ← ensure_dirs (rev (Path.parents d)) w;
      match refused w1 d with
      | Some e => Raise e
      | None => Ok (add_dir d w1)
      end
  end.

(** The state after a line was written to the standard output. *)
Definition print (line : string) (w : world) : world :=
  mkworld (fs w) (stdout w ++ [line])%list (ffmpeg_calls w) (refused w).

(** [print(line)], with the exception it can raise: text that the
    encoding of the standard output cannot hold raises
    [UnicodeEncodeError], and nothing is written. *)
Definition write (E : platform) (line : string) (w : world) : result world :=
  if stdout_encodes E line then Ok (print line w) else Raise UnicodeEncodeError.

(** The world after [ffmpeg.run] was called with [a] and ended with [o]. *)
Definition after_run (a : ffmpeg_args) (o : run_outcome) (w : world) : world :=
  let written := match o with
                 | Completed => true
                 | Failed _ partial => partial
                 end in
  mkworld (if written then <[out_file a := File]> (fs w) else fs w)
          (stdout w)
          (ffmpeg_calls w ++ [a])%list
          (refused w).

Section Organizer.

Variable E : platform.
Variable self : organizer.

(** The [for stream in probe['streams']] loop: the first stream that
    carries a [creation_time] tag decides, by returning the formatted
    date or by raising from [strptime]. *)
Fixpoint scan_streams (l : list stream) : result (option string) :=
  match l with
  | [] => Ok None
  | s :: rest =>
      match tags s with
      | Some t =>
          match t !! "creation_time" with
          | Some creation_time =>
              dt ← Strptime.strptime creation_time;
              Ok (Some (Strftime.strftime dt))
          | None => scan_streams rest
          end
      | None => scan_streams rest
      end
  end.

(** The body of the [try]: [None] when the loop ends without a return. *)
Definition probe_date (file_path : string) : result (option string) :=
  probe ← ffprobe E file_path;
  match streams probe with
  | Some l => scan_streams l
  | None => Raise KeyError
  end.

Definition get_creation_date (file_path : string) : result string :=
  match probe_date file_path with
  | Ok (Some date_str) => Ok date_str
  | Ok None | Raise _ =>
      (* Fallback to file creation time *)
      t ← getctime E file_path;
      dt ← fromtimestamp E t;
      Ok (Strftime.strftime dt)
  end.

Definition find_associated_video (cpi_file : string) : option string :=
  let clip_name := Str.remove_all (Path.basename cpi_file) ".CPI" in
  let clip_dir := Path.dirname (Path.dirname cpi_file) in
  let video_files := Glob.glob E (Path.join clip_dir (clip_name +:+ "*.MTS")) in
  head video_files.

Definition convert_image_to_jpg (input_file output_file : string) (w : world)
  : world * bool :=
  if path_exists w output_file then (w, false)
  else
    let a := mkargs input_file output_file jpg_kwargs in
    match ffmpeg_run E w a with
    | Completed => (after_run a Completed w, true)
    | Failed e partial =>
        (print ("Error converting " +:+ input_file +:+ " to JPG: " +:+ e)
               (after_run a (Failed e partial) w), false)
    end.

Definition convert_to_m2ts (input_file output_file : string) (w : world)
  : world * bool :=
  if path_exists w output_file then (w, false)
  else
    let a := mkargs input_file output_file m2ts_kwargs in
    match ffmpeg_run E w a with
    | Completed => (after_run a Completed w, true)
    | Failed e partial =>
        (print ("Error converting " +:+ input_file +:+ " to M2TS: " +:+ e)
               (after_run a (Failed e partial) w), false)
    end.

(** [processed_count += 1] or [skipped_count += 1] after a conversion. *)
Definition count (st : run_state) (r : world * bool) : run_state :=
  if snd r
  then mkstate (fst r) (S (processed_count st)) (skipped_count st)
  else mkstate (fst r) (processed_count st) (S (skipped_count st)).

(** The body of the [for file_path in files] loop. *)
Definition process_file (file_path : string) (st : run_state) : result run_state :=
  date_str ← get_creation_date file_path;
  let destination_dir := Path.join (destination_root self) date_str in
  w ← makedirs destination_dir (st_world st);
  if Str.endswith_any (Str.lower file_path) image_exts then
    let output_filename :=
      fst (Path.splitext (Path.basename file_path)) +:+ ".jpg" in
    let output_path := Path.join destination_dir output_filename in
    Ok (count st (convert_image_to_jpg file_path output_path w))
  else if Str.endswith_any (Str.lower file_path) video_exts then
    let output_filename :=
      fst (Path.splitext (Path.basename file_path)) +:+ ".m2ts" in
    let output_path := Path.join destination_dir output_filename in
    if Str.endswith (Str.lower file_path) ".cpi" then
      match find_associated_video file_path with
      | Some video_file =>
          if String.eqb video_file "" then
            Ok (mkstate w (processed_count st) (skipped_count st))
          else Ok (count st (convert_to_m2ts video_file output_path w))
      | None => Ok (mkstate w (processed_count st) (skipped_count st))
      end
    else Ok (count st (convert_to_m2ts file_path output_path w))
  else Ok (mkstate w (processed_count st) (skipped_count st)).

Fixpoint process_loop (files : list string) (st : run_state) : result run_state :=
  match files with
  | [] => Ok st
  | file_path :: rest =>
      st' ← process_file file_path st;
      process_loop rest st'
  end.

(** The four lines printed after the loop. *)
Definition summary (st : run_state) : world :=
  print ("Media organized in: " +:+ destination_root self)
    (print ("Skipped " +:+ pretty (skipped_count st)
              +:+ " files (already existed or errors)")
      (print ("Processed " +:+ pretty (processed_count st) +:+ " files")
        (print (String "010" "Processing complete!") (st_world st)))).

Definition process_media_files (w : world) : result run_state :=
  let files := os_walk E (camera_path self) in
  st ← process_loop files (mkstate w 0 0);
  Ok (mkstate (summary st) (processed_count st) (skipped_count st)).

End Organizer.

(** ** The same methods, with the exception of [print]

    The functions above take every [print] to succeed, which it does
    whenever the standard output can encode the line.  The module below
    repeats them with [write] in the place of [print], so that the
    [UnicodeEncodeError] of a line that cannot be encoded takes its course:
    raised inside an [except] handler, it leaves the handler. *)
Module Strict.

Section Organizer.

Variable E : platform.
Variable self : organizer.

Definition convert_image_to_jpg (input_file output_file : string) (w : world)
  : result (world * bool) :=
  if path_exists w output_file then Ok (w, false)
  else
    let a := mkargs input_file output_file jpg_kwargs in
    match ffmpeg_run E w a with
    | Completed => Ok (after_run a Completed w, true)
    | Failed e partial =>
        w' ← write E ("Error converting " +:+ input_file +:+ " to JPG: " +:+ e)
                   (after_run a (Failed e partial) w);
        Ok (w', false)
    end.

Definition convert_to_m2ts (input_file output_file : string) (w : world)
  : result (world * bool) :=
  if path_exists w output_file then Ok (w, false)
  else
    let a := mkargs input_file output_file m2ts_kwargs in
    match ffmpeg_run E w a with
    | Completed => Ok (after_run a Completed w, true)
    | Failed e partial =>
        w' ← write E ("Error converting " +:+ input_file +:+ " to M2TS: " +:+ e)
                   (after_run a (Failed e partial) w);
        Ok (w', false)
    end.

Definition process_file (file_path : string) (st : run_state) : result run_state :=
  date_str ← get_creation_date E file_path;
  let destination_dir := Path.join (destination_root self) date_str in
  w ← makedirs destination_dir (st_world st);
  if Str.endswith_any (Str.lower file_path) image_exts then
    let output_filename :=
      fst (Path.splitext (Path.basename file_path)) +:+ ".jpg" in
    let output_path := Path.join destination_dir output_filename in
    r ← convert_image_to_jpg file_path output_path w;
    Ok (count st r)
  else if Str.endswith_any (Str.lower file_path) video_exts then
    let output_filename :=
      fst (Path.splitext (Path.basename file_path)) +:+ ".m2ts" in
    let output_path := Path.join destination_dir output_filename in
    if Str.endswith (Str.lower file_path) ".cpi" then
      match find_associated_video E file_path with
      | Some video_file =>
          if String.eqb video_file "" then
            Ok (mkstate w (processed_count st) (skipped_count st))
          else
            r ← convert_to_m2ts video_file output_path w;
            Ok (count st r)
      | None => Ok (mkstate w (processed_count st) (skipped_count st))
      end
    else
      r ← convert_to_m2ts file_path output_path w;
      Ok (count st r)
  else Ok (mkstate w (processed_count st) (skipped_count st)).

Fixpoint process_loop (files : list string) (st : run_state) : result run_state :=
  match files with
  | [] => Ok st
  | file_path :: rest =>
      st' ← process_file file_path st;
      process_loop rest st'
  end.

Definition summary (st : run_state) : result world :=
  w1 ← write E (String "010" "Processing complete!") (st_world st);
  w2 ← write E ("Processed " +:+ pretty (processed_count st) +:+ " files") w1;
  w3 ← write E ("Skipped " +:+ pretty (skipped_count st)
                  +:+ " files (already existed or errors)") w2;
  write E ("Media organized in: " +:+ destination_root self) w3.

Definition process_media_files (w : world) : result run_state :=
  let files := os_walk E (camera_path self) in
  st ← process_loop files (mkstate w 0 0);
  w' ← summary st;
  Ok (mkstate w' (processed_count st) (skipped_count st)).

End Organizer.

End Strict.

(** ** The file classifier *)

(** The program has no classifier function of its own: the category of a
    file is the branch of the [if]/[elif] chain of the loop body that its
    path takes. *)
Inductive category : Type := StillImage | VideoClip | VideoIndex | Unrecognized.

Definition classify (file_path : string) : category :=
  if Str.endswith_any (Str.lower file_path) image_exts then StillImage
  else if Str.endswith_any (Str.lower file_path) video_exts then
    if Str.endswith (Str.lower file_path) ".cpi" then VideoIndex else VideoClip
  else Unrecognized.

(** A path has the extension [ext], case-insensitively: it ends in text
    that equals [ext] up to the case of its letters. *)
Definition has_ext (p ext : string) : Prop :=
  exists stem suf, p = stem +:+ suf /\ Str.lower suf = ext.

(** ** The loop of [Worker.run] in [gui.py] *)

(** The graphical front end does not call [process_media_files]: its
    worker repeats the loop body, without the two counters.  The function
    below is that body as far as it acts on the world; the progress signals
    emitted after each file are not part of the world and are left out. *)
Module Gui.

Section Worker.

Variable E : platform.
Variable destination_path : string.

Definition worker_file (file_path : string) (w0 : world) : result world :=
  date_str ← get_creation_date E file_path;
  let destination_dir := Path.join destination_path date_str in
  w ← makedirs destination_dir w0;
  if Str.endswith_any (Str.lower file_path) image_exts then
    let output_filename :=
      fst (Path.splitext (Path.basename file_path)) +:+ ".jpg" in
    let output_path := Path.join destination_dir output_filename in
    Ok (fst (convert_image_to_jpg E file_path output_path w))
  else if Str.endswith_any (Str.lower file_path) video_exts then
    let output_filename :=
      fst (Path.splitext (Path.basename file_path)) +:+ ".m2ts" in
    let output_path := Path.join destination_dir output_filename in
    if Str.endswith (Str.lower file_path) ".cpi" then
      match find_associated_video E file_path with
      | Some video_file =>
          if String.eqb video_file "" then Ok w
          else Ok (fst (convert_to_m2ts E video_file output_path w))
      | None => Ok w
      end
    else Ok (fst (convert_to_m2ts E file_path output_path w))
  else Ok w.

Fixpoint worker_loop (files : list string) (w : world) : result world :=
  match files with
  | [] => Ok w
  | file_path :: rest =>
      w' ← worker_file file_path w;
      worker_loop rest w'
  end.

End Worker.

End Gui.

(** ** Notions used in the statements *)

(** Nothing stands in the way of [makedirs d]: neither [d] nor a
    directory above it is taken by a file, and the operating system
    refuses none of them that is missing. *)
Definition can_make (w : world) (d : string) : Prop :=
  Forall (fun a => fs w !! a <> Some File
                   /\ (fs w !! a = None -> refused w a = None))
         (d :: Path.parents d).

(** The date folder of a resolved date, and the output path of the job of
    a file, as the loop body computes them. *)
Definition date_dir (self : organizer) (date_str : string) : string :=
  Path.join (destination_root self) date_str.

Definition out_ext (file_path : string) : string :=
  match classify file_path with
  | StillImage => ".jpg"
  | _ => ".m2ts"
  end.

Definition output_path (self : organizer) (date_str file_path : string) : string :=
  Path.join (date_dir self date_str)
    (fst (Path.splitext (Path.basename file_path)) +:+ out_ext file_path).

(** The value of the [creation_time] tag of the first stream that has one. *)
Fixpoint first_creation_time (l : list stream) : option string :=
  match l with
  | [] => None
  | s :: rest =>
      match tags s with
      | Some t =>
          match t !! "creation_time" with
          | Some ct => Some ct
          | None => first_creation_time rest
          end
      | None => first_creation_time rest
      end
  end.

(** The fallback of the date resolver on its own. *)
Definition fs_date (E : platform) (file_path : string) : result string :=
  t ← getctime E file_path;
  dt ← fromtimestamp E t;
  Ok (Strftime.strftime dt).

(** The resolution order as the specification words it: any stream with a
    parseable [creation_time] tag decides the date. *)
Definition date_from_any_stream (E : platform) (file_path : string) : Prop :=
  forall l s t ct dt,
    ffprobe E file_path = Ok (mkprobe (Some l)) ->
    In s l -> tags s = Some t -> t !! "creation_time" = Some ct ->
    Strptime.strptime ct = Ok dt ->
    get_creation_date E file_path = Ok (Strftime.strftime dt).

(** The date resolver as the specification words it: it always returns. *)
Definition never_raises (E : platform) (file_path : string) : Prop :=
  exists date_str, get_creation_date E file_path = Ok date_str.

(** The input of the conversion job of a file, when it has one: the file
    itself for an image or a clip, the paired clip for an index file. *)
Definition job_input (E : platform) (file_path : string) : option string :=
  match classify file_path with
  | StillImage | VideoClip => Some file_path
  | VideoIndex =>
      match find_associated_video E file_path with
      | Some video_file => if String.eqb video_file "" then None else Some video_file
      | None => None
      end
  | Unrecognized => None
  end.

Definition has_job (E : platform) (file_path : string) : bool :=
  match job_input E file_path with Some _ => true | None => false end.

(** The conversion that the loop body calls for a file of a category. *)
Definition convert (E : platform) (file_path : string)
    (input_file output_file : string) (w : world) : world * bool :=
  match classify file_path with
  | StillImage => convert_image_to_jpg E input_file output_file w
  | _ => convert_to_m2ts E input_file output_file w
  end.

Definition job_args (file_path input_file output_file : string) : ffmpeg_args :=
  match classify file_path with
  | StillImage => mkargs input_file output_file jpg_kwargs
  | _ => mkargs input_file output_file m2ts_kwargs
  end.

Definition error_line (file_path input_file msg : string) : string :=
  match classify file_path with
  | StillImage => "Error converting " +:+ input_file +:+ " to JPG: " +:+ msg
  | _ => "Error converting " +:+ input_file +:+ " to M2TS: " +:+ msg
  end.

(** The conversion of a file with the exception of [print]. *)
Definition strict_convert (E : platform) (file_path : string)
    (input_file output_file : string) (w : world) : result (world * bool) :=
  match classify file_path with
  | StillImage => Strict.convert_image_to_jpg E input_file output_file w
  | _ => Strict.convert_to_m2ts E input_file output_file w
  end.

(** The failure handling as the specification words it: whenever the
    encoder fails on a job, the job is logged and counted as skipped, and
    the loop goes on with the next file. *)
Definition failure_is_skipped (E : platform) (self : organizer) : Prop :=
  forall p input st d w msg partial rest,
    job_input E p = Some input ->
    get_creation_date E p = Ok d ->
    makedirs (date_dir self d) (st_world st) = Ok w ->
    path_exists w (output_path self d p) = false ->
    ffmpeg_run E w (job_args p input (output_path self d p)) = Failed msg partial ->
    Strict.process_loop E self (p :: rest) st
    = Strict.process_loop E self rest
        (mkstate
           (print (error_line p input msg)
              (after_run (job_args p input (output_path self d p))
                 (Failed msg partial) w))
           (processed_count st) (S (skipped_count st))).

(** The date that the metadata of a file yields: the parsed [creation_time]
    of the first stream that carries the tag. *)
Definition metadata_date (E : platform) (file_path : string) : option datetime :=
  match ffprobe E file_path with
  | Ok probe =>
      match streams probe with
      | Some l =>
          match first_creation_time l with
          | Some ct =>
              match Strptime.strptime ct with
              | Ok dt => Some dt
              | Raise _ => None
              end
          | None => None
          end
      | None => None
      end
  | Raise _ => None
  end.

(** Reading a folder name back as month, day and year: two digits, a
    dash, two digits, a dash, four digits. *)
Definition mdy_pattern : Re.t (Z * Z * Z) :=
  Re.bind (Re.digits 2 0) (fun m => Re.bind (Re.lit "-") (fun _ =>
  Re.bind (Re.digits 2 0) (fun d => Re.bind (Re.lit "-") (fun _ =>
  Re.bind (Re.digits 4 0) (fun y => Re.ret (m, d, y)))))).

(** A file is already processed in [w]: its date resolves, its date folder
    is there, and the output of its job, if it has one, exists. *)
Definition processed_in (E : platform) (self : organizer) (w : world)
    (file_path : string) : Prop :=
  exists date_str,
    get_creation_date E file_path = Ok date_str /\
    fs w !! date_dir self date_str = Some Dir /\
    (has_job E file_path = true ->
     path_exists w (output_path self date_str file_path) = true).

Definition fully_processed (E : platform) (self : organizer) (w : world)
    (files : list string) : Prop :=
  Forall (processed_in E self w) files.

Definition count_jobs (E : platform) (files : list string) : nat :=
  List.length (List.filter (has_job E) files).

(** The pairer as the specification words it: strip the index extension,
    keep the entries of the parent of the parent whose name starts with the
    base name and carries the clip extension, take the first in
    lexicographic order. *)
Fixpoint lex_first (l : list string) : option string :=
  match l with
  | [] => None
  | x :: rest =>
      match lex_first rest with
      | None => Some x
      | Some y => if String.leb x y then Some x else Some y
      end
  end.

Definition spec_pairer (E : platform) (cpi_file : string) : option string :=
  let base := fst (Path.splitext (Path.basename cpi_file)) in
  let dir := Path.dirname (Path.dirname cpi_file) in
  lex_first
    (List.map (Path.join dir)
       (List.filter
          (fun n => Str.startswith n base && Str.endswith (Str.lower n) ".mts")
          (listdir E dir))).

(** The pairer agrees with that reading on an index file. *)
Definition pairs_as_specified (E : platform) (cpi_file : string) : Prop :=
  find_associated_video E cpi_file = spec_pairer E cpi_file.

(** [s] without its prefix [pre], when it starts with it. *)
Fixpoint drop_prefix (pre s : string) : option string :=
  match pre, s with
  | EmptyString, _ => Some s
  | String a pre', String b s' =>
      if Ascii.eqb a b then drop_prefix pre' s' else None
  | String _ _, EmptyString => None
  end.

(** What the pattern [clip_name*.MTS] selects among the names of a
    directory, for a clip name without wildcard characters: the name is
    the clip name, anything, and [.MTS]; a name starting with a dot is
    passed over when the pattern does not start with one. *)
Definition pairs_with (clip_name n : string) : bool :=
  match drop_prefix clip_name n with
  | Some rest =>
      Str.endswith rest ".MTS"
      && (Glob.ishidden (clip_name +:+ "*.MTS") || negb (Glob.ishidden n))
  | None => false
  end.

(** The shape of every result of [dirname]: empty or all slashes, or
    without a trailing slash. *)
Definition dir_norm (d : string) : Prop :=
  Str.rstrip_slash d = "" \/ Str.rstrip_slash d = d.

(** ** Scenarios *)

(** Concrete environments for the examples: the time stamp of a file is
    given directly as its local date and time. *)
Definition tagged (ct : string) : stream :=
  mkstream (Some {[ "creation_time" := ct ]}).

Definition scenario (probe : string -> result probe_result)
    (ctime : string -> result datetime) (ls : string -> list string)
    (run : world -> ffmpeg_args -> run_outcome) (files : list string) : platform :=
  mkplatform datetime probe ctime (fun t => Ok t) ls (fun _ => []) run
             (fun _ => files) (fun _ => true).

Definition empty_world : world := mkworld ∅ [] [] (fun _ => None).

Definition may_2023 : string := "2023-05-01T10:20:30.000000Z".
Definition jan_2022 : datetime := mkdt 2022 1 10 8 0 0 0.

(** The end-to-end scenario of the specification: [a.jpg] and [c.mts]
    carry the date 2023-05-01, [b.png] has no metadata and the file system
    date 2022-01-10. *)
Definition e2e_probe (p : string) : result probe_result :=
  if String.eqb p "/cam/a.jpg" || String.eqb p "/cam/c.mts"
  then Ok (mkprobe (Some [mkstream None; tagged may_2023]))
  else if String.eqb p "/cam/b.png" then Ok (mkprobe (Some [mkstream None]))
  else Raise (FfmpegError "ffprobe error").

Definition e2e : platform :=
  scenario e2e_probe (fun _ => Ok jan_2022) (fun _ => [])
           (fun _ _ => Completed) ["/cam/a.jpg"; "/cam/b.png"; "/cam/c.mts"].

Definition e2e_self : organizer := mkorganizer "/cam" "/out".

(** The world after a first run of the scenario. *)
Definition e2e_done : world :=
  match process_media_files e2e e2e_self empty_world with
  | Ok st => st_world st
  | Raise _ => empty_world
  end.

(** A probe whose first tagged stream is in another format than the
    second one. *)
Definition mixed_probe (p : string) : result probe_result :=
  Ok (mkprobe (Some [tagged "2023-05-01 10:20:30"; tagged may_2023])).

Definition mixed : platform :=
  scenario mixed_probe (fun _ => Ok jan_2022) (fun _ => [])
           (fun _ _ => Completed) ["/cam/c.mts"].

(** A dangling symbolic link: [os.walk] lists it, the probe fails on it
    and so does [os.stat]. *)
Definition dangling : platform :=
  scenario (fun _ => Raise (FfmpegError "ffprobe error")) (fun _ => Raise OSError)
           (fun _ => []) (fun _ _ => Completed) ["/cam/link.jpg"].

(** An AVCHD card whose [BDMV] directory lists two clips for one index
    file, the later name first. *)
Definition avchd_ls (d : string) : list string :=
  if String.eqb d "/cam/BDMV" then ["00001b.MTS"; "00001a.MTS"; "00002.MTS"] else [].

Definition avchd : platform :=
  scenario (fun _ => Raise (FfmpegError "ffprobe error")) (fun _ => Ok jan_2022)
           avchd_ls (fun _ _ => Completed)
           ["/cam/BDMV/CLIPINF/00001.CPI"; "/cam/BDMV/CLIPINF/00002.cpi"].

(** An encoder that fails on every input and leaves nothing behind. *)
Definition broken_encoder : platform :=
  scenario e2e_probe (fun _ => Ok jan_2022) (fun _ => [])
           (fun _ _ => Failed "ffmpeg error" false)
           ["/cam/a.jpg"; "/cam/b.png"].

(** A standard output that holds ASCII text only, and a card with a file
    whose name is not ASCII (the byte FF, which no encoding of file names
    decodes); the encoder fails on every input. *)
Fixpoint is_ascii (s : string) : bool :=
  match s with
  | EmptyString => true
  | String c s' => (Utf8.byte c <? 128)%Z && is_ascii s'
  end.

Definition odd_name : string := "/cam/" +:+ String "255" ".jpg".

Definition ascii_stdout : platform :=
  mkplatform datetime e2e_probe (fun _ => Ok jan_2022) (fun t => Ok t)
             (fun _ => []) (fun _ => [])
             (fun _ _ => Failed "ffmpeg error" false)
             (fun _ => [odd_name; "/cam/b.png"]) is_ascii.

(** A card that holds only files the program does not recognize. *)
Definition notes_only : platform :=
  scenario (fun _ => Raise (FfmpegError "ffprobe error")) (fun _ => Ok jan_2022)
           (fun _ => []) (fun _ _ => Completed) ["/cam/notes.txt"; "/cam/x/readme"].

(** ** Further notions *)

(** The number of jobs of one file: one or none. *)
Definition job_count (E : platform) (p : string) : nat :=
  if has_job E p then 1 else 0.

(** The canonical text of the format [%Y-%m-%dT%H:%M:%S.%fZ] that
    [get_creation_date] parses, with all digits: four for the year (what
    [strftime] prints from the year 1000 on), two for the other fields
    and six for the fraction. *)
Definition pad6 (n : Z) : string :=
  String (Strftime.digit_char (n / 100000))
    (String (Strftime.digit_char (n / 10000)) (Strftime.pad4 n)).

Definition isoformat (dt : datetime) : string :=
  Strftime.pad4 (year dt) +:+ "-" +:+ Strftime.pad2 (month dt) +:+ "-"
  +:+ Strftime.pad2 (day dt) +:+ "T" +:+ Strftime.pad2 (hour dt) +:+ ":"
  +:+ Strftime.pad2 (minute dt) +:+ ":" +:+ Strftime.pad2 (second dt) +:+ "."
  +:+ pad6 (microsecond dt) +:+ "Z".

(** The values a [datetime] object can hold. *)
Definition well_formed (dt : datetime) : Prop :=
  (1 <= year dt <= 9999 /\ 1 <= month dt <= 12
   /\ 1 <= day dt <= Strptime.days_in_month (year dt) (month dt)
   /\ 0 <= hour dt <= 23 /\ 0 <= minute dt <= 59 /\ 0 <= second dt <= 59
   /\ 0 <= microsecond dt <= 999999)%Z.

(** ** [get_path_input] *)

Module Text.

(** The number of bytes of the white-space character that [s] starts
    with; 0 when it starts with none. *)
Definition space_width (s : string) : nat :=
  match Utf8.decode s with
  | Some (cp, r) =>
      if Utf8.is_space cp then String.length s - String.length r else 0
  | None => 0
  end.

(** [s.lstrip()]; [skip] counts the bytes of a white-space character that
    are still to be dropped. *)
Fixpoint lstrip_go (skip : nat) (s : string) : string :=
  match s with
  | EmptyString => EmptyString
  | String _ s' =>
      match skip with
      | S k => lstrip_go k s'
      | O =>
          match space_width s with
          | O => s
          | S k => lstrip_go k s'
          end
      end
  end.

Definition lstrip (s : string) : string := lstrip_go 0 s.

(** [s.rstrip()]: the text is cut where only white space follows. *)
Fixpoint rstrip (s : string) : string :=
  match s with
  | EmptyString => EmptyString
  | String c s' =>
      if String.eqb (lstrip s) "" then EmptyString else String c (rstrip s')
  end.

(** [s.strip()]. *)
Definition strip (s : string) : string := rstrip (lstrip s).

Definition nl : string := String "010" EmptyString.

End Text.

(** How a call that reads the terminal ends: with a value, with [EOFError]
    when the input is exhausted, or with an exception of [print] or of the
    file system. *)
Inductive outcome (A : Type) : Type :=
  | Returned (a : A)
  | EOFError
  | Raised (e : exn).
Arguments Returned {A} a.
Arguments EOFError {A}.
Arguments Raised {A} e.

(** [os.makedirs(path)] without [exist_ok]: the empty path is refused
    with [FileNotFoundError] and a path that is taken with
    [FileExistsError]; otherwise the missing directories above the path
    are created, and then the directory itself. *)
Definition makedirs_new (d : string) (w : world) : result world :=
  if String.eqb d "" then Raise FileNotFoundError
  else match fs w !! d with
       | Some _ => Raise FileExistsError
       | None =>
           w1 ← ensure_dirs (rev (Path.parents d)) w;
           match refused w1 d with
           | Some e => Raise e
           | None => Ok (add_dir d w1)
           end
       end.

(** What [os.makedirs] has made when it raises: the directories above the
    path that it created before the one that failed. *)
Fixpoint ensure_dirs_left (l : list string) (w : world) : world :=
  match l with
  | [] => w
  | a :: rest =>
      match fs w !! a with
      | Some Dir => ensure_dirs_left rest w
      | Some File => w
      | None =>
          match refused w a with
          | Some _ => w
          | None => ensure_dirs_left rest (add_dir a w)
          end
      end
  end.

Definition makedirs_new_left (d : string) (w : world) : world :=
  if String.eqb d "" then w
  else match fs w !! d with
       | Some _ => w
       | None => ensure_dirs_left (rev (Path.parents d)) w
       end.

Section PathInput.

(** The terminal: [inputs] are the lines still to be read; [input(prompt)]
    writes the prompt (an entry of [stdout] of its own) and takes the next
    line. *)
Variable E : platform.
Variable path_type : string.

Definition enter_prompt : string :=
  Text.nl +:+ "Enter the " +:+ path_type +:+ " path: ".

Definition create_prompt (path : string) : string :=
  "Folder '" +:+ path +:+ "' doesn't exist. Create it? (y/n): ".

Definition invalid_line : string :=
  "Error: Invalid " +:+ path_type +:+ " path. Please try again.".

(** The [while True] loop. *)
Fixpoint ask_path (inputs : list string) (w : world)
  : world * list string * outcome string :=
  match write E enter_prompt w with
  | Raise e => (w, inputs, Raised e)
  | Ok w1 =>
      match inputs with
      | [] => (w1, [], EOFError)
      | line :: rest =>
          let path := Text.strip line in
          if String.eqb path_type "camera" && path_exists w1 path
          then (w1, rest, Returned path)
          else if String.eqb path_type "destination" then
            if path_exists w1 path then (w1, rest, Returned path)
            else
              match write E (create_prompt path) w1 with
              | Raise e => (w1, rest, Raised e)
              | Ok w2 =>
                  match rest with
                  | [] => (w2, [], EOFError)
                  | answer :: rest' =>
                      if String.eqb (Str.lower answer) "y" then
                        match makedirs_new path w2 with
                        | Ok w3 => (w3, rest', Returned path)
                        | Raise e => (makedirs_new_left path w2, rest', Raised e)
                        end
                      else
                        match write E invalid_line w2 with
                        | Raise e => (w2, rest', Raised e)
                        | Ok w3 => ask_path rest' w3
                        end
                  end
              end
          else
            match write E invalid_line w1 with
            | Raise e => (w1, rest, Raised e)
            | Ok w2 => ask_path rest w2
            end
      end
  end.

Definition previous_prompt (current_path : string) : string :=
  Text.nl +:+ "Previous " +:+ path_type +:+ " path: " +:+ current_path
  +:+ Text.nl +:+ "Use previous path? (y/n): ".

Definition get_path_input (current_path : string) (inputs : list string)
    (w : world) : world * list string * outcome string :=
  if String.eqb current_path "" then ask_path inputs w
  else
    match write E (previous_prompt current_path) w with
    | Raise e => (w, inputs, Raised e)
    | Ok w1 =>
        match inputs with
        | [] => (w1, [], EOFError)
        | use_previous :: rest =>
            if String.eqb (Str.lower use_previous) "y"
            then (w1, rest, Returned current_path)
            else ask_path rest w1
        end
    end.

End PathInput.

(** The no-break space U+00A0, in UTF-8. *)
Definition nbsp : string := String "194" (String "160" "").

(** A terminal session for the examples: the folder [/cam] exists. *)
Definition with_cam : world := mkworld {[ "/cam" := Dir ]} [] [] (fun _ => None).

(** Two images of the same day with the same stem, in two folders of the
    card. *)
Definition twins : platform :=
  scenario (fun _ => Raise (FfmpegError "ffprobe error")) (fun _ => Ok jan_2022)
           (fun _ => []) (fun _ _ => Completed)
           ["/cam/a/IMG_1.jpg"; "/cam/b/IMG_1.png"].

(** An encoder that fails on every input and leaves a truncated file. *)
Definition truncating_encoder : platform :=
  scenario e2e_probe (fun _ => Ok jan_2022) (fun _ => [])
           (fun _ _ => Failed "ffmpeg error" true) ["/cam/a.jpg"].

(** A destination in which the folder name of the scenario is taken by a
    file. *)
(** A destination root that is a regular file. *)
Definition root_is_file : world := mkworld {[ "/out" := File ]} [] [] (fun _ => None).

Definition blocked : world :=
  mkworld {[ "/out/01-10-2022" := File ]} [] [] (fun _ => None).

(** * Properties *)

(** ** The library functions on concrete inputs *)

Example lower_ex : Str.lower "DCIM/IMG_01.JpG" = "dcim/img_01.jpg".
Proof. reflexivity. Qed.
Example remove_ex : Str.remove_all "A.CPI.CPIx" ".CPI" = "Ax".
Proof. reflexivity. Qed.
Example dirname_ex1 : Path.dirname "/a//b" = "/a". Proof. reflexivity. Qed.
Example dirname_ex2 : Path.dirname "//b" = "//". Proof. reflexivity. Qed.
Example dirname_ex3 : Path.dirname "b" = "". Proof. reflexivity. Qed.
Example basename_ex : Path.basename "/a/b.c/" = "". Proof. reflexivity. Qed.
Example splitext_ex1 : Path.splitext "a.b/..x.tar.gz" = ("a.b/..x.tar", ".gz").
Proof. reflexivity. Qed.
Example splitext_ex2 : Path.splitext "a/.jpg" = ("a/.jpg", "").
Proof. reflexivity. Qed.
Example join_ex : Path.join "/d" "x" = "/d/x" /\ Path.join "/d/" "x" = "/d/x"
                  /\ Path.join "" "x" = "x" /\ Path.join "/d" "/x" = "/x".
Proof. repeat split. Qed.
Example strptime_ex1 :
  Strptime.strptime "2023-05-01T12:34:56.000000Z" = Ok (mkdt 2023 5 1 12 34 56 0).
Proof. reflexivity. Qed.
Example strptime_ex2 :
  Strptime.strptime "2023-5-1t2:3:4.5z" = Ok (mkdt 2023 5 1 2 3 4 500000).
Proof. reflexivity. Qed.
Example strptime_ex3 : Strptime.strptime "2023-05-01T12:34:56Z" = Raise ValueError.
Proof. reflexivity. Qed.
Example strptime_ex4 : Strptime.strptime "2023-02-29T12:34:56.0Z" = Raise ValueError.
Proof. reflexivity. Qed.
Example strptime_ex5 : Strptime.strptime "2024-02-29T12:34:56.0Z"
                       = Ok (mkdt 2024 2 29 12 34 56 0).
Proof. reflexivity. Qed.
Example strptime_ex6 : Strptime.strptime "2023-05-01 12:34:56" = Raise ValueError.
Proof. reflexivity. Qed.
Example strptime_ex7 : Strptime.strptime "2023-13-01T12:34:56.0Z" = Raise ValueError.
Proof. reflexivity. Qed.
Example strftime_ex :
  Strftime.strftime (mkdt 2023 5 1 12 34 56 0) = "05-01-2023".
Proof. reflexivity. Qed.
(** The year 2023 in Arabic-Indic digits (U+0662 U+0660 U+0662 U+0663):
    [\d] takes them, the [[0-9]] of the fraction does not. *)
Example strptime_ex8 :
  Strptime.strptime
    (String "217" (String "162" (String "217" (String "160"
       (String "217" (String "162" (String "217" (String "163"
          "-05-01T10:20:30.000000Z"))))))))
  = Ok (mkdt 2023 5 1 10 20 30 0).
Proof. vm_compute. reflexivity. Qed.
Example strptime_ex9 :
  Strptime.strptime
    ("2023-05-01T10:20:30.00000" +:+ String "217" (String "160" "Z"))
  = Raise ValueError.
Proof. vm_compute. reflexivity. Qed.
(** Below the year 1000 the year is printed without leading zeros. *)
Example strftime_ex2 :
  Strftime.strftime (mkdt 999 5 1 0 0 0 0) = "05-01-999".
Proof. reflexivity. Qed.
(** [str.strip] takes the no-break space U+00A0 and the next line U+0085
    with the blanks. *)
Example strip_ex :
  Text.strip (String "194" (String "160" " /cam ") +:+ String "194" (String "133" ""))
  = "/cam".
Proof. vm_compute. reflexivity. Qed.
Example parents_ex :
  Path.parents "/out/2023/05-01-2023" = ["/out/2023"; "/out"]
  /\ Path.parents "out/05-01-2023" = ["out"] /\ Path.parents "05-01-2023" = [].
Proof. repeat split. Qed.
Example makedirs_ex :
  makedirs "/out/05-01-2023" root_is_file = Raise NotADirectoryError
  /\ makedirs "/out/01-10-2022" blocked = Raise FileExistsError.
Proof. split; reflexivity. Qed.
Example fnmatch_ex : Glob.fnmatch "00001*.MTS" "00001.MTS" = true
                     /\ Glob.fnmatch "00001*.MTS" "00001_a.MTS" = true
                     /\ Glob.fnmatch "00001*.MTS" "00001.mts" = false
                     /\ Glob.fnmatch "A.M*.MTS" "A.MTS" = false.
Proof. repeat split. Qed.

(** ** Facts about strings *)

Section StringFacts.

Lemma app_empty_r (s : string) : s +:+ "" = s.
Proof. induction s; simpl; congruence. Qed.

Lemma app_assoc_s (a b c : string) : (a +:+ b) +:+ c = a +:+ (b +:+ c).
Proof. induction a; simpl; congruence. Qed.

Lemma lower_app (a b : string) : Str.lower (a +:+ b) = Str.lower a +:+ Str.lower b.
Proof. induction a; simpl; congruence. Qed.

Lemma lower_split (p a b : string) :
  Str.lower p = a +:+ b ->
  exists x y, p = x +:+ y /\ Str.lower x = a /\ Str.lower y = b.
Proof.
  revert p. induction a as [|c a IH]; intros p H; simpl in H.
  - exists "", p. auto.
  - destruct p as [|d p]; [discriminate|]. simpl in H.
    injection H as Hc Hp. destruct (IH _ Hp) as (x & y & -> & Hx & Hy).
    exists (String d x), y. simpl. rewrite Hc, Hx. auto.
Qed.

Lemma endswith_eq (s suf : string) :
  Str.endswith s suf =
  if String.eqb s suf then true
  else match s with
       | EmptyString => false
       | String _ s' => Str.endswith s' suf
       end.
Proof. destruct s; reflexivity. Qed.

Lemma endswith_spec (s suf : string) :
  Str.endswith s suf = true <-> exists pre, s = pre +:+ suf.
Proof.
  split.
  - induction s as [|c s IH]; rewrite endswith_eq.
    + destruct (String.eqb_spec "" suf) as [<-|]; [|discriminate].
      intros _. exists "". reflexivity.
    + destruct (String.eqb_spec (String c s) suf) as [<-|].
      * intros _. exists "". reflexivity.
      * intros H. destruct (IH H) as [pre ->]. exists (String c pre). reflexivity.
  - intros [pre ->]. induction pre as [|c pre IH].
    + rewrite endswith_eq. simpl. rewrite String.eqb_refl. reflexivity.
    + change (String c pre +:+ suf) with (String c (pre +:+ suf)).
      rewrite endswith_eq. destruct (String.eqb _ _); [reflexivity|exact IH].
Qed.

Lemma endswith_lower_ext (p ext : string) :
  Str.endswith (Str.lower p) ext = true <-> has_ext p ext.
Proof.
  rewrite endswith_spec. split.
  - intros [pre H]. destruct (lower_split _ _ _ H) as (x & y & -> & _ & Hy).
    exists x, y. auto.
  - intros (x & y & -> & Hy). exists (Str.lower x).
    rewrite lower_app, Hy. reflexivity.
Qed.

Lemma app_length_s (a b : string) :
  String.length (a +:+ b) = (String.length a + String.length b)%nat.
Proof. induction a; simpl; congruence. Qed.

Lemma app_inv_head_s (a b c : string) : a +:+ b = a +:+ c -> b = c.
Proof. induction a as [|x a IH]; simpl; [auto|]. intros [= H]. auto. Qed.

End StringFacts.

(** ** Facts about paths *)

Section PathFacts.

Lemma contains_app (c : ascii) (a b : string) :
  Str.contains c (a +:+ b) = Str.contains c a || Str.contains c b.
Proof.
  induction a as [|x a IH]; simpl; [reflexivity|].
  rewrite IH. apply orb_assoc.
Qed.

Lemma startswith_no_sep (x : string) :
  Str.contains "/" x = false -> Str.startswith x "/" = false.
Proof.
  destruct x as [|c x]; simpl; [reflexivity|].
  intros H. apply orb_false_elim in H as [-> _]. reflexivity.
Qed.

Lemma endswith_slash_last (d : string) :
  Str.endswith d "/" = true <-> Str.last_char d = Some "/"%char.
Proof.
  induction d as [|c d IH]; [simpl; split; discriminate|].
  rewrite endswith_eq. destruct d as [|c' d].
  - simpl. destruct (Ascii.eqb_spec c "/") as [->|Hc]; split; try congruence.
  - change (Str.last_char (String c (String c' d)))
      with (Str.last_char (String c' d)).
    assert (String.eqb (String c (String c' d)) "/" = false) as ->; [|exact IH].
    simpl. destruct (Ascii.eqb c "/"); reflexivity.
Qed.

Lemma last_char_app (a b : string) :
  b <> "" -> Str.last_char (a +:+ b) = Str.last_char b.
Proof.
  intros Hb. induction a as [|c a IH]; [reflexivity|].
  simpl String.append. destruct (a +:+ b) eqn:Hab.
  - destruct a; simpl in Hab; [congruence|discriminate].
  - exact IH.
Qed.

Lemma rpartition_no_sep (t : string) :
  Str.contains "/" t = false -> Path.rpartition t = ("", t).
Proof.
  destruct t as [|c t]; simpl; [reflexivity|].
  intros H. apply orb_false_elim in H as [Hc Ht]. rewrite Ht.
  rewrite Ascii.eqb_sym, Hc. reflexivity.
Qed.

Lemma rpartition_app (h t : string) :
  Str.contains "/" t = false -> Str.endswith h "/" = true ->
  Path.rpartition (h +:+ t) = (h, t).
Proof.
  intros Ht. induction h as [|c h IH]; [discriminate|].
  intros Hh. simpl String.append. simpl Path.rpartition.
  destruct h as [|c' h].
  - simpl in Hh. simpl String.append. rewrite Ht.
    destruct (Ascii.eqb c "/"); [reflexivity|discriminate].
  - assert (Hh' : Str.endswith (String c' h) "/" = true).
    { rewrite endswith_eq in Hh.
      assert (String.eqb (String c (String c' h)) "/" = false) as E.
      { simpl. destruct (Ascii.eqb c "/"); reflexivity. }
      rewrite E in Hh. exact Hh. }
    rewrite (IH Hh').
    assert (Str.contains "/" (String c' h +:+ t) = true) as ->; [|reflexivity].
    rewrite contains_app. apply orb_true_intro. left.
    apply endswith_spec in Hh' as [pre ->]. rewrite contains_app.
    simpl. apply orb_true_r.
Qed.

Lemma rpartition_tail_no_sep (p : string) :
  Str.contains "/" (snd (Path.rpartition p)) = false.
Proof.
  induction p as [|c p IH]; [reflexivity|].
  simpl. destruct (Str.contains "/" p) eqn:Hp.
  - destruct (Path.rpartition p). exact IH.
  - destruct (Ascii.eqb_spec c "/") as [->|Hc]; simpl; [exact Hp|].
    rewrite Hp. destruct (Ascii.eqb_spec "/" c); [congruence|reflexivity].
Qed.

Lemma basename_no_sep (p : string) : Str.contains "/" (Path.basename p) = false.
Proof. apply rpartition_tail_no_sep. Qed.

Lemma rstrip_app_slash (d : string) :
  Str.rstrip_slash (d +:+ "/") = Str.rstrip_slash d.
Proof.
  induction d as [|c d IH]; [reflexivity|].
  simpl String.append. simpl. rewrite IH. reflexivity.
Qed.

Lemma rstrip_keep (d : string) (c : ascii) :
  Str.last_char d = Some c -> c <> "/"%char -> Str.rstrip_slash d = d.
Proof.
  induction d as [|a d IH]; [discriminate|].
  destruct d as [|a' d].
  - simpl. intros [= ->] Hc. destruct (Ascii.eqb_spec c "/"); [congruence|reflexivity].
  - intros Hl Hc.
    change (Str.last_char (String a (String a' d)))
      with (Str.last_char (String a' d)) in Hl.
    specialize (IH Hl Hc).
    change (Str.rstrip_slash (String a (String a' d)))
      with (match Str.rstrip_slash (String a' d) with
            | EmptyString => if Ascii.eqb a "/" then EmptyString else String a EmptyString
            | r => String a r
            end).
    rewrite IH. reflexivity.
Qed.

Lemma rstrip_empty (d : string) :
  Str.rstrip_slash d = "" -> d = "" \/ Str.last_char d = Some "/"%char.
Proof.
  induction d as [|a d IH]; [auto|].
  simpl. destruct (Str.rstrip_slash d) eqn:Hr; [|discriminate].
  destruct (Ascii.eqb_spec a "/") as [->|]; [|discriminate].
  intros _. right. destruct (IH eq_refl) as [->|Hl]; [reflexivity|].
  destruct d; [discriminate|exact Hl].
Qed.

Lemma rstrip_length (d : string) :
  (String.length (Str.rstrip_slash d) <= String.length d)%nat.
Proof.
  induction d as [|a d IH]; simpl; [lia|].
  destruct (Str.rstrip_slash d); simpl in *; [destruct (Ascii.eqb a "/"); simpl|]; lia.
Qed.

Lemma rstrip_last (d : string) :
  Str.last_char d = Some "/"%char -> Str.rstrip_slash d <> d.
Proof.
  intros Hl E. apply endswith_slash_last, endswith_spec in Hl as [pre ->].
  rewrite rstrip_app_slash in E. pose proof (rstrip_length pre) as L.
  rewrite E, app_length_s in L. simpl in L. lia.
Qed.

Lemma rstrip_idem (d : string) :
  Str.rstrip_slash (Str.rstrip_slash d) = Str.rstrip_slash d.
Proof.
  induction d as [|a d IH]; [reflexivity|].
  simpl. destruct (Str.rstrip_slash d) as [|b r] eqn:Hr.
  - destruct (Ascii.eqb a "/") eqn:Ha; [reflexivity|]. simpl. rewrite Ha. reflexivity.
  - change (Str.rstrip_slash (String a (String b r)))
      with (match Str.rstrip_slash (String b r) with
            | EmptyString => if Ascii.eqb a "/" then EmptyString else String a EmptyString
            | r' => String a r'
            end).
    rewrite IH. reflexivity.
Qed.

Lemma dirname_norm (p : string) : dir_norm (Path.dirname p).
Proof.
  unfold dir_norm, Path.dirname.
  destruct (Str.rstrip_slash (fst (Path.rpartition p))) eqn:Hr.
  - left. exact Hr.
  - right. rewrite <- Hr. apply rstrip_idem.
Qed.

Lemma rpartition_join (d x : string) :
  dir_norm d -> Str.contains "/" x = false ->
  Path.dirname (Path.join d x) = d /\ Path.basename (Path.join d x) = x.
Proof.
  intros Hd Hx. unfold Path.join, Path.dirname, Path.basename.
  rewrite (startswith_no_sep _ Hx).
  destruct (String.eqb_spec d "") as [->|Hne].
  - simpl. rewrite (rpartition_no_sep _ Hx). auto.
  - simpl orb. destruct (Str.endswith d "/") eqn:He.
    + rewrite (rpartition_app _ _ Hx He). simpl. split; [|reflexivity].
      apply endswith_slash_last in He. destruct Hd as [-> | Hd]; [reflexivity|].
      exfalso. exact (rstrip_last _ He Hd).
    + rewrite <- app_assoc_s. rewrite (rpartition_app (d +:+ "/") x Hx).
      2:{ apply endswith_spec. exists d. reflexivity. }
      simpl. rewrite rstrip_app_slash. split; [|reflexivity].
      destruct Hd as [Hd | Hd].
      * exfalso. destruct (rstrip_empty _ Hd) as [?|Hl]; [congruence|].
        apply endswith_slash_last in Hl. congruence.
      * rewrite Hd. destruct d; [congruence|reflexivity].
Qed.

Lemma dir_norm_last (d : string) (c : ascii) :
  Str.last_char d = Some c -> c <> "/"%char -> dir_norm d.
Proof. intros Hl Hc. right. exact (rstrip_keep _ _ Hl Hc). Qed.

End PathFacts.

Example e2e_first_run :
  match process_media_files e2e e2e_self empty_world with
  | Ok st =>
      processed_count st = 3 /\ skipped_count st = 0
      /\ fs (st_world st) !! "/out/05-01-2023/a.jpg" = Some File
      /\ fs (st_world st) !! "/out/05-01-2023/c.m2ts" = Some File
      /\ fs (st_world st) !! "/out/01-10-2022/b.jpg" = Some File
      /\ fs (st_world st) !! "/out/05-01-2023" = Some Dir
  | Raise _ => False
  end.
Proof. vm_compute. repeat split. Qed.

Example e2e_second_run :
  match process_media_files e2e e2e_self empty_world with
  | Ok st1 =>
      match process_media_files e2e e2e_self (st_world st1) with
      | Ok st2 => processed_count st2 = 0 /\ skipped_count st2 = 3
                  /\ ffmpeg_calls (st_world st2) = ffmpeg_calls (st_world st1)
      | Raise _ => False
      end
  | Raise _ => False
  end.
Proof. vm_compute. repeat split. Qed.

Example avchd_pairing :
  find_associated_video avchd "/cam/BDMV/CLIPINF/00001.CPI" = Some "/cam/BDMV/00001b.MTS"
  /\ find_associated_video avchd "/cam/BDMV/CLIPINF/00002.cpi" = None.
Proof. vm_compute. repeat split. Qed.

(** ** Facts about the loop body *)

Lemma bind_ok {A B} (f : A -> result B) (a : A) : mbind f (Ok a) = f a.
Proof. reflexivity. Qed.

Section BodyFacts.

Variable E : platform.
Variable self : organizer.

Lemma suffix_total (a b e1 e2 : string) :
  a +:+ e1 = b +:+ e2 -> (String.length e1 <= String.length e2)%nat ->
  exists c, e2 = c +:+ e1.
Proof.
  revert a. induction b as [|x b IH]; intros a H L.
  - exists a. simpl in H. congruence.
  - destruct a as [|y a].
    + exfalso. simpl in H. apply (f_equal String.length) in H.
      simpl in H. rewrite app_length_s in H. lia.
    + simpl in H. injection H as _ H. exact (IH _ H L).
Qed.

Lemma endswith_both (s e1 e2 : string) :
  Str.endswith s e1 = true -> Str.endswith s e2 = true ->
  (String.length e1 <= String.length e2)%nat -> Str.endswith e2 e1 = true.
Proof.
  intros [a ->]%endswith_spec [b H]%endswith_spec L.
  apply endswith_spec. exact (suffix_total _ _ _ _ H L).
Qed.

(** Two different extensions of the program never match the same path. *)
Lemma endswith_apart (s e1 e2 : string) :
  Str.endswith e2 e1 = false -> Str.endswith e1 e2 = false ->
  Str.endswith s e1 = true -> Str.endswith s e2 = false.
Proof.
  intros N1 N2 H1. destruct (Str.endswith s e2) eqn:H2; [|reflexivity].
  destruct (Nat.le_ge_cases (String.length e1) (String.length e2)) as [L|L].
  - rewrite (endswith_both _ _ _ H1 H2 L) in N1. discriminate.
  - rewrite (endswith_both _ _ _ H2 H1 L) in N2. discriminate.
Qed.

Lemma ensure_dirs_ok (l : list string) (w w' : world) :
  ensure_dirs l w = Ok w' ->
  stdout w' = stdout w /\ ffmpeg_calls w' = ffmpeg_calls w
  /\ refused w' = refused w
  /\ (forall q k, fs w !! q = Some k -> fs w' !! q = Some k)
  /\ (forall q, fs w' !! q = Some File -> fs w !! q = Some File)
  /\ (forall q, fs w' !! q = Some Dir -> fs w !! q = Some Dir \/ In q l).
Proof.
  revert w. induction l as [|a l IH]; intros w.
  - intros [= <-]. repeat split; auto.
  - cbn [ensure_dirs]. destruct (fs w !! a) as [[|]|] eqn:Ha; [discriminate| |].
    + intros H. destruct (IH _ H) as (H1 & H2 & H3 & H4 & H5 & H6).
      repeat split; auto. intros q Hq. destruct (H6 q Hq); simpl; auto.
    + destruct (refused w a) as [e|]; [destruct e; discriminate|].
      intros H. destruct (IH _ H) as (H1 & H2 & H3 & H4 & H5 & H6).
      cbn [add_dir fs stdout ffmpeg_calls refused] in *.
      split; [exact H1|]. split; [exact H2|]. split; [exact H3|]. split; [|split].
      * intros q k Hq. apply H4. rewrite lookup_insert_ne; [exact Hq|congruence].
      * intros q Hq. specialize (H5 q Hq).
        destruct (decide (a = q)) as [->|Hne].
        -- rewrite lookup_insert_eq in H5. discriminate.
        -- rewrite lookup_insert_ne in H5 by exact Hne. exact H5.
      * intros q Hq. destruct (H6 q Hq) as [Hq'|Hq']; [|simpl; auto].
        destruct (decide (a = q)) as [->|Hne]; [simpl; auto|].
        rewrite lookup_insert_ne in Hq' by exact Hne. auto.
Qed.

Lemma makedirs_ok (d : string) (w w' : world) :
  makedirs d w = Ok w' ->
  fs w' !! d = Some Dir /\ stdout w' = stdout w /\ ffmpeg_calls w' = ffmpeg_calls w
  /\ (forall q k, fs w !! q = Some k -> fs w' !! q = Some k)
  /\ (forall q, fs w' !! q = Some File -> fs w !! q = Some File)
  /\ (forall q, fs w' !! q = Some Dir ->
        fs w !! q = Some Dir \/ q = d \/ In q (Path.parents d))
  /\ refused w' = refused w.
Proof.
  unfold makedirs. destruct (fs w !! d) as [[|]|] eqn:Hd; [discriminate| |].
  - intros [= <-]. repeat split; auto.
  - destruct (ensure_dirs _ w) as [w1|] eqn:He; [|discriminate]. rewrite bind_ok.
    destruct (refused w1 d); [discriminate|]. intros [= <-].
    destruct (ensure_dirs_ok _ _ _ He) as (H1 & H2 & H3 & H4 & H5 & H6).
    cbn [add_dir fs stdout ffmpeg_calls refused].
    split; [apply lookup_insert_eq|]. split; [exact H1|]. split; [exact H2|].
    split; [|split; [|split; [|exact H3]]].
    + intros q k Hq. rewrite lookup_insert_ne; [exact (H4 _ _ Hq)|congruence].
    + intros q. destruct (decide (d = q)) as [->|Hne].
      * rewrite lookup_insert_eq. discriminate.
      * rewrite lookup_insert_ne by exact Hne. apply H5.
    + intros q. destruct (decide (d = q)) as [->|Hne]; [auto|].
      rewrite lookup_insert_ne by exact Hne. intros Hq.
      destruct (H6 q Hq) as [?|Hin]; [auto|].
      right. right. apply in_rev. exact Hin.
Qed.

Lemma makedirs_present (d : string) (w : world) :
  fs w !! d = Some Dir -> makedirs d w = Ok w.
Proof. unfold makedirs. intros ->. reflexivity. Qed.

Lemma ensure_dirs_returns (l : list string) (w : world) :
  Forall (fun a => fs w !! a <> Some File
                   /\ (fs w !! a = None -> refused w a = None)) l ->
  exists w', ensure_dirs l w = Ok w'.
Proof.
  revert w. induction l as [|a l IH]; intros w Hall; [simpl; eauto|].
  inversion Hall as [|? ? [Hf Hr] Hrest]; subst. cbn [ensure_dirs].
  destruct (fs w !! a) as [[|]|] eqn:Ha; [congruence|exact (IH _ Hrest)|].
  rewrite (Hr eq_refl). apply IH.
  eapply Forall_impl; [exact Hrest|]. cbv beta.
  intros b [Hb1 Hb2]. cbn [add_dir fs refused].
  destruct (decide (a = b)) as [->|Hne].
  - rewrite lookup_insert_eq. split; discriminate.
  - rewrite lookup_insert_ne by exact Hne. auto.
Qed.

(** [makedirs] returns when nothing stands in its way. *)
Lemma makedirs_returns (d : string) (w : world) :
  can_make w d -> exists w', makedirs d w = Ok w'.
Proof.
  unfold can_make. intros Hall.
  inversion Hall as [|? ? [Hf Hr] Hrest]; subst. unfold makedirs.
  destruct (fs w !! d) as [[|]|] eqn:Hd; [congruence|eauto|].
  destruct (ensure_dirs_returns (rev (Path.parents d)) w) as [w1 He].
  { apply Forall_rev. exact Hrest. }
  rewrite He, bind_ok.
  destruct (ensure_dirs_ok _ _ _ He) as (_ & _ & H3 & _).
  rewrite H3, (Hr eq_refl). eauto.
Qed.

(** What [makedirs] raises: [FileExistsError] for a target that is a
    file, [NotADirectoryError] for a file above it, or the refusal of the
    operating system. *)
Lemma ensure_dirs_raises (l : list string) (w : world) (e : exn) :
  ensure_dirs l w = Raise e ->
  (e = NotADirectoryError /\ exists a, In a l /\ fs w !! a = Some File)
  \/ exists a e', In a l /\ fs w !! a = None /\ refused w a = Some e'.
Proof.
  revert w. induction l as [|a l IH]; intros w; [discriminate|].
  cbn [ensure_dirs]. destruct (fs w !! a) as [[|]|] eqn:Ha.
  - intros [= <-]. left. split; [reflexivity|]. exists a. simpl. auto.
  - intros H. destruct (IH _ H) as [(-> & b & Hb & Hf)|(b & e' & Hb & Hn & Hr)].
    + left. split; [reflexivity|]. exists b. simpl. auto.
    + right. exists b, e'. simpl. auto.
  - destruct (refused w a) as [e0|] eqn:Hr.
    { intros _. right. exists a, e0. simpl. auto. }
    intros H. destruct (IH _ H) as [(-> & b & Hb & Hf)|(b & e' & Hb & Hn & Hr')].
    + left. split; [reflexivity|]. exists b. split; [simpl; auto|].
      cbn [add_dir fs] in Hf. destruct (decide (a = b)) as [->|Hne].
      * rewrite lookup_insert_eq in Hf. discriminate.
      * rewrite lookup_insert_ne in Hf by exact Hne. exact Hf.
    + right. exists b, e'. split; [simpl; auto|].
      cbn [add_dir fs refused] in Hn, Hr'. destruct (decide (a = b)) as [->|Hne].
      * rewrite lookup_insert_eq in Hn. discriminate.
      * rewrite lookup_insert_ne in Hn by exact Hne. auto.
Qed.

Lemma makedirs_raises (d : string) (w : world) (e : exn) :
  makedirs d w = Raise e ->
  (e = FileExistsError /\ fs w !! d = Some File)
  \/ (e = NotADirectoryError
      /\ exists a, In a (Path.parents d) /\ fs w !! a = Some File)
  \/ exists a e', In a (d :: Path.parents d) /\ fs w !! a = None
       /\ refused w a = Some e'.
Proof.
  unfold makedirs. destruct (fs w !! d) as [[|]|] eqn:Hd.
  - intros [= <-]. auto.
  - discriminate.
  - destruct (ensure_dirs _ w) as [w1|e1] eqn:He.
    + rewrite bind_ok. destruct (refused w1 d) as [e0|] eqn:Hr; [|discriminate].
      intros _. destruct (ensure_dirs_ok _ _ _ He) as (_ & _ & H3 & _).
      right. right. exists d, e0. rewrite <- H3. simpl. auto.
    + intros [= <-].
      destruct (ensure_dirs_raises _ _ _ He) as [(-> & a & Ha & Hf)|(a & e' & Ha & Hn & Hr)].
      * right. left. split; [reflexivity|]. exists a. split; [|exact Hf].
        apply in_rev. exact Ha.
      * right. right. exists a, e'. split; [|auto]. right. apply in_rev. exact Ha.
Qed.

(** The loop body, with the branch named by the category of the file. *)
Lemma process_file_eq (p : string) (st : run_state) :
  process_file E self p st =
  (date_str ← get_creation_date E p;
   w ← makedirs (date_dir self date_str) (st_world st);
   match classify p with
   | StillImage =>
       Ok (count st (convert_image_to_jpg E p (output_path self date_str p) w))
   | VideoClip =>
       Ok (count st (convert_to_m2ts E p (output_path self date_str p) w))
   | VideoIndex =>
       match find_associated_video E p with
       | Some video_file =>
           if String.eqb video_file "" then
             Ok (mkstate w (processed_count st) (skipped_count st))
           else Ok (count st (convert_to_m2ts E video_file
                                (output_path self date_str p) w))
       | None => Ok (mkstate w (processed_count st) (skipped_count st))
       end
   | Unrecognized => Ok (mkstate w (processed_count st) (skipped_count st))
   end).
Proof.
  unfold process_file, output_path, out_ext, date_dir.
  destruct (get_creation_date E p) as [d|e]; [|reflexivity].
  change (mbind ?f (Ok d)) with (f d). cbv beta.
  destruct (makedirs _ _) as [w|e]; [|reflexivity].
  change (mbind ?f (Ok w)) with (f w). cbv beta.
  unfold classify.
  destruct (Str.endswith_any (Str.lower p) image_exts); [reflexivity|].
  destruct (Str.endswith_any (Str.lower p) video_exts); [|reflexivity].
  destruct (Str.endswith (Str.lower p) ".cpi"); reflexivity.
Qed.

Lemma worker_file_eq (root : string) (p : string) (w0 : world) (a b : nat) :
  Gui.worker_file E root p w0 =
  (st ← process_file E (mkorganizer "" root) p (mkstate w0 a b);
   Ok (st_world st)).
Proof.
  unfold Gui.worker_file, process_file. simpl destination_root. simpl st_world.
  destruct (get_creation_date E p) as [d|e]; [|reflexivity].
  change (mbind ?f (Ok d)) with (f d). cbv beta.
  destruct (makedirs _ _) as [w|e]; [|reflexivity].
  change (mbind ?f (Ok w)) with (f w). cbv beta.
  destruct (Str.endswith_any (Str.lower p) image_exts).
  { unfold count. destruct (convert_image_to_jpg _ _ _ _) as [w' []]; reflexivity. }
  destruct (Str.endswith_any (Str.lower p) video_exts); [|reflexivity].
  destruct (Str.endswith (Str.lower p) ".cpi").
  - destruct (find_associated_video E p) as [v|]; [|reflexivity].
    destruct (String.eqb v ""); [reflexivity|].
    unfold count. destruct (convert_to_m2ts _ _ _ _) as [w' []]; reflexivity.
  - unfold count. destruct (convert_to_m2ts _ _ _ _) as [w' []]; reflexivity.
Qed.

(** The loop of the worker acts on the world as [process_loop] does. *)
Lemma worker_loop_eq (root : string) (files : list string) (w0 : world) (a b : nat) :
  Gui.worker_loop E root files w0 =
  (st ← process_loop E (mkorganizer "" root) files (mkstate w0 a b);
   Ok (st_world st)).
Proof.
  revert w0 a b. induction files as [|p files IH]; intros w0 a b; [reflexivity|].
  simpl. rewrite (worker_file_eq root p w0 a b).
  destruct (process_file E (mkorganizer "" root) p (mkstate w0 a b))
    as [[w1 a1 b1]|e]; [|reflexivity].
  change (mbind ?f (Ok ?x)) with (f x). cbv beta. simpl st_world.
  apply IH.
Qed.

End BodyFacts.

(** ** The claims *)

Ltac apart H :=
  match type of H with
  | Str.endswith ?s ?e1 = true =>
      repeat match goal with
      | |- context [Str.endswith s ?e2] =>
          lazymatch e2 with
          | e1 => fail
          | _ => rewrite (endswith_apart s e1 e2 eq_refl eq_refl H)
          end
      end
  end.

Lemma classify_by_ext (p : string) :
  (classify p = StillImage <->
     has_ext p ".jpg" \/ has_ext p ".jpeg" \/ has_ext p ".png"
     \/ has_ext p ".bmp" \/ has_ext p ".tiff")
  /\ (classify p = VideoClip <-> has_ext p ".mts")
  /\ (classify p = VideoIndex <-> has_ext p ".cpi")
  /\ (classify p = Unrecognized <->
        ~ (has_ext p ".jpg" \/ has_ext p ".jpeg" \/ has_ext p ".png"
           \/ has_ext p ".bmp" \/ has_ext p ".tiff"
           \/ has_ext p ".mts" \/ has_ext p ".cpi")).
Proof.
  rewrite <- !endswith_lower_ext.
  unfold classify, Str.endswith_any, image_exts, video_exts. simpl existsb.
  set (s := Str.lower p).
  destruct (Str.endswith s ".jpg") eqn:H1.
  { apart H1. simpl. intuition congruence. }
  destruct (Str.endswith s ".jpeg") eqn:H2.
  { apart H2. simpl. intuition congruence. }
  destruct (Str.endswith s ".png") eqn:H3.
  { apart H3. simpl. intuition congruence. }
  destruct (Str.endswith s ".bmp") eqn:H4.
  { apart H4. simpl. intuition congruence. }
  destruct (Str.endswith s ".tiff") eqn:H5.
  { apart H5. simpl. intuition congruence. }
  destruct (Str.endswith s ".mts") eqn:H6.
  { apart H6. simpl. intuition congruence. }
  destruct (Str.endswith s ".cpi") eqn:H7; simpl; intuition congruence.
Qed.

(** C1. The loop body branches on a case-insensitive match of the ending
    of the path alone: [.jpg], [.jpeg], [.png], [.bmp] and [.tiff] make a
    still image, which it hands to the image converter; [.mts] a video
    clip, which it hands to the video converter; [.cpi] a video index,
    for which it hands the paired clip, if there is one, to the video
    converter; and any other path is unrecognized: on it the loop body
    changes neither counter, runs no encoder, prints nothing and creates
    no file. *)
Theorem classification_by_extension (E : platform) (self : organizer) (p : string) :
  ((classify p = StillImage <->
      has_ext p ".jpg" \/ has_ext p ".jpeg" \/ has_ext p ".png"
      \/ has_ext p ".bmp" \/ has_ext p ".tiff")
   /\ (classify p = VideoClip <-> has_ext p ".mts")
   /\ (classify p = VideoIndex <-> has_ext p ".cpi")
   /\ (classify p = Unrecognized <->
         ~ (has_ext p ".jpg" \/ has_ext p ".jpeg" \/ has_ext p ".png"
            \/ has_ext p ".bmp" \/ has_ext p ".tiff"
            \/ has_ext p ".mts" \/ has_ext p ".cpi")))
  /\ (forall st,
        process_file E self p st =
        (date_str ← get_creation_date E p;
         w ← makedirs (Path.join (destination_root self) date_str) (st_world st);
         let out ext := Path.join (Path.join (destination_root self) date_str)
                          (fst (Path.splitext (Path.basename p)) +:+ ext) in
         match classify p with
         | StillImage => Ok (count st (convert_image_to_jpg E p (out ".jpg") w))
         | VideoClip => Ok (count st (convert_to_m2ts E p (out ".m2ts") w))
         | VideoIndex =>
             match find_associated_video E p with
             | Some video_file =>
                 if String.eqb video_file "" then
                   Ok (mkstate w (processed_count st) (skipped_count st))
                 else Ok (count st (convert_to_m2ts E video_file (out ".m2ts") w))
             | None => Ok (mkstate w (processed_count st) (skipped_count st))
             end
         | Unrecognized => Ok (mkstate w (processed_count st) (skipped_count st))
         end))
  /\ (~ (has_ext p ".jpg" \/ has_ext p ".jpeg" \/ has_ext p ".png"
         \/ has_ext p ".bmp" \/ has_ext p ".tiff"
         \/ has_ext p ".mts" \/ has_ext p ".cpi") ->
      forall st st', process_file E self p st = Ok st' ->
        processed_count st' = processed_count st
        /\ skipped_count st' = skipped_count st
        /\ ffmpeg_calls (st_world st') = ffmpeg_calls (st_world st)
        /\ stdout (st_world st') = stdout (st_world st)
        /\ (forall q, fs (st_world st') !! q = Some File <->
                      fs (st_world st) !! q = Some File)).
Proof.
  split; [apply classify_by_ext|]. split.
  - intros st. rewrite process_file_eq. unfold output_path, out_ext, date_dir.
    destruct (get_creation_date E p) as [d|e]; [|reflexivity]. rewrite !bind_ok.
    destruct (makedirs _ _) as [w|e]; [|reflexivity]. rewrite !bind_ok.
    cbv zeta. destruct (classify p); reflexivity.
  - intros Hc st st'. apply (proj2 (proj2 (proj2 (classify_by_ext p)))) in Hc.
    rewrite process_file_eq, Hc.
    destruct (get_creation_date E p) as [d|e]; [|discriminate].
    change (mbind ?f (Ok d)) with (f d). cbv beta.
    destruct (makedirs _ _) as [w|e] eqn:Hm; [|discriminate].
    intros [= <-]. simpl.
    destruct (makedirs_ok _ _ _ Hm) as (_ & Ho & Hcalls & Hup & Hdown & _).
    repeat split; auto.
Qed.

(** ** Facts about dates *)

Section DateFacts.

Lemma in_bind {A B} (p : Re.t A) (f : A -> Re.t B) (s : string) (x : B * string) :
  In x (Re.bind p f s) <-> exists a r, In (a, r) (p s) /\ In x (f a r).
Proof.
  unfold Re.bind. rewrite in_flat_map. split.
  - intros [[a r] [H1 H2]]. exists a, r. auto.
  - intros (a & r & H1 & H2). exists (a, r). auto.
Qed.

Lemma in_alt {A} (p q : Re.t A) (s : string) (x : A * string) :
  In x (Re.alt p q s) <-> In x (p s) \/ In x (q s).
Proof. unfold Re.alt. apply in_app_iff. Qed.

Lemma in_ret {A} (a : A) (s : string) (x : A * string) :
  In x (Re.ret a s) -> x = (a, s).
Proof. intros [H|[]]. congruence. Qed.

Lemma in_cls (lo hi : Z) (s : string) (v : Z) (r : string) :
  In (v, r) (Re.cls lo hi s) -> (lo <= v <= hi)%Z.
Proof.
  unfold Re.cls. destruct s as [|c s]; [intros []|].
  destruct (Re.ascii_digit c) as [d|]; [|intros []].
  destruct ((lo <=? d)%Z && (d <=? hi)%Z) eqn:Hb; [|intros []].
  intros [[= <- _]|[]]. apply andb_true_iff in Hb as [H1 H2]. lia.
Qed.

Lemma in_two (a b c d : Z) (s : string) (v : Z) (r : string) :
  In (v, r) (Re.two a b c d s) -> (10 * a + c <= v <= 10 * b + d)%Z.
Proof.
  unfold Re.two. intros (x & r1 & Hx & H)%in_bind.
  apply in_bind in H as (y & r2 & Hy & H). apply in_ret in H as [= -> _].
  apply in_cls in Hx, Hy. lia.
Qed.

Lemma in_digits4 (s : string) (v : Z) (r : string) :
  In (v, r) (Re.digits 4 0 s) -> (0 <= v <= 9999)%Z.
Proof.
  simpl. intros (a & r1 & Ha & H)%in_bind.
  apply in_bind in H as (b & r2 & Hb & H).
  apply in_bind in H as (c & r3 & Hc & H).
  apply in_bind in H as (d & r4 & Hd & H).
  apply in_ret in H as [= -> _].
  apply in_cls in Ha, Hb, Hc, Hd. lia.
Qed.

(** The value of a Unicode digit is one of 0 to 9. *)
Lemma digit_value_range (cp v : Z) :
  Utf8.digit_value cp = Some v -> (0 <= v <= 9)%Z.
Proof.
  unfold Utf8.digit_value.
  destruct (find _ Utf8.digit_zeros) as [z|] eqn:Hf; [|discriminate].
  apply find_some in Hf as [_ Hz]. intros [= <-].
  apply andb_true_iff in Hz as [H1 H2]. lia.
Qed.

Lemma in_dec (s : string) (v : Z) (r : string) :
  In (v, r) (Re.dec s) -> (0 <= v <= 9)%Z.
Proof.
  unfold Re.dec. destruct (Utf8.decode s) as [[cp r']|]; [|intros []].
  destruct (Utf8.digit_value cp) as [d|] eqn:Hd; [|intros []].
  intros [[= <- _]|[]]. exact (digit_value_range _ _ Hd).
Qed.

Lemma in_two_d (a b : Z) (s : string) (v : Z) (r : string) :
  In (v, r) (Re.two_d a b s) -> (10 * a <= v <= 10 * b + 9)%Z.
Proof.
  unfold Re.two_d. intros (x & r1 & Hx & H)%in_bind.
  apply in_bind in H as (y & r2 & Hy & H). apply in_ret in H as [= -> _].
  apply in_cls in Hx. apply in_dec in Hy. lia.
Qed.

Lemma in_decs4 (s : string) (v : Z) (r : string) :
  In (v, r) (Re.decs 4 0 s) -> (0 <= v <= 9999)%Z.
Proof.
  simpl. intros (a & r1 & Ha & H)%in_bind.
  apply in_bind in H as (b & r2 & Hb & H).
  apply in_bind in H as (c & r3 & Hc & H).
  apply in_bind in H as (d & r4 & Hd & H).
  apply in_ret in H as [= -> _].
  apply in_dec in Ha, Hb, Hc, Hd. lia.
Qed.

Lemma in_grp_m (s : string) (v : Z) (r : string) :
  In (v, r) (Strptime.grp_m s) -> (1 <= v <= 12)%Z.
Proof.
  unfold Strptime.grp_m. rewrite !in_alt.
  intros [H|[H|H]]; [apply in_two in H|apply in_two in H|apply in_cls in H]; lia.
Qed.

Lemma in_grp_d (s : string) (v : Z) (r : string) :
  In (v, r) (Strptime.grp_d s) -> (1 <= v <= 31)%Z.
Proof.
  unfold Strptime.grp_d. rewrite !in_alt.
  intros [H|[H|[H|[H|H]]]];
    [apply in_two in H|apply in_two_d in H|apply in_two in H|apply in_cls in H|];
    try lia.
  apply in_bind in H as (x & r1 & _ & H). apply in_cls in H. lia.
Qed.

(** What [strptime] accepts is a date of the calendar of [datetime]. *)
Lemma strptime_range (s : string) (dt : datetime) :
  Strptime.strptime s = Ok dt ->
  (1 <= year dt <= 9999 /\ 1 <= month dt <= 12 /\ 1 <= day dt <= 31)%Z.
Proof.
  unfold Strptime.strptime.
  destruct (Strptime.iso_pattern s) as [|[dt' [|? ?]] rest] eqn:Hp; try discriminate.
  destruct (Strptime.valid dt') eqn:Hv; [|discriminate]. intros [= ->].
  assert (Hin : In (dt, "") (Strptime.iso_pattern s)) by (rewrite Hp; left; reflexivity).
  clear Hp. unfold Strptime.iso_pattern in Hin.
  apply in_bind in Hin as (Y & r1 & HY & Hin).
  apply in_bind in Hin as (? & r2 & _ & Hin).
  apply in_bind in Hin as (m & r3 & Hm & Hin).
  apply in_bind in Hin as (? & r4 & _ & Hin).
  apply in_bind in Hin as (d & r5 & Hd & Hin).
  apply in_bind in Hin as (? & r6 & _ & Hin).
  apply in_bind in Hin as (H & r7 & _ & Hin).
  apply in_bind in Hin as (? & r8 & _ & Hin).
  apply in_bind in Hin as (M & r9 & _ & Hin).
  apply in_bind in Hin as (? & r10 & _ & Hin).
  apply in_bind in Hin as (S & r11 & _ & Hin).
  apply in_bind in Hin as (? & r12 & _ & Hin).
  apply in_bind in Hin as (f & r13 & _ & Hin).
  apply in_bind in Hin as (? & r14 & _ & Hin).
  apply in_ret in Hin as [= -> _].
  apply in_decs4 in HY. apply in_grp_m in Hm. apply in_grp_d in Hd.
  unfold Strptime.valid in Hv. simpl in *.
  apply andb_true_iff in Hv as [Hv _]. apply andb_true_iff in Hv as [Hv _].
  lia.
Qed.

Lemma digit_of_char (d : Z) :
  Re.ascii_digit (Strftime.digit_char d) = Some (d mod 10)%Z.
Proof.
  unfold Re.ascii_digit, Strftime.digit_char.
  pose proof (Z.mod_pos_bound d 10 ltac:(lia)) as Hb.
  rewrite nat_ascii_embedding by lia.
  assert ((48 <=? 48 + Z.to_nat (d mod 10))%nat = true) as -> by (apply Nat.leb_le; lia).
  assert ((48 + Z.to_nat (d mod 10) <=? 57)%nat = true) as -> by (apply Nat.leb_le; lia).
  simpl. f_equal. lia.
Qed.

Lemma cls_digit_char (d : Z) (r : string) :
  Re.cls 0 9 (String (Strftime.digit_char d) r) = [((d mod 10)%Z, r)].
Proof.
  unfold Re.cls. rewrite digit_of_char.
  pose proof (Z.mod_pos_bound d 10 ltac:(lia)) as Hb.
  assert ((0 <=? d mod 10)%Z = true) as -> by (apply Z.leb_le; lia).
  assert ((d mod 10 <=? 9)%Z = true) as -> by (apply Z.leb_le; lia).
  reflexivity.
Qed.

Lemma digits2_pad (n : Z) (r : string) :
  (0 <= n < 100)%Z -> Re.digits 2 0 (Strftime.pad2 n +:+ r) = [(n, r)].
Proof.
  intros Hn. unfold Strftime.pad2.
  change (Re.digits 2 0) with
    (Re.bind (Re.cls 0 9) (fun x => Re.bind (Re.cls 0 9)
       (fun y => Re.ret (10 * (10 * 0 + x) + y)%Z))).
  change (String ?a (String ?b "") +:+ r) with (String a (String b r)).
  unfold Re.bind. rewrite cls_digit_char.
  cbn [flat_map fst snd Datatypes.app]. rewrite cls_digit_char.
  cbn [flat_map fst snd Datatypes.app]. unfold Re.ret. rewrite ?List.app_nil_r. do 2 f_equal.
  rewrite (Z.mod_small (n / 10) 10)
    by (split; [apply Z.div_pos|apply Z.div_lt_upper_bound]; lia).
  pose proof (Z.div_mod n 10 ltac:(lia)). lia.
Qed.

Lemma digits4_pad (n : Z) (r : string) :
  (0 <= n < 10000)%Z -> Re.digits 4 0 (Strftime.pad4 n +:+ r) = [(n, r)].
Proof.
  intros Hn. unfold Strftime.pad4, Strftime.pad2.
  change (Re.digits 4 0) with
    (Re.bind (Re.cls 0 9) (fun a => Re.bind (Re.cls 0 9) (fun b =>
     Re.bind (Re.cls 0 9) (fun c => Re.bind (Re.cls 0 9) (fun d =>
       Re.ret (10 * (10 * (10 * (10 * 0 + a) + b) + c) + d)%Z))))).
  change (String ?a (String ?b (String ?c (String ?d ""))) +:+ r)
    with (String a (String b (String c (String d r)))).
  unfold Re.bind.
  rewrite cls_digit_char. cbn [flat_map fst snd Datatypes.app].
  rewrite cls_digit_char. cbn [flat_map fst snd Datatypes.app].
  rewrite cls_digit_char. cbn [flat_map fst snd Datatypes.app].
  rewrite cls_digit_char. cbn [flat_map fst snd Datatypes.app].
  unfold Re.ret. rewrite ?List.app_nil_r. do 2 f_equal.
  pose proof (Z.div_mod n 10 ltac:(lia)).
  pose proof (Z.mod_pos_bound n 10 ltac:(lia)).
  pose proof (Z.div_mod (n / 10) 10 ltac:(lia)).
  pose proof (Z.mod_pos_bound (n / 10) 10 ltac:(lia)).
  pose proof (Z.div_mod (n / 100) 10 ltac:(lia)).
  pose proof (Z.mod_pos_bound (n / 100) 10 ltac:(lia)).
  assert (n / 10 / 10 = n / 100)%Z as E1 by (rewrite Z.div_div by lia; reflexivity).
  assert (n / 100 / 10 = n / 1000)%Z as E2 by (rewrite Z.div_div by lia; reflexivity).
  assert (0 <= n / 1000 < 10)%Z
    by (split; [apply Z.div_pos|apply Z.div_lt_upper_bound]; lia).
  rewrite (Z.mod_small (n / 1000) 10) by lia. lia.
Qed.

Lemma lit_dash (r : string) : Re.lit "-" (String "-" r) = [(tt, r)].
Proof. reflexivity. Qed.

Lemma digit_char_mod (a b : Z) :
  (a mod 10 = b mod 10)%Z -> Strftime.digit_char a = Strftime.digit_char b.
Proof. unfold Strftime.digit_char. intros ->. reflexivity. Qed.

(** From 1000 on, the year in decimal has four digits. *)
Lemma decimal_four (y : Z) :
  (1000 <= y <= 9999)%Z -> Strftime.decimal y = Strftime.pad4 y.
Proof.
  intros Hy. unfold Strftime.decimal.
  destruct (Z.to_nat y) as [|[|[|[|k]]]] eqn:Hk; try lia.
  cbn [Strftime.decimal_go].
  assert ((y <? 10) = false)%Z as -> by (apply Z.ltb_ge; lia).
  assert ((y / 10 <? 10) = false)%Z as ->
    by (apply Z.ltb_ge; Z.to_euclidean_division_equations; lia).
  assert ((y / 10 / 10 <? 10) = false)%Z as ->
    by (apply Z.ltb_ge; Z.to_euclidean_division_equations; lia).
  assert ((y / 10 / 10 / 10 <? 10) = true)%Z as ->
    by (apply Z.ltb_lt; Z.to_euclidean_division_equations; lia).
  unfold Strftime.pad4, Strftime.pad2.
  f_equal; [|f_equal]; apply digit_char_mod; f_equal;
    Z.to_euclidean_division_equations; lia.
Qed.

(** Below 1000 it has at most three. *)
Lemma decimal_short (y : Z) :
  (y < 1000)%Z -> (String.length (Strftime.decimal y) <= 3)%nat.
Proof.
  intros Hy. unfold Strftime.decimal.
  destruct (Z.to_nat y) as [|[|[|k]]] eqn:Hk; cbn [Strftime.decimal_go];
    repeat match goal with
           | |- context [(?a <? 10)%Z] => destruct (Z.ltb_spec a 10)
           end; cbn [String.length]; try lia;
    exfalso; Z.to_euclidean_division_equations; lia.
Qed.

Lemma decimal_go_tail (fuel : nat) (n : Z) (acc : string) :
  exists pre, Strftime.decimal_go fuel n acc
              = pre +:+ String (Strftime.digit_char n) acc.
Proof.
  revert n acc. induction fuel as [|fuel IH]; intros n acc;
    [exists ""; reflexivity|].
  cbn [Strftime.decimal_go]. destruct (n <? 10)%Z; [exists ""; reflexivity|].
  destruct (IH (n / 10)%Z (String (Strftime.digit_char n) acc)) as [pre ->].
  exists (pre +:+ String (Strftime.digit_char (n / 10)) "").
  rewrite app_assoc_s. reflexivity.
Qed.

Lemma decimal_last (n : Z) :
  Str.last_char (Strftime.decimal n) = Some (Strftime.digit_char n).
Proof.
  unfold Strftime.decimal.
  destruct (decimal_go_tail (Z.to_nat n) n "") as [pre ->].
  rewrite last_char_app by discriminate. reflexivity.
Qed.

(** The folder name reads back as the month, the day and the year, when
    the year has four digits. *)
Lemma strftime_reads_back (dt : datetime) :
  (0 <= month dt < 100)%Z -> (0 <= day dt < 100)%Z ->
  (1000 <= year dt <= 9999)%Z ->
  mdy_pattern (Strftime.strftime dt) = [((month dt, day dt, year dt), "")].
Proof.
  intros Hm Hd Hy. unfold mdy_pattern, Strftime.strftime.
  rewrite (decimal_four _ Hy).
  assert (Hy' : (0 <= year dt < 10000)%Z) by lia.
  unfold Re.bind at 1. rewrite (digits2_pad _ _ Hm). cbn [flat_map fst snd Datatypes.app].
  unfold Re.bind at 1. change ("-" +:+ ?x) with (String "-" x).
  rewrite lit_dash. cbn [flat_map fst snd Datatypes.app].
  unfold Re.bind at 1. rewrite (digits2_pad _ _ Hd). cbn [flat_map fst snd Datatypes.app].
  unfold Re.bind at 1. change ("-" +:+ ?x) with (String "-" x).
  rewrite lit_dash. cbn [flat_map fst snd Datatypes.app].
  unfold Re.bind at 1.
  rewrite <- (app_empty_r (Strftime.pad4 (year dt))).
  rewrite (digits4_pad _ _ Hy'). reflexivity.
Qed.

Lemma digit_char_not_sep (d : Z) : Strftime.digit_char d <> "/"%char.
Proof.
  intros H. pose proof (digit_of_char d) as Hd. rewrite H in Hd.
  discriminate.
Qed.

Lemma strftime_last (dt : datetime) :
  Str.last_char (Strftime.strftime dt) = Some (Strftime.digit_char (year dt)).
Proof.
  unfold Strftime.strftime, Strftime.decimal.
  destruct (decimal_go_tail (Z.to_nat (year dt)) (year dt) "") as [pre ->].
  set (last := String (Strftime.digit_char (year dt)) "").
  replace (Strftime.pad2 (month dt) +:+ "-" +:+ Strftime.pad2 (day dt) +:+ "-"
           +:+ pre +:+ last)
    with ((Strftime.pad2 (month dt) +:+ "-" +:+ Strftime.pad2 (day dt) +:+ "-"
           +:+ pre) +:+ last) by (rewrite !app_assoc_s; reflexivity).
  apply last_char_app. discriminate.
Qed.

Lemma strftime_no_sep (dt : datetime) :
  Str.startswith (Strftime.strftime dt) "/" = false.
Proof.
  unfold Strftime.strftime, Strftime.pad2.
  change (Str.startswith (String ?c ?x +:+ ?y) "/") with (Ascii.eqb "/" c && true).
  destruct (Ascii.eqb_spec "/" (Strftime.digit_char (month dt / 10))) as [H|H];
    [|reflexivity].
  symmetry in H. destruct (digit_char_not_sep _ H).
Qed.

Lemma scan_streams_first (l : list stream) :
  scan_streams l =
  match first_creation_time l with
  | Some ct => dt ← Strptime.strptime ct; Ok (Some (Strftime.strftime dt))
  | None => Ok None
  end.
Proof.
  induction l as [|s l IH]; [reflexivity|].
  simpl. destruct (tags s) as [t|]; [|exact IH].
  destruct (t !! "creation_time"); [reflexivity|exact IH].
Qed.

Lemma get_creation_date_eq (E : platform) (p : string) :
  get_creation_date E p =
  match metadata_date E p with
  | Some dt => Ok (Strftime.strftime dt)
  | None => fs_date E p
  end.
Proof.
  unfold get_creation_date, probe_date, metadata_date, fs_date.
  destruct (ffprobe E p) as [pr|e]; [|reflexivity]. rewrite bind_ok.
  destruct (streams pr) as [l|]; [|reflexivity].
  rewrite scan_streams_first.
  destruct (first_creation_time l) as [ct|]; [|reflexivity].
  destruct (Strptime.strptime ct); reflexivity.
Qed.

(** Every resolved date is the print of some [datetime]. *)
Lemma get_creation_date_shape (E : platform) (p d : string) :
  get_creation_date E p = Ok d -> exists dt, d = Strftime.strftime dt.
Proof.
  rewrite get_creation_date_eq. destruct (metadata_date E p) as [dt|].
  - intros [= <-]. eauto.
  - unfold fs_date. destruct (getctime E p) as [t|]; [|discriminate].
    rewrite bind_ok. destruct (fromtimestamp E t) as [dt|]; [|discriminate].
    rewrite bind_ok. intros [= <-]. eauto.
Qed.

End DateFacts.

(** C2, as stated, fails: the probe of [mixed] yields a stream with a
    parseable [creation_time] (the second one), yet the folder name is the
    date of the file system, because the first tagged stream does not
    parse. *)
Lemma any_stream_date_fails : ~ date_from_any_stream mixed "/cam/c.mts".
Proof.
  intros H.
  specialize (H [tagged "2023-05-01 10:20:30"; tagged may_2023] (tagged may_2023)
                {[ "creation_time" := may_2023 ]} may_2023
                (mkdt 2023 5 1 10 20 30 0)
                eq_refl (or_intror (or_introl eq_refl)) eq_refl
                (lookup_singleton_eq _ _) eq_refl).
  vm_compute in H. discriminate.
Qed.

(** C2 (amended). The first stream that carries a [creation_time] tag
    decides: when its value parses, the folder name is that date printed
    with [%m-%d-%Y], whatever the file system says: month and day in two
    digits and the year as a plain number, which reads as month, day and
    four-digit year from the year 1000 on and is shorter than ten
    characters before; otherwise (the probe fails, no stream has the tag,
    or that value does not parse) the resolver does what the fallback
    does, and the folder name is the creation time of the file system
    printed the same way when that can be read. *)
Theorem date_resolution_order (E : platform) (p : string) :
  (forall dt, metadata_date E p = Some dt ->
     get_creation_date E p = Ok (Strftime.strftime dt)
     /\ ((1000 <= year dt)%Z ->
         mdy_pattern (Strftime.strftime dt) = [((month dt, day dt, year dt), "")])
     /\ ((year dt < 1000)%Z -> String.length (Strftime.strftime dt) < 10)
     /\ (forall E', ffprobe E' p = ffprobe E p ->
           get_creation_date E' p = Ok (Strftime.strftime dt)))
  /\ (metadata_date E p = None ->
      get_creation_date E p = fs_date E p
      /\ (forall t dt, getctime E p = Ok t -> fromtimestamp E t = Ok dt ->
            get_creation_date E p = Ok (Strftime.strftime dt))).
Proof.
  split.
  - intros dt Hm.
    assert (Hr : (1 <= year dt <= 9999 /\ 1 <= month dt <= 12 /\ 1 <= day dt <= 31)%Z).
    { unfold metadata_date in Hm.
      destruct (ffprobe E p) as [pr|]; [|discriminate].
      destruct (streams pr) as [l|]; [|discriminate].
      destruct (first_creation_time l) as [ct|]; [|discriminate].
      destruct (Strptime.strptime ct) as [dt'|] eqn:Hp; [|discriminate].
      injection Hm as ->. exact (strptime_range _ _ Hp). }
    split; [|split; [|split]].
    + rewrite get_creation_date_eq, Hm. reflexivity.
    + intros Hy. apply strftime_reads_back; lia.
    + intros Hy. pose proof (decimal_short _ Hy) as Hl.
      unfold Strftime.strftime, Strftime.pad2. rewrite !app_length_s.
      cbn [String.length]. lia.
    + intros E' HE. rewrite get_creation_date_eq.
      assert (metadata_date E' p = Some dt) as ->; [|reflexivity].
      unfold metadata_date in *. rewrite HE. exact Hm.
  - intros Hm. rewrite get_creation_date_eq, Hm. split; [reflexivity|].
    intros t dt Ht Hdt. unfold fs_date. rewrite Ht, bind_ok, Hdt. reflexivity.
Qed.

Lemma date_resolution_order_witness :
  metadata_date e2e "/cam/a.jpg" = Some (mkdt 2023 5 1 10 20 30 0)
  /\ get_creation_date e2e "/cam/a.jpg" = Ok "05-01-2023"
  /\ metadata_date e2e "/cam/b.png" = None
  /\ get_creation_date e2e "/cam/b.png" = Ok "01-10-2022".
Proof.
  split; [reflexivity|]. split.
  - exact (proj1 (proj1 (date_resolution_order e2e "/cam/a.jpg") _ eq_refl)).
  - split; [reflexivity|].
    exact (proj2 (proj2 (date_resolution_order e2e "/cam/b.png") eq_refl)
                 jan_2022 jan_2022 eq_refl eq_refl).
Defined.

(** C6, as stated, fails: on a dangling link the probe fails and then
    [os.path.getctime], which is outside the [try], raises. *)
Lemma date_resolver_raises : ~ never_raises dangling "/cam/link.jpg".
Proof. intros [d H]. vm_compute in H. discriminate. Qed.

(** C6 (amended). Every failure of the metadata probe is absorbed: when
    ffprobe raises, when the answer has no [streams], when no stream has
    the tag, and when the tag does not parse, the resolver does what the
    fallback does.  So it returns a date whenever the creation time of the
    file can be read, and an exception that leaves it is one that the
    fallback itself raised. *)
Theorem probe_failures_fall_back (E : platform) (p : string) :
  (forall e, ffprobe E p = Raise e -> get_creation_date E p = fs_date E p)
  /\ (ffprobe E p = Ok (mkprobe None) -> get_creation_date E p = fs_date E p)
  /\ (forall l, ffprobe E p = Ok (mkprobe (Some l)) ->
        first_creation_time l = None -> get_creation_date E p = fs_date E p)
  /\ (forall l ct e, ffprobe E p = Ok (mkprobe (Some l)) ->
        first_creation_time l = Some ct -> Strptime.strptime ct = Raise e ->
        get_creation_date E p = fs_date E p)
  /\ (forall t dt, getctime E p = Ok t -> fromtimestamp E t = Ok dt ->
        exists date_str, get_creation_date E p = Ok date_str)
  /\ (forall e, get_creation_date E p = Raise e -> fs_date E p = Raise e).
Proof.
  rewrite get_creation_date_eq. unfold metadata_date.
  repeat split.
  - intros e ->. reflexivity.
  - intros ->. reflexivity.
  - intros l -> H. simpl. rewrite H. reflexivity.
  - intros l ct e -> H1 H2. simpl. rewrite H1, H2. reflexivity.
  - intros t dt Ht Hdt.
    assert (fs_date E p = Ok (Strftime.strftime dt)) as Hf.
    { unfold fs_date. rewrite Ht, bind_ok, Hdt. reflexivity. }
    rewrite Hf. destruct (ffprobe E p) as [pr|]; [|eauto].
    destruct (streams pr) as [l|]; [|eauto].
    destruct (first_creation_time l) as [ct|]; [|eauto].
    destruct (Strptime.strptime ct); eauto.
  - intros e. destruct (ffprobe E p) as [pr|]; [|auto].
    destruct (streams pr) as [l|]; [|auto].
    destruct (first_creation_time l) as [ct|]; [|auto].
    destruct (Strptime.strptime ct); [discriminate|auto].
Qed.

Lemma probe_failures_fall_back_witness :
  get_creation_date mixed "/cam/c.mts" = fs_date mixed "/cam/c.mts"
  /\ (exists date_str, get_creation_date mixed "/cam/c.mts" = Ok date_str)
  /\ get_creation_date avchd "/cam/BDMV/CLIPINF/00001.CPI"
     = fs_date avchd "/cam/BDMV/CLIPINF/00001.CPI"
  /\ fs_date dangling "/cam/link.jpg" = Raise OSError.
Proof.
  pose proof (probe_failures_fall_back mixed "/cam/c.mts")
    as (_ & _ & _ & H4 & H5 & _).
  pose proof (probe_failures_fall_back avchd "/cam/BDMV/CLIPINF/00001.CPI")
    as (H1 & _).
  pose proof (probe_failures_fall_back dangling "/cam/link.jpg")
    as (_ & _ & _ & _ & _ & H6).
  split; [exact (H4 _ "2023-05-01 10:20:30" ValueError eq_refl eq_refl eq_refl)|].
  split; [exact (H5 jan_2022 jan_2022 eq_refl eq_refl)|].
  split; [exact (H1 _ eq_refl)|].
  exact (H6 OSError eq_refl).
Defined.

(** ** Facts about conversion jobs *)

Section JobFacts.

Variable E : platform.
Variable self : organizer.

Lemma convert_eq (p input output : string) (w : world) :
  convert E p input output w =
  if path_exists w output then (w, false)
  else
    let a := job_args p input output in
    match ffmpeg_run E w a with
    | Completed => (after_run a Completed w, true)
    | Failed e partial =>
        (print (error_line p input e) (after_run a (Failed e partial) w), false)
    end.
Proof.
  unfold convert, job_args, error_line, convert_image_to_jpg, convert_to_m2ts.
  destruct (classify p); reflexivity.
Qed.

Lemma process_file_job (p input : string) (st : run_state) :
  job_input E p = Some input ->
  process_file E self p st =
  (date_str ← get_creation_date E p;
   w ← makedirs (date_dir self date_str) (st_world st);
   Ok (count st (convert E p input (output_path self date_str p) w))).
Proof.
  intros Hj. rewrite process_file_eq. unfold job_input, convert in *.
  destruct (get_creation_date E p) as [d|]; [|reflexivity]. rewrite !bind_ok.
  destruct (makedirs _ _) as [w|]; [|reflexivity]. rewrite !bind_ok.
  destruct (classify p); try congruence.
  destruct (find_associated_video E p) as [v|]; [|discriminate].
  destruct (String.eqb v ""); congruence.
Qed.

Lemma process_file_nojob (p : string) (st : run_state) :
  job_input E p = None ->
  process_file E self p st =
  (date_str ← get_creation_date E p;
   w ← makedirs (date_dir self date_str) (st_world st);
   Ok (mkstate w (processed_count st) (skipped_count st))).
Proof.
  intros Hj. rewrite process_file_eq. unfold job_input in *.
  destruct (get_creation_date E p) as [d|]; [|reflexivity]. rewrite !bind_ok.
  destruct (makedirs _ _) as [w|]; [|reflexivity]. rewrite !bind_ok.
  destruct (classify p); try congruence.
  destruct (find_associated_video E p) as [v|]; [|reflexivity].
  destruct (String.eqb v ""); congruence.
Qed.

Lemma has_job_input (p : string) :
  has_job E p = true <-> exists input, job_input E p = Some input.
Proof.
  unfold has_job. destruct (job_input E p); split; eauto; try discriminate.
  intros [? ?]. discriminate.
Qed.

Lemma count_jobs_cons (p : string) (files : list string) :
  count_jobs E (p :: files) =
  if has_job E p then S (count_jobs E files) else count_jobs E files.
Proof. unfold count_jobs. simpl. destruct (has_job E p); reflexivity. Qed.

(** A processed file is passed over: nothing changes but the skip count. *)
Lemma process_file_processed (p : string) (st : run_state) :
  processed_in E self (st_world st) p ->
  process_file E self p st =
  Ok (mkstate (st_world st) (processed_count st)
        (if has_job E p then S (skipped_count st) else skipped_count st)).
Proof.
  intros (d & Hd & Hdir & Hout). destruct st as [w np ns]. simpl in *.
  unfold has_job in *. destruct (job_input E p) as [input|] eqn:Hj.
  - rewrite (process_file_job _ _ _ Hj), Hd, bind_ok. simpl st_world.
    rewrite (makedirs_present _ _ Hdir), bind_ok, convert_eq, (Hout eq_refl).
    reflexivity.
  - rewrite (process_file_nojob _ _ Hj), Hd, bind_ok. simpl st_world.
    rewrite (makedirs_present _ _ Hdir), bind_ok. reflexivity.
Qed.

Lemma process_loop_processed (files : list string) (st : run_state) :
  fully_processed E self (st_world st) files ->
  process_loop E self files st =
  Ok (mkstate (st_world st) (processed_count st)
        (skipped_count st + count_jobs E files)).
Proof.
  revert st. induction files as [|p files IH]; intros st Hall.
  - destruct st. simpl. unfold count_jobs. simpl. rewrite Nat.add_0_r. reflexivity.
  - inversion Hall as [|? ? Hp Hrest]; subst.
    simpl process_loop. rewrite (process_file_processed _ _ Hp), bind_ok.
    rewrite IH by exact Hrest. simpl. rewrite count_jobs_cons.
    destruct (has_job E p); do 2 f_equal; lia.
Qed.

End JobFacts.

(** C3. A conversion whose output path exists does not run the encoder and
    returns [False] without printing; the loop body then leaves the world
    as it is after [makedirs] and adds one to the skip count only; and a
    run over a tree that is already processed returns with the file
    system untouched, no encoder run, no file counted as processed and
    every job counted as skipped. *)
Theorem existing_output_is_skipped (E : platform) (self : organizer) :
  (forall input output w, path_exists w output = true ->
     convert_image_to_jpg E input output w = (w, false)
     /\ convert_to_m2ts E input output w = (w, false))
  /\ (forall p input st d w,
        job_input E p = Some input ->
        get_creation_date E p = Ok d ->
        makedirs (date_dir self d) (st_world st) = Ok w ->
        path_exists w (output_path self d p) = true ->
        process_file E self p st
        = Ok (mkstate w (processed_count st) (S (skipped_count st))))
  /\ (forall files st, fully_processed E self (st_world st) files ->
        process_loop E self files st
        = Ok (mkstate (st_world st) (processed_count st)
                (skipped_count st + count_jobs E files)))
  /\ (forall w, fully_processed E self w (os_walk E (camera_path self)) ->
        exists st, process_media_files E self w = Ok st
          /\ processed_count st = 0
          /\ skipped_count st = count_jobs E (os_walk E (camera_path self))
          /\ fs (st_world st) = fs w
          /\ ffmpeg_calls (st_world st) = ffmpeg_calls w).
Proof.
  repeat split.
  - unfold convert_image_to_jpg. rewrite H. reflexivity.
  - unfold convert_to_m2ts. rewrite H. reflexivity.
  - intros p input st d w Hj Hd Hm Hex.
    rewrite (process_file_job _ _ _ _ _ Hj), Hd, bind_ok, Hm, bind_ok.
    rewrite convert_eq, Hex. reflexivity.
  - intros files st. apply process_loop_processed.
  - intros w Hall. unfold process_media_files.
    rewrite (process_loop_processed E self _ (mkstate w 0 0) Hall), bind_ok.
    eexists. split; [reflexivity|]. simpl. auto.
Qed.

Lemma existing_output_is_skipped_witness :
  fully_processed e2e e2e_self e2e_done (os_walk e2e (camera_path e2e_self))
  /\ exists st, process_media_files e2e e2e_self e2e_done = Ok st
       /\ processed_count st = 0 /\ skipped_count st = 3
       /\ fs (st_world st) = fs e2e_done.
Proof.
  assert (H : fully_processed e2e e2e_self e2e_done
                (os_walk e2e (camera_path e2e_self))).
  { repeat constructor.
    - exists "05-01-2023". repeat split.
    - exists "01-10-2022". repeat split.
    - exists "05-01-2023". repeat split. }
  split; [exact H|].
  destruct (existing_output_is_skipped e2e e2e_self) as (_ & _ & _ & H4).
  destruct (H4 e2e_done H) as (st & Hst & Hp & Hs & Hfs & _).
  exists st. auto.
Defined.

(** ** The frame of a conversion and of the loop body *)

Section FrameFacts.

Variable E : platform.
Variable self : organizer.

Lemma path_exists_false (w : world) (q : string) :
  path_exists w q = false -> fs w !! q = None.
Proof. unfold path_exists. destruct (fs w !! q); [discriminate|reflexivity]. Qed.

Lemma job_args_fields (p input output : string) :
  in_file (job_args p input output) = input
  /\ out_file (job_args p input output) = output.
Proof. unfold job_args. destruct (classify p); auto. Qed.

(** A conversion touches the output path only, and only when nothing is
    there; it runs the encoder at most once, on the given input. *)
Lemma convert_frame (p input output : string) (w w' : world) (b : bool) :
  convert E p input output w = (w', b) ->
  (forall q k, fs w !! q = Some k -> fs w' !! q = Some k)
  /\ (forall q k, fs w' !! q = Some k ->
        fs w !! q = Some k \/ (q = output /\ k = File))
  /\ (b = true -> fs w' !! output = Some File)
  /\ (exists l, ffmpeg_calls w' = (ffmpeg_calls w ++ l)%list
        /\ (length l <= 1)%nat
        /\ forall a, In a l -> a = job_args p input output).
Proof.
  rewrite convert_eq. destruct (path_exists w output) eqn:Hex.
  - intros [= <- <-]. repeat split; auto; [discriminate|].
    exists []. rewrite List.app_nil_r. simpl. repeat split; [lia|tauto].
  - apply path_exists_false in Hex.
    pose proof (job_args_fields p input output) as [_ Hout].
    cbv zeta. set (a := job_args p input output) in *.
    assert (Hcalls : forall o, exists l,
      ffmpeg_calls (after_run a o w) = (ffmpeg_calls w ++ l)%list
      /\ (length l <= 1)%nat /\ forall a', In a' l -> a' = a).
    { intros. exists [a]. simpl. repeat split; [lia|]. intros a' [<-|[]]. reflexivity. }
    assert (Hup : forall o q k, fs w !! q = Some k ->
                                fs (after_run a o w) !! q = Some k).
    { intros o q k Hq. unfold after_run. simpl.
      destruct (match o with Completed => true | Failed _ partial => partial end);
        [|exact Hq].
      rewrite lookup_insert_ne; [exact Hq|]. rewrite Hout. congruence. }
    assert (Hdown : forall o q k, fs (after_run a o w) !! q = Some k ->
                                  fs w !! q = Some k \/ (q = output /\ k = File)).
    { intros o q k. unfold after_run. simpl.
      destruct (match o with Completed => true | Failed _ partial => partial end);
        [|auto].
      rewrite Hout. destruct (decide (output = q)) as [<-|Hne].
      - rewrite lookup_insert_eq. intros [= <-]. auto.
      - rewrite lookup_insert_ne by exact Hne. auto. }
    destruct (ffmpeg_run E w a) as [|msg partial].
    + intros [= <- <-]. split; [eauto|]. split; [eauto|]. split; [|apply Hcalls].
      intros _. unfold after_run. simpl. rewrite Hout. apply lookup_insert_eq.
    + intros [= <- <-].
      set (w1 := after_run a (Failed msg partial) w) in *.
      change (fs (print (error_line p input msg) w1)) with (fs w1).
      change (ffmpeg_calls (print (error_line p input msg) w1))
        with (ffmpeg_calls w1).
      split; [apply Hup|]. split; [apply Hdown|].
      split; [discriminate|apply Hcalls].
Qed.

(** The loop body: the date folder exists afterwards, nothing that was
    there is changed, the only file that can appear is the output of the
    job, the only folders the date folder and the directories above it,
    and the only encoder run the job of the file. *)
Lemma process_file_frame (p d : string) (st st' : run_state) :
  get_creation_date E p = Ok d ->
  process_file E self p st = Ok st' ->
  fs (st_world st') !! date_dir self d = Some Dir
  /\ (forall q k, fs (st_world st) !! q = Some k -> fs (st_world st') !! q = Some k)
  /\ (forall q, fs (st_world st') !! q = Some File ->
        fs (st_world st) !! q = Some File \/ q = output_path self d p)
  /\ (forall q, fs (st_world st') !! q = Some Dir ->
        fs (st_world st) !! q = Some Dir \/ q = date_dir self d
        \/ In q (Path.parents (date_dir self d)))
  /\ (exists l, ffmpeg_calls (st_world st') = (ffmpeg_calls (st_world st) ++ l)%list
        /\ (length l <= 1)%nat
        /\ forall a, In a l ->
             out_file a = output_path self d p
             /\ job_input E p = Some (in_file a)).
Proof.
  intros Hd. destruct (job_input E p) as [input|] eqn:Hj.
  - rewrite (process_file_job _ _ _ _ _ Hj), Hd, bind_ok.
    destruct (makedirs _ _) as [w|] eqn:Hm; [|discriminate]. rewrite bind_ok.
    destruct (makedirs_ok _ _ _ Hm) as (Hdir & _ & Hc & Hup & Hdown & Hother & _).
    destruct (convert E p input (output_path self d p) w) as [w' b] eqn:Hcv.
    destruct (convert_frame _ _ _ _ _ _ Hcv) as (Cup & Cdown & _ & l & Cl & Clen & Cin).
    intros [= <-].
    assert (st_world (count st (w', b)) = w') as -> by (unfold count; destruct b; reflexivity).
    split; [|split; [|split; [|split]]].
    + apply Cup. exact Hdir.
    + intros q k Hq. apply Cup, Hup, Hq.
    + intros q Hq. destruct (Cdown _ _ Hq) as [Hq'|[-> _]]; auto.
    + intros q Hq. destruct (Cdown _ _ Hq) as [Hq'|[_ ?]]; [|discriminate].
      exact (Hother _ Hq').
    + exists l. rewrite Cl, Hc. split; [reflexivity|]. split; [exact Clen|].
      intros a Ha. rewrite (Cin _ Ha).
      destruct (job_args_fields p input (output_path self d p)) as [-> ->]. auto.
  - rewrite (process_file_nojob _ _ _ _ Hj), Hd, bind_ok.
    destruct (makedirs _ _) as [w|] eqn:Hm; [|discriminate]. rewrite bind_ok.
    destruct (makedirs_ok _ _ _ Hm) as (Hdir & _ & Hc & Hup & Hdown & Hother & _).
    intros [= <-]. simpl. split; [exact Hdir|]. split; [exact Hup|].
    split; [auto|]. split; [exact Hother|].
    exists []. rewrite List.app_nil_r. simpl. split; [auto|]. split; [lia|tauto].
Qed.

(** A file counted as processed has its output written. *)
Lemma processed_has_output (p d : string) (st st' : run_state) :
  get_creation_date E p = Ok d ->
  process_file E self p st = Ok st' ->
  processed_count st' = S (processed_count st) ->
  fs (st_world st') !! output_path self d p = Some File.
Proof.
  intros Hd. destruct (job_input E p) as [input|] eqn:Hj.
  - rewrite (process_file_job _ _ _ _ _ Hj), Hd, bind_ok.
    destruct (makedirs _ _) as [w|]; [|discriminate]. rewrite bind_ok.
    destruct (convert E p input (output_path self d p) w) as [w' b] eqn:Hcv.
    destruct (convert_frame _ _ _ _ _ _ Hcv) as (_ & _ & Hb & _).
    intros [= <-]. unfold count. destruct b; simpl; [auto|lia].
  - rewrite (process_file_nojob _ _ _ _ Hj), Hd, bind_ok.
    destruct (makedirs _ _) as [w|]; [|discriminate]. rewrite bind_ok.
    intros [= <-]. simpl. lia.
Qed.

(** It was not there before. *)
Lemma processed_output_new (p d : string) (st st' : run_state) :
  get_creation_date E p = Ok d ->
  process_file E self p st = Ok st' ->
  processed_count st' = S (processed_count st) ->
  fs (st_world st) !! output_path self d p = None.
Proof.
  intros Hd. destruct (job_input E p) as [input|] eqn:Hj.
  - rewrite (process_file_job _ _ _ _ _ Hj), Hd, bind_ok.
    destruct (makedirs _ _) as [w|] eqn:Hm; [|discriminate]. rewrite bind_ok.
    destruct (makedirs_ok _ _ _ Hm) as (_ & _ & _ & Hup & _).
    rewrite convert_eq.
    destruct (path_exists w (output_path self d p)) eqn:Hex.
    { intros [= <-]. unfold count. simpl. lia. }
    intros _ _. apply path_exists_false in Hex.
    destruct (fs (st_world st) !! output_path self d p) as [k|] eqn:Hq;
      [|reflexivity].
    rewrite (Hup _ _ Hq) in Hex. discriminate.
  - rewrite (process_file_nojob _ _ _ _ Hj), Hd, bind_ok.
    destruct (makedirs _ _) as [w|]; [|discriminate]. rewrite bind_ok.
    intros [= <-]. simpl. lia.
Qed.

(** The loop body leaves what the operating system refuses as it is. *)
Lemma process_file_refused (p : string) (st st' : run_state) :
  process_file E self p st = Ok st' ->
  refused (st_world st') = refused (st_world st).
Proof.
  destruct (job_input E p) as [input|] eqn:Hj.
  - rewrite (process_file_job _ _ _ _ _ Hj).
    destruct (get_creation_date E p) as [d|]; [|discriminate]. rewrite bind_ok.
    destruct (makedirs _ _) as [w|] eqn:Hm; [|discriminate]. rewrite bind_ok.
    destruct (makedirs_ok _ _ _ Hm) as (_ & _ & _ & _ & _ & _ & Hr).
    rewrite convert_eq. intros [= <-]. rewrite <- Hr.
    destruct (path_exists w _); [reflexivity|]. cbv zeta.
    destruct (ffmpeg_run E w _); reflexivity.
  - rewrite (process_file_nojob _ _ _ _ Hj).
    destruct (get_creation_date E p) as [d|]; [|discriminate]. rewrite bind_ok.
    destruct (makedirs _ _) as [w|] eqn:Hm; [|discriminate]. rewrite bind_ok.
    destruct (makedirs_ok _ _ _ Hm) as (_ & _ & _ & _ & _ & _ & Hr).
    intros [= <-]. exact Hr.
Qed.

(** What could be made can still be made where files are the same and
    nothing was removed. *)
Lemma can_make_mono (w w' : world) (d : string) :
  (forall q k, fs w !! q = Some k -> fs w' !! q = Some k) ->
  (forall q, In q (d :: Path.parents d) ->
     fs w' !! q = Some File -> fs w !! q = Some File) ->
  refused w' = refused w ->
  can_make w d -> can_make w' d.
Proof.
  intros Hup Hdown Hr. unfold can_make. rewrite !List.Forall_forall.
  intros Hall a Hin. destruct (Hall a Hin) as [H1 H2]. split.
  - intros Hf. exact (H1 (Hdown _ Hin Hf)).
  - intros Hn. rewrite Hr. apply H2.
    destruct (fs w !! a) as [k|] eqn:Hq; [|reflexivity].
    rewrite (Hup _ _ Hq) in Hn. discriminate.
Qed.

(** The body raises only what the date resolver or [makedirs] raise. *)
Lemma process_file_returns (p d : string) (st : run_state) (w : world) :
  get_creation_date E p = Ok d ->
  makedirs (date_dir self d) (st_world st) = Ok w ->
  exists st', process_file E self p st = Ok st'.
Proof.
  intros Hd Hm. destruct (job_input E p) as [input|] eqn:Hj.
  - rewrite (process_file_job _ _ _ _ _ Hj), Hd, bind_ok, Hm, bind_ok. eauto.
  - rewrite (process_file_nojob _ _ _ _ Hj), Hd, bind_ok, Hm, bind_ok. eauto.
Qed.

End FrameFacts.

(** ** Facts about output paths *)

Section OutputFacts.

Variable E : platform.
Variable self : organizer.

Lemma rsplit_dot_app (n r e : string) :
  Path.rsplit_dot n = Some (r, e) -> r +:+ e = n.
Proof.
  revert r e. induction n as [|c n IH]; intros r e; [discriminate|].
  simpl. destruct (Path.rsplit_dot n) as [[r' e']|].
  - intros [= <- <-]. simpl. rewrite (IH _ _ eq_refl). reflexivity.
  - destruct (Ascii.eqb c "."); [|discriminate]. intros [= <- <-]. reflexivity.
Qed.

Lemma splitext_name_app (n : string) :
  fst (Path.splitext_name n) +:+ snd (Path.splitext_name n) = n.
Proof.
  unfold Path.splitext_name. destruct (Path.rsplit_dot n) as [[r e]|] eqn:H.
  - destruct (Path.all_dots r); simpl; [apply app_empty_r|].
    exact (rsplit_dot_app _ _ _ H).
  - simpl. apply app_empty_r.
Qed.

(** The stem of a base name has no slash. *)
Lemma stem_no_sep (p : string) :
  Str.contains "/" (fst (Path.splitext (Path.basename p))) = false.
Proof.
  pose proof (basename_no_sep p) as Hb. set (n := Path.basename p) in *.
  unfold Path.splitext. rewrite (rpartition_no_sep _ Hb).
  pose proof (splitext_name_app n) as Hn.
  destruct (Path.splitext_name n) as [r e]. simpl in *.
  rewrite <- Hn, contains_app in Hb. apply orb_false_elim in Hb as [Hr _].
  exact Hr.
Qed.

Lemma out_name_no_sep (p : string) :
  Str.contains "/" (fst (Path.splitext (Path.basename p)) +:+ out_ext p) = false.
Proof.
  rewrite contains_app, stem_no_sep. unfold out_ext.
  destruct (classify p); reflexivity.
Qed.

(** A date folder never ends in a slash: its last character is the last
    digit of the year. *)
Lemma date_dir_last (root : string) (dt : datetime) :
  Str.last_char (Path.join root (Strftime.strftime dt))
  = Some (Strftime.digit_char (year dt)).
Proof.
  unfold Path.join. rewrite strftime_no_sep.
  assert (Hne : Strftime.strftime dt <> "") by discriminate.
  destruct (String.eqb root "" || Str.endswith root "/").
  - rewrite (last_char_app _ _ Hne). apply strftime_last.
  - rewrite last_char_app; [|discriminate].
    change ("/" +:+ Strftime.strftime dt) with (String "/" (Strftime.strftime dt)).
    apply strftime_last.
Qed.

(** The output of a job lies directly in the date folder of its file, under
    the stem of the file name and the extension of the category. *)
Lemma output_path_split (p d : string) :
  get_creation_date E p = Ok d ->
  Path.dirname (output_path self d p) = date_dir self d
  /\ Path.basename (output_path self d p)
     = fst (Path.splitext (Path.basename p)) +:+ out_ext p.
Proof.
  intros [dt ->]%get_creation_date_shape. unfold output_path, date_dir.
  apply rpartition_join; [|apply out_name_no_sep].
  apply (dir_norm_last _ _ (date_dir_last _ dt)), digit_char_not_sep.
Qed.

End OutputFacts.

(** C5. An index file for which the pairer finds no clip has no job: the
    loop body resolves the date, creates the date folder and goes on; no
    encoder runs, nothing is printed, no file appears, and neither counter
    moves. *)
Theorem unpaired_index_is_dropped (E : platform) (self : organizer)
    (p : string) (st : run_state) :
  classify p = VideoIndex -> find_associated_video E p = None ->
  process_file E self p st =
  (date_str ← get_creation_date E p;
   w ← makedirs (date_dir self date_str) (st_world st);
   Ok (mkstate w (processed_count st) (skipped_count st)))
  /\ forall st', process_file E self p st = Ok st' ->
       processed_count st' = processed_count st
       /\ skipped_count st' = skipped_count st
       /\ ffmpeg_calls (st_world st') = ffmpeg_calls (st_world st)
       /\ stdout (st_world st') = stdout (st_world st)
       /\ (forall q, fs (st_world st') !! q = Some File <->
                     fs (st_world st) !! q = Some File).
Proof.
  intros Hc Hv.
  assert (Hj : job_input E p = None) by (unfold job_input; rewrite Hc, Hv; reflexivity).
  rewrite (process_file_nojob _ _ _ _ Hj). split; [reflexivity|].
  intros st'. destruct (get_creation_date E p) as [d|]; [|discriminate].
  rewrite bind_ok. destruct (makedirs _ _) as [w|] eqn:Hm; [|discriminate].
  rewrite bind_ok. intros [= <-]. simpl.
  destruct (makedirs_ok _ _ _ Hm) as (_ & Ho & Hcalls & Hup & Hdown & _).
  repeat split; auto.
Qed.

Lemma unpaired_index_is_dropped_witness :
  exists st',
    process_file avchd e2e_self "/cam/BDMV/CLIPINF/00002.cpi"
                 (mkstate empty_world 4 2) = Ok st'
    /\ processed_count st' = 4 /\ skipped_count st' = 2
    /\ ffmpeg_calls (st_world st') = [].
Proof.
  destruct (unpaired_index_is_dropped avchd e2e_self "/cam/BDMV/CLIPINF/00002.cpi"
              (mkstate empty_world 4 2) eq_refl eq_refl) as [Heq H].
  destruct (process_file avchd e2e_self "/cam/BDMV/CLIPINF/00002.cpi"
              (mkstate empty_world 4 2)) as [st'|e] eqn:Hp.
  - exists st'. destruct (H st' eq_refl) as (H1 & H2 & H3 & _). auto.
  - exfalso. vm_compute in Heq. discriminate.
Defined.

(** ** The exception of [print] *)

Section StrictFacts.

Variable E : platform.
Variable self : organizer.

Lemma strict_convert_eq (p input output : string) (w : world) :
  strict_convert E p input output w =
  if path_exists w output then Ok (w, false)
  else
    let a := job_args p input output in
    match ffmpeg_run E w a with
    | Completed => Ok (after_run a Completed w, true)
    | Failed e partial =>
        w' ← write E (error_line p input e) (after_run a (Failed e partial) w);
        Ok (w', false)
    end.
Proof.
  unfold strict_convert, job_args, error_line, Strict.convert_image_to_jpg,
    Strict.convert_to_m2ts.
  destruct (classify p); reflexivity.
Qed.

Lemma strict_process_file_eq (p : string) (st : run_state) :
  Strict.process_file E self p st =
  (date_str ← get_creation_date E p;
   w ← makedirs (date_dir self date_str) (st_world st);
   match job_input E p with
   | Some input =>
       r ← strict_convert E p input (output_path self date_str p) w;
       Ok (count st r)
   | None => Ok (mkstate w (processed_count st) (skipped_count st))
   end).
Proof.
  unfold Strict.process_file, output_path, out_ext, date_dir, job_input,
    strict_convert.
  destruct (get_creation_date E p) as [d|e]; [|reflexivity]. rewrite !bind_ok.
  destruct (makedirs _ _) as [w|e]; [|reflexivity]. rewrite !bind_ok.
  unfold classify.
  destruct (Str.endswith_any (Str.lower p) image_exts); [reflexivity|].
  destruct (Str.endswith_any (Str.lower p) video_exts); [|reflexivity].
  destruct (Str.endswith (Str.lower p) ".cpi"); [|reflexivity].
  destruct (find_associated_video E p) as [v|]; [|reflexivity].
  destruct (String.eqb v ""); reflexivity.
Qed.

(** What the functions with [write] return, the functions with [print]
    return; and they raise what those raise, or [UnicodeEncodeError]. *)
Lemma strict_convert_refines (p input output : string) (w : world) :
  match strict_convert E p input output w with
  | Ok r => r = convert E p input output w
  | Raise e => e = UnicodeEncodeError
  end.
Proof.
  rewrite strict_convert_eq, convert_eq.
  destruct (path_exists w output); [reflexivity|]. cbv zeta.
  destruct (ffmpeg_run E w _) as [|msg partial]; [reflexivity|].
  unfold write. destruct (stdout_encodes E _); reflexivity.
Qed.

Lemma strict_process_file_refines (p : string) (st : run_state) :
  match Strict.process_file E self p st with
  | Ok st' => process_file E self p st = Ok st'
  | Raise e => process_file E self p st = Raise e
               \/ (e = UnicodeEncodeError
                   /\ exists st', process_file E self p st = Ok st')
  end.
Proof.
  rewrite strict_process_file_eq.
  destruct (job_input E p) as [input|] eqn:Hj.
  - rewrite (process_file_job _ _ _ _ _ Hj).
    destruct (get_creation_date E p) as [d|e]; [|left; reflexivity].
    rewrite !bind_ok.
    destruct (makedirs _ _) as [w|e]; [|left; reflexivity]. rewrite !bind_ok.
    pose proof (strict_convert_refines p input (output_path self d p) w) as H.
    destruct (strict_convert E p input (output_path self d p) w) as [r|e].
    + rewrite bind_ok, H. reflexivity.
    + right. split; [exact H|]. eauto.
  - rewrite (process_file_nojob _ _ _ _ Hj).
    destruct (get_creation_date E p) as [d|e]; [|left; reflexivity].
    rewrite !bind_ok.
    destruct (makedirs _ _) as [w|e]; [|left; reflexivity]. reflexivity.
Qed.

Lemma strict_process_loop_refines (files : list string) (st : run_state) :
  match Strict.process_loop E self files st with
  | Ok st' => process_loop E self files st = Ok st'
  | Raise e => process_loop E self files st = Raise e \/ e = UnicodeEncodeError
  end.
Proof.
  revert st. induction files as [|p files IH]; intros st; [reflexivity|].
  cbn [Strict.process_loop process_loop].
  pose proof (strict_process_file_refines p st) as Hp.
  destruct (Strict.process_file E self p st) as [st1|e].
  - rewrite Hp, !bind_ok. apply IH.
  - destruct Hp as [->|[-> _]]; [left; reflexivity|right; reflexivity].
Qed.

(** With a standard output that encodes every line the two agree. *)
Lemma strict_process_loop_total (files : list string) (st : run_state) :
  (forall line, stdout_encodes E line = true) ->
  Strict.process_loop E self files st = process_loop E self files st.
Proof.
  intros Henc. revert st. induction files as [|p files IH]; intros st; [reflexivity|].
  cbn [Strict.process_loop process_loop].
  assert (Hp : Strict.process_file E self p st = process_file E self p st).
  { rewrite strict_process_file_eq.
    destruct (job_input E p) as [input|] eqn:Hj.
    - rewrite (process_file_job _ _ _ _ _ Hj).
      destruct (get_creation_date E p) as [d|e]; [|reflexivity]. rewrite !bind_ok.
      destruct (makedirs _ _) as [w|e]; [|reflexivity]. rewrite !bind_ok.
      rewrite strict_convert_eq, convert_eq.
      destruct (path_exists w _); [reflexivity|]. cbv zeta.
      destruct (ffmpeg_run E w _) as [|msg partial]; [reflexivity|].
      unfold write. rewrite Henc. reflexivity.
    - rewrite (process_file_nojob _ _ _ _ Hj). reflexivity. }
  rewrite Hp. destruct (process_file E self p st) as [st1|e]; [|reflexivity].
  rewrite !bind_ok. apply IH.
Qed.

End StrictFacts.




(** ** The loop as a whole *)

Section LoopFacts.

Variable E : platform.
Variable self : organizer.

(** What a run leaves behind: every enumerated file has its date folder,
    and nothing that was there before has changed. *)
Lemma process_loop_dirs (files : list string) (st st' : run_state) :
  process_loop E self files st = Ok st' ->
  (forall q k, fs (st_world st) !! q = Some k -> fs (st_world st') !! q = Some k)
  /\ Forall (fun p => exists d, get_creation_date E p = Ok d
                       /\ fs (st_world st') !! date_dir self d = Some Dir) files.
Proof.
  revert st. induction files as [|p files IH]; intros st.
  - intros [= <-]. auto.
  - simpl. destruct (process_file E self p st) as [st1|] eqn:Hp; [|discriminate].
    rewrite bind_ok. intros Hl. destruct (IH _ Hl) as [Hup Hall].
    destruct (get_creation_date E p) as [d|] eqn:Hd.
    2:{ rewrite process_file_eq, Hd in Hp. discriminate. }
    destruct (process_file_frame E self _ _ _ _ Hd Hp) as (Hdir & Hup1 & _).
    split; [intros q k Hq; apply Hup, Hup1, Hq|].
    constructor; [|exact Hall]. exists d. split; [exact Hd|]. apply Hup, Hdir.
Qed.

(** A run over files that the program does not recognize: it returns when
    every date resolves and nothing stands in the way of the date folders,
    and it has created date folders and nothing else. *)
Lemma process_loop_unrecognized (files : list string) (st : run_state) :
  Forall (fun p => classify p = Unrecognized
                   /\ exists d, get_creation_date E p = Ok d
                        /\ can_make (st_world st) (date_dir self d)) files ->
  exists st', process_loop E self files st = Ok st'
    /\ processed_count st' = processed_count st
    /\ skipped_count st' = skipped_count st
    /\ ffmpeg_calls (st_world st') = ffmpeg_calls (st_world st)
    /\ stdout (st_world st') = stdout (st_world st)
    /\ (forall q, fs (st_world st') !! q = Some File <->
                  fs (st_world st) !! q = Some File)
    /\ Forall (fun p => exists d, get_creation_date E p = Ok d
                         /\ fs (st_world st') !! date_dir self d = Some Dir) files.
Proof.
  revert st. induction files as [|p files IH]; intros st Hall.
  - exists st. simpl. repeat split; auto.
  - inversion Hall as [|? ? (Hc & d & Hd & Hfree) Hrest]; subst.
    destruct (makedirs_returns _ _ Hfree) as [w Hm].
    destruct (makedirs_ok _ _ _ Hm) as (Hdir & Ho & Hcalls & Hup & Hdown & _ & Hr).
    assert (Hp : process_file E self p st
                 = Ok (mkstate w (processed_count st) (skipped_count st))).
    { rewrite process_file_eq, Hd, bind_ok, Hm, bind_ok, Hc. reflexivity. }
    destruct (IH (mkstate w (processed_count st) (skipped_count st)))
      as (st' & Hl & H1 & H2 & H3 & H4 & H5 & H6).
    { eapply Forall_impl; [exact Hrest|]. simpl.
      intros q (Hq & d' & Hd' & Hfree'). split; [exact Hq|].
      exists d'. split; [exact Hd'|].
      apply (can_make_mono (st_world st)); auto. }
    simpl in *. exists st'. rewrite Hp, bind_ok.
    split; [exact Hl|]. split; [exact H1|]. split; [exact H2|].
    split; [congruence|]. split; [congruence|]. split.
    + intros q. rewrite H5. split; [apply Hdown|apply Hup].
    + constructor; [|exact H6]. exists d. split; [exact Hd|].
      destruct (process_loop_dirs _ _ _ Hl) as [Hmono _]. apply Hmono. exact Hdir.
Qed.

End LoopFacts.

(** C8. The folder of a file is the join of the destination root and the
    resolved date string and depends on nothing else: for two files with
    the same date, whatever their paths, the environment and the state
    in which they are processed, the loop body has the same folder exist
    afterwards, every file that appears lies directly in it, every
    encoder run writes directly into it, and when the file is counted as
    processed a file has appeared in it.  The only folders that appear
    are that folder and the directories above it. *)
Theorem folder_determined_by_date (E1 E2 : platform) (self1 self2 : organizer)
    (p1 p2 d : string) (st1 st1' st2 st2' : run_state) :
  destination_root self1 = destination_root self2 ->
  get_creation_date E1 p1 = Ok d -> get_creation_date E2 p2 = Ok d ->
  process_file E1 self1 p1 st1 = Ok st1' ->
  process_file E2 self2 p2 st2 = Ok st2' ->
  let folder := Path.join (destination_root self1) d in
  let placed (st st' : run_state) :=
    fs (st_world st') !! folder = Some Dir
    /\ (forall q, fs (st_world st') !! q = Some File ->
          fs (st_world st) !! q = Some File \/ Path.dirname q = folder)
    /\ (exists l, ffmpeg_calls (st_world st') = (ffmpeg_calls (st_world st) ++ l)%list
          /\ forall a, In a l -> Path.dirname (out_file a) = folder)
    /\ (processed_count st' = S (processed_count st) ->
        exists q, fs (st_world st) !! q = None
          /\ fs (st_world st') !! q = Some File /\ Path.dirname q = folder)
    /\ (forall q, fs (st_world st') !! q = Some Dir ->
          fs (st_world st) !! q = Some Dir \/ q = folder
          \/ In q (Path.parents folder)) in
  placed st1 st1' /\ placed st2 st2'.
Proof.
  intros Hroot Hd1 Hd2 Hp1 Hp2. cbv zeta.
  assert (H : forall E self p st st',
    get_creation_date E p = Ok d -> process_file E self p st = Ok st' ->
    let folder := Path.join (destination_root self) d in
    fs (st_world st') !! folder = Some Dir
    /\ (forall q, fs (st_world st') !! q = Some File ->
          fs (st_world st) !! q = Some File \/ Path.dirname q = folder)
    /\ (exists l, ffmpeg_calls (st_world st') = (ffmpeg_calls (st_world st) ++ l)%list
          /\ forall a, In a l -> Path.dirname (out_file a) = folder)
    /\ (processed_count st' = S (processed_count st) ->
        exists q, fs (st_world st) !! q = None
          /\ fs (st_world st') !! q = Some File /\ Path.dirname q = folder)
    /\ (forall q, fs (st_world st') !! q = Some Dir ->
          fs (st_world st) !! q = Some Dir \/ q = folder
          \/ In q (Path.parents folder))).
  { intros E self p st st' Hd Hp. cbv zeta.
    destruct (process_file_frame E self _ _ _ _ Hd Hp) as (A & _ & B & C & l & Hl & _ & J).
    destruct (output_path_split E self _ _ Hd) as [O _]. unfold date_dir in *.
    split; [exact A|]. split; [|split; [|split; [|exact C]]].
    - intros q Hq. destruct (B q Hq) as [?| ->]; auto.
    - exists l. split; [exact Hl|]. intros a Ha. destruct (J a Ha) as [-> _]. exact O.
    - intros Hc. exists (output_path self d p).
      split; [exact (processed_output_new E self _ _ _ _ Hd Hp Hc)|].
      split; [exact (processed_has_output E self _ _ _ _ Hd Hp Hc)|exact O]. }
  split; [exact (H _ _ _ _ _ Hd1 Hp1)|].
  rewrite Hroot. exact (H _ _ _ _ _ Hd2 Hp2).
Qed.

Lemma folder_determined_by_date_witness :
  exists st1 st2,
    process_file e2e e2e_self "/cam/a.jpg" (mkstate empty_world 0 0) = Ok st1
    /\ process_file e2e e2e_self "/cam/c.mts" (mkstate empty_world 0 0) = Ok st2
    /\ fs (st_world st1) !! "/out/05-01-2023" = Some Dir
    /\ fs (st_world st2) !! "/out/05-01-2023" = Some Dir
    /\ exists q, fs (st_world st2) !! q = Some File
         /\ Path.dirname q = "/out/05-01-2023".
Proof.
  destruct (process_file e2e e2e_self "/cam/a.jpg" (mkstate empty_world 0 0))
    as [st1|] eqn:H1; [|vm_compute in H1; discriminate].
  destruct (process_file e2e e2e_self "/cam/c.mts" (mkstate empty_world 0 0))
    as [st2|] eqn:H2; [|vm_compute in H2; discriminate].
  destruct (folder_determined_by_date e2e e2e e2e_self e2e_self "/cam/a.jpg"
              "/cam/c.mts" "05-01-2023" _ _ _ _ eq_refl eq_refl eq_refl H1 H2)
    as [(Ha & _) (Hb & _ & _ & Hc & _)].
  assert (Hn : processed_count st2 = 1)
    by (vm_compute in H2; injection H2 as <-; reflexivity).
  destruct (Hc Hn) as (q & _ & Hq & Hdir).
  exists st1, st2. split; [reflexivity|]. split; [reflexivity|].
  split; [exact Ha|]. split; [exact Hb|]. exists q. auto.
Defined.



(** C10. For an index file with a paired clip, the job writes to a path
    computed from the index file alone: the date folder of the date
    resolved on the index file, and its stem with [.m2ts]; the clip is
    only the input handed to the encoder. *)
Theorem index_output_from_index_file (E : platform) (self : organizer)
    (p v d : string) (st : run_state) (w : world) :
  classify p = VideoIndex ->
  find_associated_video E p = Some v -> v <> "" ->
  get_creation_date E p = Ok d ->
  makedirs (date_dir self d) (st_world st) = Ok w ->
  process_file E self p st
  = Ok (count st (convert_to_m2ts E v (output_path self d p) w))
  /\ output_path self d p
     = Path.join (Path.join (destination_root self) d)
         (fst (Path.splitext (Path.basename p)) +:+ ".m2ts")
  /\ Path.dirname (output_path self d p) = Path.join (destination_root self) d
  /\ Path.basename (output_path self d p)
     = fst (Path.splitext (Path.basename p)) +:+ ".m2ts"
  /\ (path_exists w (output_path self d p) = false ->
      ffmpeg_calls (fst (convert_to_m2ts E v (output_path self d p) w))
      = (ffmpeg_calls w ++ [mkargs v (output_path self d p) m2ts_kwargs])%list).
Proof.
  intros Hc Hv Hne Hd Hm.
  assert (Hj : job_input E p = Some v).
  { unfold job_input. rewrite Hc, Hv.
    destruct (String.eqb_spec v ""); [contradiction|reflexivity]. }
  assert (Hext : out_ext p = ".m2ts") by (unfold out_ext; rewrite Hc; reflexivity).
  destruct (output_path_split E self _ _ Hd) as [Hdir Hbase].
  rewrite Hext in Hbase. split; [|split; [|split; [|split]]].
  - rewrite (process_file_job _ _ _ _ _ Hj), Hd, bind_ok, Hm, bind_ok.
    unfold convert. rewrite Hc. reflexivity.
  - unfold output_path, date_dir. rewrite Hext. reflexivity.
  - exact Hdir.
  - exact Hbase.
  - intros Hex. unfold convert_to_m2ts. rewrite Hex.
    destruct (ffmpeg_run E w _); reflexivity.
Qed.

Lemma index_output_from_index_file_witness :
  output_path e2e_self "01-10-2022" "/cam/BDMV/CLIPINF/00001.CPI"
  = "/out/01-10-2022/00001.m2ts"
  /\ exists st',
       process_file avchd e2e_self "/cam/BDMV/CLIPINF/00001.CPI"
                    (mkstate empty_world 0 0) = Ok st'
       /\ ffmpeg_calls (st_world st')
          = [mkargs "/cam/BDMV/00001b.MTS" "/out/01-10-2022/00001.m2ts" m2ts_kwargs].
Proof.
  destruct (index_output_from_index_file avchd e2e_self
              "/cam/BDMV/CLIPINF/00001.CPI" "/cam/BDMV/00001b.MTS" "01-10-2022"
              (mkstate empty_world 0 0)
              (add_dir "/out/01-10-2022" (add_dir "/out" empty_world))
              eq_refl eq_refl ltac:(discriminate) eq_refl eq_refl)
    as (Hp & Ho & _ & _ & Hcalls).
  split; [rewrite Ho; reflexivity|].
  eexists. split; [exact Hp|].
  unfold count.
  destruct (convert_to_m2ts avchd "/cam/BDMV/00001b.MTS"
              (output_path e2e_self "01-10-2022" "/cam/BDMV/CLIPINF/00001.CPI")
              (add_dir "/out/01-10-2022" (add_dir "/out" empty_world))) as [w' b] eqn:Hcv.
  simpl in Hcalls. destruct b; simpl; rewrite (Hcalls eq_refl); reflexivity.
Defined.

(** ** Facts about the pairer *)

Section PairerFacts.

Lemma fnmatch_star (pat name : string) :
  Glob.fnmatch (String "*" pat) name
  = Glob.fnmatch pat name
    || match name with
       | EmptyString => false
       | String _ n' => Glob.fnmatch (String "*" pat) n'
       end.
Proof. destruct name; reflexivity. Qed.

Lemma fnmatch_char (a : ascii) (pat name : string) :
  Ascii.eqb a "*" = false ->
  Glob.fnmatch (String a pat) name
  = match name with
    | EmptyString => false
    | String c name' =>
        (Ascii.eqb a "?" || Ascii.eqb a c) && Glob.fnmatch pat name'
    end.
Proof. intros H. simpl. rewrite H. reflexivity. Qed.

Lemma has_magic_cons (a : ascii) (s : string) :
  Glob.has_magic (String a s) = false ->
  Ascii.eqb a "*" = false /\ Ascii.eqb a "?" = false /\ Ascii.eqb a "[" = false
  /\ Glob.has_magic s = false.
Proof.
  unfold Glob.has_magic. simpl.
  rewrite (Ascii.eqb_sym "*" a), (Ascii.eqb_sym "?" a), (Ascii.eqb_sym "[" a).
  destruct (Ascii.eqb a "*"), (Ascii.eqb a "?"), (Ascii.eqb a "["),
    (Str.contains "*" s), (Str.contains "?" s), (Str.contains "[" s);
    simpl; intros H; try discriminate H; auto.
Qed.

(** Without wildcards a pattern matches itself only. *)
Lemma fnmatch_literal (pat name : string) :
  Glob.has_magic pat = false -> Glob.fnmatch pat name = String.eqb pat name.
Proof.
  revert name. induction pat as [|a pat IH]; intros name Hm.
  - simpl. apply String.eqb_sym.
  - apply has_magic_cons in Hm as (Hs & Hq & _ & Hm).
    rewrite (fnmatch_char _ _ _ Hs). destruct name as [|c name]; [reflexivity|].
    rewrite Hq, (IH _ Hm). reflexivity.
Qed.

Lemma fnmatch_star_suffix (suf name : string) :
  Glob.has_magic suf = false ->
  Glob.fnmatch (String "*" suf) name = Str.endswith name suf.
Proof.
  intros Hm. induction name as [|c name IH];
    rewrite fnmatch_star, endswith_eq, (fnmatch_literal _ _ Hm), String.eqb_sym.
  - destruct (String.eqb "" suf); reflexivity.
  - rewrite IH. destruct (String.eqb (String c name) suf); reflexivity.
Qed.

(** The pattern [clip_name*.MTS], for a clip name without wildcards. *)
Lemma fnmatch_clip (clip name : string) :
  Glob.has_magic clip = false ->
  Glob.fnmatch (clip +:+ "*.MTS") name
  = match drop_prefix clip name with
    | Some rest => Str.endswith rest ".MTS"
    | None => false
    end.
Proof.
  revert name. induction clip as [|a clip IH]; intros name Hm.
  - apply (fnmatch_star_suffix ".MTS"). reflexivity.
  - apply has_magic_cons in Hm as (Hs & Hq & _ & Hm).
    change (String a clip +:+ "*.MTS") with (String a (clip +:+ "*.MTS")).
    rewrite (fnmatch_char _ _ _ Hs). destruct name as [|c name]; [reflexivity|].
    simpl drop_prefix. rewrite Hq. simpl orb.
    destruct (Ascii.eqb a c); [apply IH, Hm|reflexivity].
Qed.

Lemma drop_prefix_spec (clip name rest : string) :
  drop_prefix clip name = Some rest <-> name = clip +:+ rest.
Proof.
  revert name. induction clip as [|a clip IH]; intros name; simpl.
  - split; [intros [= ->]|intros ->]; reflexivity.
  - destruct name as [|c name]; [split; discriminate|].
    destruct (Ascii.eqb_spec a c) as [->|Hne].
    + rewrite IH. split; [intros ->; reflexivity|intros [= ->]; reflexivity].
    + split; [discriminate|intros [= ? _]; congruence].
Qed.

(** The names that the pairer accepts: the clip name, anything, [.MTS];
    with an empty clip name, names starting with a dot are passed over. *)
Lemma pairs_with_spec (clip name : string) :
  pairs_with clip name = true <->
  (exists mid, name = clip +:+ mid +:+ ".MTS")
  /\ (clip = "" -> Glob.ishidden name = false).
Proof.
  unfold pairs_with. destruct (drop_prefix clip name) as [rest|] eqn:Hd.
  - apply drop_prefix_spec in Hd as ->.
    rewrite andb_true_iff, endswith_spec.
    assert (Hh : Glob.ishidden (clip +:+ "*.MTS") || negb (Glob.ishidden (clip +:+ rest))
                 = true <-> (clip = "" -> Glob.ishidden (clip +:+ rest) = false)).
    { destruct clip as [|a clip].
      - simpl. destruct (Glob.ishidden rest); simpl; intuition congruence.
      - unfold Glob.ishidden. simpl.
        assert (Hnil : forall s, Str.startswith s "" = true) by (intros []; reflexivity).
        rewrite !Hnil. destruct (Ascii.eqb "." a); simpl;
          (split; [intros _ H; discriminate H|intros _; reflexivity]). }
    rewrite Hh. split.
    + intros [[mid ->] H]. split; [eauto|exact H].
    + intros [[mid Hm] H]. split; [|exact H].
      exists mid. apply (app_inv_head_s clip). exact Hm.
  - split; [discriminate|]. intros [[mid ->] _].
    assert (drop_prefix clip (clip +:+ mid +:+ ".MTS") = Some (mid +:+ ".MTS"))
      by (apply drop_prefix_spec; reflexivity).
    congruence.
Qed.

Lemma remove_go_no_sep (old s : string) (k : nat) :
  Str.contains "/" s = false -> Str.contains "/" (Str.remove_go old k s) = false.
Proof.
  revert k. induction s as [|c s IH]; intros k H; [reflexivity|].
  simpl in H. apply orb_false_elim in H as [Hc Hs]. simpl.
  destruct k; [|apply IH, Hs].
  match goal with |- context [if ?b then _ else _] => destruct b end;
    [apply IH, Hs|].
  simpl. rewrite Hc. apply IH, Hs.
Qed.

(** For a name [BASE.CPI] with a dot-free base, removing [.CPI] leaves the
    base. *)
Lemma remove_cpi_base (base : string) :
  Str.contains "." base = false ->
  Str.remove_all (base +:+ ".CPI") ".CPI" = base.
Proof.
  unfold Str.remove_all. induction base as [|c base IH]; intros H; [reflexivity|].
  simpl in H. apply orb_false_elim in H as [Hc Hb].
  change (String c base +:+ ".CPI") with (String c (base +:+ ".CPI")).
  simpl. rewrite Hc. simpl. rewrite (IH Hb). reflexivity.
Qed.

Lemma filter_filter_and {A} (f g : A -> bool) (l : list A) :
  List.filter f (List.filter g l) = List.filter (fun x => g x && f x) l.
Proof.
  induction l as [|x l IH]; [reflexivity|].
  simpl. destruct (g x); simpl; [destruct (f x)|]; rewrite ?IH; reflexivity.
Qed.

Lemma filter_ext_s {A} (f g : A -> bool) (l : list A) :
  (forall x, f x = g x) -> List.filter f l = List.filter g l.
Proof.
  intros H. induction l as [|x l IH]; [reflexivity|].
  simpl. rewrite H, IH. reflexivity.
Qed.

Lemma has_magic_app (a b : string) :
  Glob.has_magic (a +:+ b) = Glob.has_magic a || Glob.has_magic b.
Proof.
  unfold Glob.has_magic. rewrite !contains_app.
  destruct (Str.contains "*" a), (Str.contains "?" a), (Str.contains "[" a),
    (Str.contains "*" b), (Str.contains "?" b); reflexivity.
Qed.

(** The pairer, for a clip name and a directory without wildcard
    characters: the first listed name that pairs, joined to the directory. *)
Lemma find_associated_video_eq (E : platform) (cpi : string) :
  let clip_name := Str.remove_all (Path.basename cpi) ".CPI" in
  let clip_dir := Path.dirname (Path.dirname cpi) in
  Glob.has_magic clip_dir = false -> Glob.has_magic clip_name = false ->
  find_associated_video E cpi
  = head (List.map (Path.join clip_dir)
            (List.filter (pairs_with clip_name) (listdir E clip_dir))).
Proof.
  intros clip_name clip_dir Hdir Hclip. unfold find_associated_video.
  fold clip_name. fold clip_dir. f_equal.
  assert (Hsep : Str.contains "/" (clip_name +:+ "*.MTS") = false).
  { rewrite contains_app. unfold clip_name, Str.remove_all.
    rewrite (remove_go_no_sep _ _ _ (basename_no_sep cpi)). reflexivity. }
  destruct (rpartition_join clip_dir _ (dirname_norm _) Hsep) as [Hd Hb].
  unfold Glob.glob, Glob.simple. rewrite Hd, Hb, Hdir.
  assert (Glob.has_magic (clip_name +:+ "*.MTS") = true) as ->.
  { rewrite has_magic_app. apply orb_true_r. }
  assert (Str.contains "[" (clip_name +:+ "*.MTS") = false) as ->.
  { rewrite contains_app. unfold Glob.has_magic in Hclip.
    destruct (Str.contains "[" clip_name); [|reflexivity].
    rewrite !orb_true_r in Hclip. discriminate. }
  simpl. f_equal. unfold pairs_with.
  destruct (Glob.ishidden (clip_name +:+ "*.MTS")).
  - apply filter_ext_s. intros n. rewrite (fnmatch_clip _ _ Hclip).
    destruct (drop_prefix clip_name n); [|reflexivity].
    rewrite andb_true_r. reflexivity.
  - rewrite filter_filter_and. apply filter_ext_s. intros n.
    rewrite (fnmatch_clip _ _ Hclip).
    destruct (drop_prefix clip_name n); [|apply andb_false_r].
    simpl. apply andb_comm.
Qed.

End PairerFacts.

(** C4, as stated, fails: [glob] lists the matches in directory order, so
    with two clips for one index file the pairer returns the one listed
    first, not the first in lexicographic order. *)
Lemma first_lexicographic_fails :
  find_associated_video avchd "/cam/BDMV/CLIPINF/00001.CPI"
  = Some "/cam/BDMV/00001b.MTS"
  /\ spec_pairer avchd "/cam/BDMV/CLIPINF/00001.CPI" = Some "/cam/BDMV/00001a.MTS"
  /\ ~ pairs_as_specified avchd "/cam/BDMV/CLIPINF/00001.CPI".
Proof.
  split; [reflexivity|]. split; [reflexivity|].
  unfold pairs_as_specified. vm_compute. discriminate.
Qed.

Lemma head_filter_none {A B} (f : A -> B) (g : A -> bool) (l : list A) :
  head (List.map f (List.filter g l)) = None <-> forall x, In x l -> g x = false.
Proof.
  induction l as [|x l IH]; simpl; [tauto|].
  destruct (g x) eqn:Hg; simpl.
  - split; [discriminate|]. intros H. rewrite (H x) in Hg by auto. discriminate.
  - rewrite IH. split; [intros H y [<-|Hy]; auto|auto].
Qed.

(** C4 (amended). The pairer removes every upper-case [.CPI] from the name
    of the index file (for a name [BASE.CPI] with a dot-free base that is
    the base), and, when neither that clip name nor the parent of the
    parent directory holds a wildcard character, returns the first entry
    of that directory, in the order in which the directory lists them,
    whose name is the clip name, anything, and upper-case [.MTS], and
    which, when the clip name is empty, does not start with a dot (a
    hidden entry); it returns none exactly when no entry has such a
    name. *)
Theorem pairer_takes_first_listed (E : platform) (cpi : string) :
  let clip_name := Str.remove_all (Path.basename cpi) ".CPI" in
  let clip_dir := Path.dirname (Path.dirname cpi) in
  Glob.has_magic clip_dir = false -> Glob.has_magic clip_name = false ->
  find_associated_video E cpi
  = head (List.map (Path.join clip_dir)
            (List.filter (pairs_with clip_name) (listdir E clip_dir)))
  /\ (forall n, pairs_with clip_name n = true <->
        (exists mid, n = clip_name +:+ mid +:+ ".MTS")
        /\ (clip_name = "" -> Glob.ishidden n = false))
  /\ (find_associated_video E cpi = None <->
      forall n, In n (listdir E clip_dir) -> pairs_with clip_name n = false)
  /\ (forall base, Path.basename cpi = base +:+ ".CPI" ->
        Str.contains "." base = false -> clip_name = base).
Proof.
  intros clip_name clip_dir Hdir Hclip.
  pose proof (find_associated_video_eq E cpi Hdir Hclip) as Heq.
  fold clip_name clip_dir in Heq.
  split; [exact Heq|]. split; [intros n; apply pairs_with_spec|]. split.
  - rewrite Heq. apply head_filter_none.
  - intros base Hb Hdot. unfold clip_name. rewrite Hb. apply remove_cpi_base, Hdot.
Qed.

Lemma pairer_takes_first_listed_witness :
  find_associated_video avchd "/cam/BDMV/CLIPINF/00001.CPI"
  = Some "/cam/BDMV/00001b.MTS"
  /\ Str.remove_all (Path.basename "/cam/BDMV/CLIPINF/00001.CPI") ".CPI" = "00001".
Proof.
  destruct (pairer_takes_first_listed avchd "/cam/BDMV/CLIPINF/00001.CPI"
              eq_refl eq_refl) as (H1 & _ & _ & H4).
  split; [rewrite H1; reflexivity|].
  exact (H4 "00001" eq_refl eq_refl).
Defined.

(** ** Two runs in a row *)

Section Rerun.

Variable E : platform.
Variable self : organizer.

(** The encoder never fails without leaving a file behind: it completes,
    or what it leaves is a truncated output. *)
Hypothesis leaves_output :
  forall w a msg, ffmpeg_run E w a <> Failed msg false.

Lemma convert_leaves_output (p input output : string) (w : world) :
  path_exists (fst (convert E p input output w)) output = true.
Proof.
  rewrite convert_eq. destruct (path_exists w output) eqn:Hex; [exact Hex|].
  cbv zeta. pose proof (job_args_fields p input output) as [_ Hout].
  destruct (ffmpeg_run E w (job_args p input output)) as [|msg partial] eqn:Hrun.
  - unfold path_exists, after_run. simpl. rewrite Hout, lookup_insert_eq. reflexivity.
  - destruct partial; [|destruct (leaves_output _ _ _ Hrun)].
    unfold path_exists, after_run. simpl. rewrite Hout, lookup_insert_eq. reflexivity.
Qed.

Lemma processed_in_mono (w w' : world) (p : string) :
  (forall q k, fs w !! q = Some k -> fs w' !! q = Some k) ->
  processed_in E self w p -> processed_in E self w' p.
Proof.
  intros Hup (d & Hd & Hdir & Hout). exists d. split; [exact Hd|].
  split; [apply Hup, Hdir|]. intros Hj. specialize (Hout Hj).
  unfold path_exists in *. destruct (fs w !! output_path self d p) as [k|] eqn:Hq;
    [|discriminate].
  rewrite (Hup _ _ Hq). reflexivity.
Qed.

Lemma process_file_establishes (p : string) (st st' : run_state) :
  process_file E self p st = Ok st' -> processed_in E self (st_world st') p.
Proof.
  intros Hp. destruct (get_creation_date E p) as [d|] eqn:Hd.
  2:{ rewrite process_file_eq, Hd in Hp. discriminate. }
  exists d. split; [exact Hd|].
  split; [exact (proj1 (process_file_frame E self _ _ _ _ Hd Hp))|].
  intros [input Hj]%has_job_input.
  rewrite (process_file_job _ _ _ _ _ Hj), Hd, bind_ok in Hp.
  destruct (makedirs _ _) as [w|]; [|discriminate]. rewrite bind_ok in Hp.
  injection Hp as <-.
  pose proof (convert_leaves_output p input (output_path self d p) w) as Hc.
  unfold count. destruct (convert E p input (output_path self d p) w) as [w' []];
    exact Hc.
Qed.

Lemma process_loop_establishes (files : list string) (st st' : run_state) :
  process_loop E self files st = Ok st' ->
  fully_processed E self (st_world st') files.
Proof.
  revert st. induction files as [|p files IH]; intros st; [constructor|].
  simpl. destruct (process_file E self p st) as [st1|] eqn:Hp; [|discriminate].
  rewrite bind_ok. intros Hl. constructor; [|exact (IH _ Hl)].
  apply (processed_in_mono (st_world st1)).
  - exact (proj1 (process_loop_dirs E self _ _ _ Hl)).
  - exact (process_file_establishes _ _ _ Hp).
Qed.

(** X16. With an encoder that never fails without leaving a file behind,
    after a run that returned, a second run over the same enumeration
    returns too, writes nothing, runs no encoder, and counts every job as
    skipped. *)
Theorem second_run_is_idle (w : world) (st1 : run_state) :
  process_media_files E self w = Ok st1 ->
  exists st2, process_media_files E self (st_world st1) = Ok st2
    /\ processed_count st2 = 0
    /\ skipped_count st2 = count_jobs E (os_walk E (camera_path self))
    /\ fs (st_world st2) = fs (st_world st1)
    /\ ffmpeg_calls (st_world st2) = ffmpeg_calls (st_world st1).
Proof.
  unfold process_media_files at 1.
  destruct (process_loop E self _ _) as [st|] eqn:Hl; [|discriminate].
  rewrite bind_ok. intros [= <-]. simpl st_world.
  assert (Hall : fully_processed E self (summary self st)
                   (os_walk E (camera_path self))).
  { unfold fully_processed.
    eapply Forall_impl; [exact (process_loop_establishes _ _ _ Hl)|].
    intros p. apply processed_in_mono. auto. }
  unfold process_media_files.
  rewrite (process_loop_processed E self _ (mkstate (summary self st) 0 0) Hall).
  rewrite bind_ok. eexists. split; [reflexivity|]. simpl. auto.
Qed.

End Rerun.

Lemma classification_by_extension_witness :
  classify "/cam/notes.txt" = Unrecognized
  /\ classify "/cam/DSC0001.JPG" = StillImage
  /\ exists st',
       process_file notes_only e2e_self "/cam/notes.txt" (mkstate empty_world 3 1)
       = Ok st'
       /\ processed_count st' = 3 /\ skipped_count st' = 1
       /\ ffmpeg_calls (st_world st') = [] /\ stdout (st_world st') = [].
Proof.
  split; [reflexivity|].
  destruct (classification_by_extension notes_only e2e_self "/cam/DSC0001.JPG")
    as [(Himg & _) _].
  split.
  - apply Himg. left. exists "/cam/DSC0001", ".JPG". split; reflexivity.
  - destruct (classification_by_extension notes_only e2e_self "/cam/notes.txt")
      as ((_ & _ & _ & Hu) & _ & H).
    destruct (process_file notes_only e2e_self "/cam/notes.txt"
                (mkstate empty_world 3 1)) as [st'|e] eqn:Hp.
    + exists st'.
      destruct (H (proj1 Hu eq_refl) _ _ Hp) as (H1 & H2 & H3 & H4 & _). auto.
    + vm_compute in Hp. discriminate.
Defined.

(** * Further properties of the program *)

(** ** Counting and the frame of a whole run *)

Section RunFacts.

Variable E : platform.
Variable self : organizer.

(** One step of the loop: a file with a job moves exactly one counter by
    one, a file without a job moves none; the encoder runs at most once,
    and it has run when the file is counted as processed. *)
Lemma process_file_counts (p : string) (st st' : run_state) :
  process_file E self p st = Ok st' ->
  processed_count st' + skipped_count st'
  = processed_count st + skipped_count st + job_count E p
  /\ processed_count st <= processed_count st'
  /\ exists l, ffmpeg_calls (st_world st') = (ffmpeg_calls (st_world st) ++ l)%list
       /\ processed_count st' - processed_count st <= length l
       /\ length l <= job_count E p.
Proof.
  unfold job_count, has_job. destruct (job_input E p) as [input|] eqn:Hj.
  - rewrite (process_file_job _ _ _ _ _ Hj).
    destruct (get_creation_date E p) as [d|]; [|discriminate]. rewrite bind_ok.
    destruct (makedirs _ _) as [w|] eqn:Hm; [|discriminate]. rewrite bind_ok.
    destruct (makedirs_ok _ _ _ Hm) as (_ & _ & Hc & _).
    rewrite convert_eq. intros [= <-]. rewrite <- Hc.
    destruct (path_exists w (output_path self d p)).
    { simpl. split; [lia|]. split; [lia|]. exists [].
      rewrite List.app_nil_r. simpl. repeat split; lia. }
    cbv zeta. destruct (ffmpeg_run E w _) as [|msg partial]; simpl;
      (split; [lia|]); (split; [lia|]);
      eexists [_]; (split; [reflexivity|]); simpl; lia.
  - rewrite (process_file_nojob _ _ _ _ Hj).
    destruct (get_creation_date E p) as [d|]; [|discriminate]. rewrite bind_ok.
    destruct (makedirs _ _) as [w|] eqn:Hm; [|discriminate]. rewrite bind_ok.
    destruct (makedirs_ok _ _ _ Hm) as (_ & _ & Hc & _).
    intros [= <-]. simpl. split; [lia|]. split; [lia|]. exists [].
    rewrite List.app_nil_r. repeat split; simpl; auto; lia.
Qed.

Lemma count_jobs_step (p : string) (files : list string) :
  count_jobs E (p :: files) = job_count E p + count_jobs E files.
Proof. rewrite count_jobs_cons. unfold job_count. destruct (has_job E p); reflexivity. Qed.

Lemma process_loop_counts (files : list string) (st st' : run_state) :
  process_loop E self files st = Ok st' ->
  processed_count st' + skipped_count st'
  = processed_count st + skipped_count st + count_jobs E files
  /\ processed_count st <= processed_count st'
  /\ exists l, ffmpeg_calls (st_world st') = (ffmpeg_calls (st_world st) ++ l)%list
       /\ processed_count st' - processed_count st <= length l
       /\ length l <= count_jobs E files.
Proof.
  revert st. induction files as [|p files IH]; intros st.
  - intros [= <-]. unfold count_jobs. simpl. split; [lia|]. split; [lia|].
    exists []. rewrite List.app_nil_r. simpl. repeat split; lia.
  - simpl. destruct (process_file E self p st) as [st1|] eqn:Hp; [|discriminate].
    rewrite bind_ok. intros Hl.
    destruct (process_file_counts _ _ _ Hp) as (A1 & B1 & l1 & C1 & D1 & E1).
    destruct (IH _ Hl) as (A2 & B2 & l2 & C2 & D2 & E2).
    rewrite count_jobs_step. split; [lia|]. split; [lia|].
    exists (l1 ++ l2)%list. split.
    { rewrite C2, C1, List.app_assoc. reflexivity. }
    rewrite List.length_app. split; lia.
Qed.

(** The frame of a whole run of the loop. *)
Lemma process_loop_frame (files : list string) (st st' : run_state) :
  process_loop E self files st = Ok st' ->
  (forall q k, fs (st_world st) !! q = Some k -> fs (st_world st') !! q = Some k)
  /\ (forall q, fs (st_world st') !! q = Some File ->
        fs (st_world st) !! q = Some File
        \/ exists p d, In p files /\ get_creation_date E p = Ok d
             /\ q = output_path self d p)
  /\ (forall q, fs (st_world st') !! q = Some Dir ->
        fs (st_world st) !! q = Some Dir
        \/ exists p d, In p files /\ get_creation_date E p = Ok d
             /\ (q = date_dir self d \/ In q (Path.parents (date_dir self d))))
  /\ (exists l, ffmpeg_calls (st_world st') = (ffmpeg_calls (st_world st) ++ l)%list
        /\ forall a, In a l ->
             exists p d, In p files /\ get_creation_date E p = Ok d
               /\ out_file a = output_path self d p
               /\ job_input E p = Some (in_file a)).
Proof.
  revert st. induction files as [|p files IH]; intros st.
  - intros [= <-]. repeat split; auto.
    exists []. rewrite List.app_nil_r. split; [reflexivity|]. intros a [].
  - simpl. destruct (process_file E self p st) as [st1|] eqn:Hp; [|discriminate].
    rewrite bind_ok. intros Hl.
    destruct (get_creation_date E p) as [d|] eqn:Hd.
    2:{ rewrite process_file_eq, Hd in Hp. discriminate. }
    destruct (process_file_frame E self _ _ _ _ Hd Hp)
      as (_ & U1 & F1 & D1 & l1 & C1 & _ & J1).
    destruct (IH _ Hl) as (U2 & F2 & D2 & l2 & C2 & J2).
    split; [intros q k Hq; apply U2, U1, Hq|]. split; [|split].
    + intros q Hq. destruct (F2 q Hq) as [Hq1|(p' & d' & Hin & Hd' & ->)].
      * destruct (F1 q Hq1) as [?| ->]; [auto|]. right. exists p, d. auto.
      * right. exists p', d'. auto.
    + intros q Hq. destruct (D2 q Hq) as [Hq1|(p' & d' & Hin & Hd' & Hq')].
      * destruct (D1 q Hq1) as [?|Hq']; [auto|]. right. exists p, d. auto.
      * right. exists p', d'. auto.
    + exists (l1 ++ l2)%list. split.
      { rewrite C2, C1, List.app_assoc. reflexivity. }
      intros a [Ha|Ha]%in_app_iff.
      * destruct (J1 a Ha) as [Ho Hi]. exists p, d. auto.
      * destruct (J2 a Ha) as (p' & d' & Hin & Hd' & Ho & Hi). exists p', d'. auto.
Qed.

End RunFacts.

(** X1. Whenever [process_media_files] returns, the two counts add up to
    the number of conversion jobs of the enumerated files: every image,
    every clip and every index file with a paired clip is counted exactly
    once, as processed or as skipped, and no other file is counted. *)
Theorem counts_add_up_to_jobs (E : platform) (self : organizer)
    (w : world) (st : run_state) :
  process_media_files E self w = Ok st ->
  processed_count st + skipped_count st
  = count_jobs E (os_walk E (camera_path self)).
Proof.
  unfold process_media_files.
  destruct (process_loop E self _ _) as [st1|] eqn:Hl; [|discriminate].
  rewrite bind_ok. intros [= <-]. simpl.
  destruct (process_loop_counts E self _ _ _ Hl) as (H & _). simpl in H. lia.
Qed.

Lemma counts_add_up_to_jobs_witness :
  exists st, process_media_files broken_encoder e2e_self empty_world = Ok st
    /\ processed_count st + skipped_count st = 2.
Proof.
  destruct (process_media_files broken_encoder e2e_self empty_world)
    as [st|] eqn:H; [|vm_compute in H; discriminate].
  exists st. split; [reflexivity|].
  exact (counts_add_up_to_jobs broken_encoder e2e_self empty_world st H).
Defined.

(** X2. In a run that returns, the encoder is started at most once per
    job and at least once per file counted as processed. *)
Theorem encoder_runs_bounded (E : platform) (self : organizer)
    (w : world) (st : run_state) :
  process_media_files E self w = Ok st ->
  exists l, ffmpeg_calls (st_world st) = (ffmpeg_calls w ++ l)%list
    /\ processed_count st <= length l
    /\ length l <= count_jobs E (os_walk E (camera_path self)).
Proof.
  unfold process_media_files.
  destruct (process_loop E self _ _) as [st1|] eqn:Hl; [|discriminate].
  rewrite bind_ok. intros [= <-]. simpl.
  destruct (process_loop_counts E self _ _ _ Hl) as (_ & _ & l & Hc & H1 & H2).
  simpl in *. exists l. split; [exact Hc|]. split; lia.
Qed.

Lemma encoder_runs_bounded_witness :
  exists st l, process_media_files e2e e2e_self empty_world = Ok st
    /\ ffmpeg_calls (st_world st) = l /\ processed_count st <= length l <= 3.
Proof.
  destruct (process_media_files e2e e2e_self empty_world)
    as [st|] eqn:H; [|vm_compute in H; discriminate].
  destruct (encoder_runs_bounded e2e e2e_self empty_world st H) as (l & Hc & H1 & H2).
  exists st, l. split; [reflexivity|]. split; [exact Hc|]. split; [exact H1|exact H2].
Defined.

(** X3. A run that returns never removes or changes anything that was in
    the file system: every path keeps what it named.  The only files that
    appear are output paths of enumerated files, the only folders their
    date folders and the directories above these, and every encoder run is
    the job of an enumerated file. *)
Theorem run_only_adds_outputs (E : platform) (self : organizer)
    (w : world) (st : run_state) :
  process_media_files E self w = Ok st ->
  let files := os_walk E (camera_path self) in
  (forall q k, fs w !! q = Some k -> fs (st_world st) !! q = Some k)
  /\ (forall q, fs (st_world st) !! q = Some File ->
        fs w !! q = Some File
        \/ exists p d, In p files /\ get_creation_date E p = Ok d
             /\ q = output_path self d p)
  /\ (forall q, fs (st_world st) !! q = Some Dir ->
        fs w !! q = Some Dir
        \/ exists p d, In p files /\ get_creation_date E p = Ok d
             /\ (q = date_dir self d \/ In q (Path.parents (date_dir self d))))
  /\ (exists l, ffmpeg_calls (st_world st) = (ffmpeg_calls w ++ l)%list
        /\ forall a, In a l ->
             exists p d, In p files /\ get_creation_date E p = Ok d
               /\ out_file a = output_path self d p
               /\ job_input E p = Some (in_file a)).
Proof.
  unfold process_media_files.
  destruct (process_loop E self _ _) as [st1|] eqn:Hl; [|discriminate].
  rewrite bind_ok. intros [= <-]. cbv zeta. simpl st_world.
  exact (process_loop_frame E self _ _ _ Hl).
Qed.

Lemma run_only_adds_outputs_witness :
  exists st, process_media_files e2e e2e_self e2e_done = Ok st
    /\ forall q k, fs e2e_done !! q = Some k -> fs (st_world st) !! q = Some k.
Proof.
  destruct (process_media_files e2e e2e_self e2e_done)
    as [st|] eqn:H; [|vm_compute in H; discriminate].
  exists st. split; [reflexivity|].
  exact (proj1 (run_only_adds_outputs e2e e2e_self e2e_done st H)).
Defined.

(** ** Asking for the paths *)

Section PathInputFacts.

Variable E : platform.

Lemma write_ok (line : string) (w w1 : world) :
  write E line w = Ok w1 -> w1 = print line w /\ stdout_encodes E line = true.
Proof. unfold write. destruct (stdout_encodes E line); [|discriminate]. intros [= <-]. auto. Qed.

Lemma write_raise (line : string) (w : world) (e : exn) :
  write E line w = Raise e -> e = UnicodeEncodeError /\ stdout_encodes E line = false.
Proof. unfold write. destruct (stdout_encodes E line); [discriminate|]. intros [= <-]. auto. Qed.

Lemma ask_path_eq (path_type : string) (inputs : list string) (w : world) :
  ask_path E path_type inputs w =
  match write E (enter_prompt path_type) w with
  | Raise e => (w, inputs, Raised e)
  | Ok w1 =>
      match inputs with
      | [] => (w1, [], EOFError)
      | line :: rest =>
          let path := Text.strip line in
          if String.eqb path_type "camera" && path_exists w1 path
          then (w1, rest, Returned path)
          else if String.eqb path_type "destination" then
            if path_exists w1 path then (w1, rest, Returned path)
            else
              match write E (create_prompt path) w1 with
              | Raise e => (w1, rest, Raised e)
              | Ok w2 =>
                  match rest with
                  | [] => (w2, [], EOFError)
                  | answer :: rest' =>
                      if String.eqb (Str.lower answer) "y" then
                        match makedirs_new path w2 with
                        | Ok w3 => (w3, rest', Returned path)
                        | Raise e => (makedirs_new_left path w2, rest', Raised e)
                        end
                      else
                        match write E (invalid_line path_type) w2 with
                        | Raise e => (w2, rest', Raised e)
                        | Ok w3 => ask_path E path_type rest' w3
                        end
                  end
              end
          else
            match write E (invalid_line path_type) w1 with
            | Raise e => (w1, rest, Raised e)
            | Ok w2 => ask_path E path_type rest w2
            end
      end
  end.
Proof. destruct inputs as [|line [|answer rest]]; reflexivity. Qed.

Lemma ask_camera_frame (n : nat) :
  forall inputs w w' rest o,
    length inputs <= n ->
    ask_path E "camera" inputs w = (w', rest, o) ->
    fs w' = fs w /\ ffmpeg_calls w' = ffmpeg_calls w
    /\ match o with
       | Returned p => path_exists w p = true
                       /\ exists line, In line inputs /\ p = Text.strip line
       | EOFError => rest = []
       | Raised e =>
           e = UnicodeEncodeError
           /\ (stdout_encodes E (enter_prompt "camera") = false
               \/ stdout_encodes E (invalid_line "camera") = false)
       end.
Proof.
  induction n as [|n IH]; intros inputs w w' rest o Hlen; rewrite ask_path_eq;
    (destruct (write E (enter_prompt "camera") w) as [w1|e1] eqn:Hw1;
     [apply write_ok in Hw1 as [-> _]
     |apply write_raise in Hw1 as [-> Hn1]; intros [= <- <- <-]; auto]).
  - destruct inputs; [|simpl in Hlen; lia]. intros [= <- <- <-]. auto.
  - destruct inputs as [|line inputs]; [intros [= <- <- <-]; auto|].
    simpl in Hlen. cbv zeta.
    change (String.eqb "camera" "camera") with true.
    change (String.eqb "camera" "destination") with false. cbn [andb].
    destruct (path_exists (print (enter_prompt "camera") w) (Text.strip line)) eqn:Hex.
    + intros [= <- <- <-]. repeat split; [exact Hex|]. exists line. simpl. auto.
    + destruct (write E (invalid_line "camera") _) as [w2|e2] eqn:Hw2;
        [apply write_ok in Hw2 as [-> _]
        |apply write_raise in Hw2 as [-> Hn2]; intros [= <- <- <-]; auto].
      intros H. apply IH in H; [|lia]. destruct H as (H1 & H2 & H3).
      repeat split; [exact H1|exact H2|].
      destruct o as [p| |e]; [|exact H3|exact H3].
      destruct H3 as (Hp & l & Hin & ->). split; [exact Hp|].
      exists l. simpl. auto.
Qed.

Lemma ensure_dirs_left_frame (l : list string) (w : world) :
  refused (ensure_dirs_left l w) = refused w
  /\ (forall q k, fs w !! q = Some k -> fs (ensure_dirs_left l w) !! q = Some k)
  /\ (forall q k, fs (ensure_dirs_left l w) !! q = Some k ->
        fs w !! q = Some k \/ (k = Dir /\ In q l)).
Proof.
  revert w. induction l as [|a l IH]; intros w; [simpl; auto|].
  cbn [ensure_dirs_left]. destruct (fs w !! a) as [[|]|] eqn:Ha; [auto| |].
  - destruct (IH w) as (H1 & H2 & H3). split; [exact H1|]. split; [exact H2|].
    intros q k Hq. destruct (H3 q k Hq) as [?|[? ?]]; simpl; auto.
  - destruct (refused w a); [auto|].
    destruct (IH (add_dir a w)) as (H1 & H2 & H3).
    cbn [add_dir fs refused] in *. split; [exact H1|]. split.
    + intros q k Hq. apply H2. rewrite lookup_insert_ne; [exact Hq|congruence].
    + intros q k Hq. destruct (H3 q k Hq) as [Hq'|[? ?]]; [|simpl; auto].
      destruct (decide (a = q)) as [->|Hne].
      * rewrite lookup_insert_eq in Hq'. injection Hq' as <-. simpl. auto.
      * rewrite lookup_insert_ne in Hq' by exact Hne. auto.
Qed.

Lemma makedirs_new_left_frame (d : string) (w : world) :
  (forall q k, fs w !! q = Some k -> fs (makedirs_new_left d w) !! q = Some k)
  /\ (forall q k, fs (makedirs_new_left d w) !! q = Some k ->
        fs w !! q = Some k \/ (k = Dir /\ In q (Path.parents d))).
Proof.
  unfold makedirs_new_left. destruct (String.eqb d ""); [auto|].
  destruct (fs w !! d); [auto|].
  destruct (ensure_dirs_left_frame (rev (Path.parents d)) w) as (_ & H2 & H3).
  split; [exact H2|]. intros q k Hq. destruct (H3 q k Hq) as [?|[? Hin]]; [auto|].
  right. split; [assumption|]. apply in_rev. exact Hin.
Qed.

Lemma makedirs_new_ok (d : string) (w w' : world) :
  makedirs_new d w = Ok w' ->
  fs w !! d = None /\ fs w' !! d = Some Dir
  /\ stdout w' = stdout w /\ ffmpeg_calls w' = ffmpeg_calls w
  /\ (forall q k, fs w !! q = Some k -> fs w' !! q = Some k)
  /\ (forall q k, fs w' !! q = Some k ->
        fs w !! q = Some k \/ (k = Dir /\ (q = d \/ In q (Path.parents d)))).
Proof.
  unfold makedirs_new. destruct (String.eqb d ""); [discriminate|].
  destruct (fs w !! d) eqn:Hd; [discriminate|].
  destruct (ensure_dirs _ w) as [w1|] eqn:He; [|discriminate]. rewrite bind_ok.
  destruct (refused w1 d); [discriminate|]. intros [= <-].
  destruct (ensure_dirs_ok _ _ _ He) as (H1 & H2 & _ & H4 & H5 & H6).
  cbn [add_dir fs stdout ffmpeg_calls]. split; [reflexivity|].
  split; [apply lookup_insert_eq|]. split; [exact H1|]. split; [exact H2|]. split.
  - intros q k Hq. rewrite lookup_insert_ne; [exact (H4 _ _ Hq)|congruence].
  - intros q k. destruct (decide (d = q)) as [->|Hne].
    + rewrite lookup_insert_eq. intros [= <-]. auto.
    + rewrite lookup_insert_ne by exact Hne. destruct k; intros Hq.
      * left. exact (H5 _ Hq).
      * destruct (H6 _ Hq) as [?|Hin]; [auto|].
        right. split; [reflexivity|]. right. apply in_rev. exact Hin.
Qed.

(** [makedirs] looks at the file system and at what is refused only. *)
Lemma ensure_dirs_ext (l : list string) (w0 w : world) :
  fs w0 = fs w -> refused w0 = refused w ->
  match ensure_dirs l w0, ensure_dirs l w with
  | Ok a, Ok b => fs a = fs b /\ refused a = refused b
  | Raise e, Raise e' => e = e'
  | _, _ => False
  end.
Proof.
  revert w0 w. induction l as [|a l IH]; intros w0 w Hfs Hr; [simpl; auto|].
  cbn [ensure_dirs]. rewrite Hfs, Hr.
  destruct (fs w !! a) as [[|]|]; [reflexivity|exact (IH _ _ Hfs Hr)|].
  destruct (refused w a) as [e|]; [destruct e; reflexivity|].
  apply IH; cbn [add_dir fs refused]; congruence.
Qed.

Lemma makedirs_new_ext (d : string) (w0 w : world) (e : exn) :
  fs w0 = fs w -> refused w0 = refused w ->
  makedirs_new d w0 = Raise e -> makedirs_new d w = Raise e.
Proof.
  intros Hfs Hr. unfold makedirs_new. destruct (String.eqb d ""); [auto|].
  rewrite Hfs. destruct (fs w !! d); [auto|].
  pose proof (ensure_dirs_ext (rev (Path.parents d)) _ _ Hfs Hr) as Hx.
  destruct (ensure_dirs _ w0) as [a|e0], (ensure_dirs _ w) as [b|e1];
    try contradiction.
  - rewrite !bind_ok. destruct Hx as [_ Hx]. rewrite Hx.
    destruct (refused b d); [auto|discriminate].
  - subst. auto.
Qed.

Lemma makedirs_new_left_ext (d : string) (w0 w : world) :
  fs w0 = fs w -> refused w0 = refused w ->
  fs (makedirs_new_left d w0) = fs (makedirs_new_left d w).
Proof.
  intros Hfs Hr. unfold makedirs_new_left. destruct (String.eqb d ""); [auto|].
  rewrite Hfs. destruct (fs w !! d); [auto|].
  generalize (rev (Path.parents d)). intros l. revert w0 w Hfs Hr.
  induction l as [|a l IH]; intros w0 w Hfs Hr; [exact Hfs|].
  cbn [ensure_dirs_left]. rewrite Hfs, Hr.
  destruct (fs w !! a) as [[|]|]; [exact Hfs|exact (IH _ _ Hfs Hr)|].
  destruct (refused w a); [exact Hfs|].
  apply IH; cbn [add_dir fs refused]; congruence.
Qed.

(** What [os.makedirs(path)] raises. *)
Lemma makedirs_new_raises (d : string) (w : world) (e : exn) :
  makedirs_new d w = Raise e ->
  (d = "" /\ e = FileNotFoundError)
  \/ (e = FileExistsError /\ path_exists w d = true)
  \/ (e = NotADirectoryError
      /\ exists a, In a (Path.parents d) /\ fs w !! a = Some File)
  \/ exists a e', In a (d :: Path.parents d) /\ fs w !! a = None
       /\ refused w a = Some e'.
Proof.
  unfold makedirs_new, path_exists. destruct (String.eqb_spec d "") as [->|Hne].
  { intros [= <-]. auto. }
  destruct (fs w !! d) eqn:Hd; [intros [= <-]; auto|].
  destruct (ensure_dirs _ w) as [w1|e1] eqn:He.
  - rewrite bind_ok. destruct (refused w1 d) as [e0|] eqn:Hr; [|discriminate].
    intros _. destruct (ensure_dirs_ok _ _ _ He) as (_ & _ & H3 & _).
    right. right. right. exists d, e0. rewrite <- H3. simpl. auto.
  - intros [= <-].
    destruct (ensure_dirs_raises _ _ _ He) as [(-> & a & Ha & Hf)|(a & e' & Ha & Hn & Hr)].
    + right. right. left. split; [reflexivity|]. exists a. split; [|exact Hf].
      apply in_rev. exact Ha.
    + right. right. right. exists a, e'. split; [|auto]. right. apply in_rev. exact Ha.
Qed.

Lemma path_exists_print (line : string) (w : world) (p : string) :
  path_exists (print line w) p = path_exists w p.
Proof. reflexivity. Qed.

(** What asking for the destination does, in the worlds it goes through. *)
Lemma ask_destination_frame (n : nat) :
  forall inputs w w' rest o,
    length inputs <= n ->
    ask_path E "destination" inputs w = (w', rest, o) ->
    (forall q k, fs w !! q = Some k -> fs w' !! q = Some k)
    /\ match o with
       | Returned p =>
           (exists line, In line inputs /\ p = Text.strip line)
           /\ path_exists w' p = true
           /\ ((path_exists w p = true /\ fs w' = fs w)
               \/ (fs w !! p = None /\ fs w' !! p = Some Dir
                   /\ forall q k, fs w' !! q = Some k ->
                        fs w !! q = Some k
                        \/ (k = Dir /\ (q = p \/ In q (Path.parents p)))))
       | EOFError => rest = [] /\ fs w' = fs w
       | Raised e =>
           (e = UnicodeEncodeError /\ fs w' = fs w
            /\ (stdout_encodes E (enter_prompt "destination") = false
                \/ stdout_encodes E (invalid_line "destination") = false
                \/ exists line, In line inputs
                     /\ stdout_encodes E (create_prompt (Text.strip line)) = false))
           \/ (exists line, In line inputs
                 /\ makedirs_new (Text.strip line) w = Raise e
                 /\ path_exists w (Text.strip line) = false
                 /\ ((Text.strip line = "" /\ e = FileNotFoundError)
                     \/ (e = NotADirectoryError
                         /\ exists a, In a (Path.parents (Text.strip line))
                              /\ fs w !! a = Some File)
                     \/ exists a e', In a (Text.strip line
                                           :: Path.parents (Text.strip line))
                          /\ fs w !! a = None /\ refused w a = Some e')
                 /\ forall q k, fs w' !! q = Some k ->
                      fs w !! q = Some k
                      \/ (k = Dir /\ In q (Path.parents (Text.strip line))))
       end.
Proof.
  induction n as [|n IH]; intros inputs w w' rest o Hlen; rewrite ask_path_eq;
    (destruct (write E (enter_prompt "destination") w) as [w1|e1] eqn:Hw1;
     [apply write_ok in Hw1 as [-> _]
     |apply write_raise in Hw1 as [-> Hn1]; intros [= <- <- <-];
      split; [auto|]; left; auto]).
  - destruct inputs; [|simpl in Hlen; lia]. intros [= <- <- <-]. auto.
  - destruct inputs as [|line inputs]; [intros [= <- <- <-]; auto|].
    simpl in Hlen. cbv zeta.
    change (String.eqb "destination" "camera") with false.
    change (String.eqb "destination" "destination") with true. cbn [andb].
    set (path := Text.strip line). rewrite path_exists_print.
    destruct (path_exists w path) eqn:Hex.
    { intros [= <- <- <-]. split; [auto|]. split; [exists line; simpl; auto|].
      split; [exact Hex|]. left. auto. }
    destruct (write E (create_prompt path) _) as [w2|e2] eqn:Hw2;
      [apply write_ok in Hw2 as [-> _]
      |apply write_raise in Hw2 as [-> Hn2]; intros [= <- <- <-];
       split; [auto|]; left; split; [reflexivity|]; split; [reflexivity|];
       right; right; exists line; simpl; auto].
    destruct inputs as [|answer inputs]; [intros [= <- <- <-]; simpl; auto|].
    destruct (String.eqb (Str.lower answer) "y").
    + destruct (makedirs_new path _) as [w3|e3] eqn:Hm.
      * intros [= <- <- <-].
        destruct (makedirs_new_ok _ _ _ Hm) as (A & B & _ & _ & U & F).
        split; [exact U|]. split; [exists line; simpl; auto|]. split.
        { unfold path_exists. rewrite B. reflexivity. }
        right. auto.
      * intros [= <- <- <-].
        assert (Hm' : makedirs_new path w = Raise e3)
          by (eapply makedirs_new_ext; [| |exact Hm]; reflexivity).
        assert (Hfs : fs (makedirs_new_left path
                            (print (create_prompt path)
                               (print (enter_prompt "destination") w)))
                      = fs (makedirs_new_left path w))
          by (apply makedirs_new_left_ext; reflexivity).
        destruct (makedirs_new_left_frame path w) as [U F].
        split; [intros q k Hq; rewrite Hfs; exact (U _ _ Hq)|].
        right. exists line. split; [simpl; auto|]. split; [exact Hm'|].
        split; [exact Hex|]. split.
        -- destruct (makedirs_new_raises _ _ _ Hm') as [?|[[_ Hx]|[?|?]]]; auto.
           congruence.
        -- intros q k Hq. rewrite Hfs in Hq. exact (F _ _ Hq).
    + destruct (write E (invalid_line "destination") _) as [w3|e3] eqn:Hw3;
        [apply write_ok in Hw3 as [-> _]
        |apply write_raise in Hw3 as [-> Hn3]; intros [= <- <- <-];
         split; [auto|]; left; auto].
      intros H. apply IH in H; [|simpl in *; lia]. destruct H as (H1 & H2).
      cbn [print fs refused] in H1. split; [exact H1|]. destruct o as [p| |e].
      * destruct H2 as ((l & Hin & ->) & Hp & Hfs). split; [exists l; simpl; auto|].
        split; [exact Hp|]. rewrite !path_exists_print in Hfs. exact Hfs.
      * exact H2.
      * destruct H2 as [(He & Hfs & Hl)|(l & Hin & Hm & Hx & Ht & Hf)].
        -- left. split; [exact He|]. split; [exact Hfs|].
           destruct Hl as [?|[?|(l & Hin & Hl)]]; auto.
           right. right. exists l. simpl. auto.
        -- right. exists l. split; [simpl; auto|]. split.
           { eapply makedirs_new_ext; [| |exact Hm]; reflexivity. }
           split; [exact Hx|]. split; [exact Ht|exact Hf].
Qed.

End PathInputFacts.





(** ** The shape of folder names and the layout of the destination *)

Section LayoutFacts.

Lemma eqb_sep_digit (d : Z) : Ascii.eqb "/" (Strftime.digit_char d) = false.
Proof.
  destruct (Ascii.eqb_spec "/" (Strftime.digit_char d)) as [H|]; [|reflexivity].
  symmetry in H. destruct (digit_char_not_sep _ H).
Qed.

Lemma decimal_go_no_slash (fuel : nat) (n : Z) (acc : string) :
  Str.contains "/" (Strftime.decimal_go fuel n acc) = Str.contains "/" acc.
Proof.
  revert n acc. induction fuel as [|fuel IH]; intros n acc;
    cbn [Strftime.decimal_go].
  - cbn [Str.contains]. rewrite eqb_sep_digit. reflexivity.
  - destruct (n <? 10)%Z; [|rewrite IH];
      cbn [Str.contains]; rewrite eqb_sep_digit; reflexivity.
Qed.

Lemma strftime_no_slash (dt : datetime) :
  Str.contains "/" (Strftime.strftime dt) = false.
Proof.
  unfold Strftime.strftime, Strftime.pad2, Strftime.decimal.
  cbn [String.append Str.contains].
  rewrite !eqb_sep_digit, decimal_go_no_slash. reflexivity.
Qed.

(** Where a resolved date comes from. *)
Lemma get_creation_date_origin (E : platform) (p d : string) :
  get_creation_date E p = Ok d ->
  exists dt, d = Strftime.strftime dt
    /\ (metadata_date E p = Some dt
        \/ (metadata_date E p = None
            /\ exists t, getctime E p = Ok t /\ fromtimestamp E t = Ok dt)).
Proof.
  rewrite get_creation_date_eq. destruct (metadata_date E p) as [dt|].
  - intros [= <-]. exists dt. auto.
  - unfold fs_date. destruct (getctime E p) as [t|] eqn:Ht; [|discriminate].
    rewrite bind_ok. destruct (fromtimestamp E t) as [dt|] eqn:Hdt; [|discriminate].
    rewrite bind_ok. intros [= <-]. exists dt. split; [reflexivity|].
    right. split; [reflexivity|]. exists t. auto.
Qed.

End LayoutFacts.

(** X6. A date string that the resolver returns holds no slash.  It is
    the print, with [%m-%d-%Y], of the date of the first tagged stream or
    else of the creation time of the file system; for a month and a day of
    the calendar it has ten characters, two digits, a dash, two digits, a
    dash and four digits, exactly when the year is 1000 or later, and it
    is shorter when the year is below 1000. *)
Theorem date_string_shape (E : platform) (p d : string) :
  get_creation_date E p = Ok d ->
  Str.contains "/" d = false
  /\ exists dt,
       d = Strftime.strftime dt
       /\ (metadata_date E p = Some dt
           \/ (metadata_date E p = None
               /\ exists t, getctime E p = Ok t /\ fromtimestamp E t = Ok dt))
       /\ ((1 <= month dt <= 12)%Z -> (1 <= day dt <= 31)%Z ->
           (1000 <= year dt <= 9999)%Z ->
           String.length d = 10
           /\ mdy_pattern d = [((month dt, day dt, year dt), "")])
       /\ ((year dt < 1000)%Z -> String.length d < 10).
Proof.
  intros Hd. destruct (get_creation_date_origin E _ _ Hd) as (dt & -> & Ho).
  split; [apply strftime_no_slash|]. exists dt.
  split; [reflexivity|]. split; [exact Ho|]. split.
  - intros Hm Hdy Hy. split; [|apply strftime_reads_back; lia].
    unfold Strftime.strftime. rewrite (decimal_four _ Hy). reflexivity.
  - intros Hy. pose proof (decimal_short _ Hy) as Hl.
    unfold Strftime.strftime, Strftime.pad2. rewrite !app_length_s.
    cbn [String.length]. lia.
Qed.

Lemma date_string_shape_witness :
  get_creation_date e2e "/cam/b.png" = Ok "01-10-2022"
  /\ Str.contains "/" "01-10-2022" = false
  /\ Strftime.strftime (mkdt 999 5 1 0 0 0 0) = "05-01-999".
Proof.
  split; [reflexivity|]. split; [|reflexivity].
  exact (proj1 (date_string_shape e2e "/cam/b.png" "01-10-2022" eq_refl)).
Defined.

(** X7. With a destination root that has no trailing slash, what the loop
    body builds has two levels.  The date folder exists afterwards; it
    lies directly in the root, under the date string.  Every file that
    appears lies directly in the date folder, under the stem of the source
    name followed by [.jpg] when the name has an image extension and by
    [.m2ts] otherwise; and when the file is counted as processed, that
    file has appeared. *)
Theorem destination_layout (E : platform) (self : organizer) (p : string)
    (st st' : run_state) :
  dir_norm (destination_root self) ->
  process_file E self p st = Ok st' ->
  exists d, get_creation_date E p = Ok d
    /\ let folder := Path.join (destination_root self) d in
       let name := fst (Path.splitext (Path.basename p))
                   +:+ (if Str.endswith_any (Str.lower p) image_exts
                        then ".jpg" else ".m2ts") in
       fs (st_world st') !! folder = Some Dir
       /\ Path.dirname folder = destination_root self
       /\ Path.basename folder = d
       /\ (forall q, fs (st_world st') !! q = Some File ->
             fs (st_world st) !! q = Some File
             \/ (Path.dirname q = folder /\ Path.basename q = name))
       /\ (processed_count st' = S (processed_count st) ->
           exists q, fs (st_world st') !! q = Some File
             /\ Path.dirname q = folder /\ Path.basename q = name).
Proof.
  intros Hroot Hp. destruct (get_creation_date E p) as [d|] eqn:Hd.
  2:{ rewrite process_file_eq, Hd in Hp. discriminate. }
  exists d. split; [reflexivity|]. cbv zeta.
  destruct (process_file_frame E self _ _ _ _ Hd Hp) as (Hdir & _ & HF & _).
  pose proof (output_path_split E self _ _ Hd) as [H3 H4].
  assert (Hns : Str.contains "/" d = false).
  { destruct (get_creation_date_shape E _ _ Hd) as [dt ->]. apply strftime_no_slash. }
  destruct (rpartition_join _ _ Hroot Hns) as [H1 H2].
  assert (Hext : out_ext p = if Str.endswith_any (Str.lower p) image_exts
                             then ".jpg" else ".m2ts").
  { unfold out_ext, classify.
    destruct (Str.endswith_any (Str.lower p) image_exts); [reflexivity|].
    destruct (Str.endswith_any (Str.lower p) video_exts); [|reflexivity].
    destruct (Str.endswith (Str.lower p) ".cpi"); reflexivity. }
  rewrite <- Hext. unfold date_dir in *.
  split; [exact Hdir|]. split; [exact H1|]. split; [exact H2|]. split.
  - intros q Hq. destruct (HF q Hq) as [?| ->]; auto.
  - intros Hc. exists (output_path self d p).
    split; [exact (processed_has_output E self _ _ _ _ Hd Hp Hc)|]. auto.
Qed.

Lemma destination_layout_witness :
  exists st',
    process_file e2e e2e_self "/cam/b.png" (mkstate empty_world 0 0) = Ok st'
    /\ fs (st_world st') !! "/out/01-10-2022" = Some Dir
    /\ exists q, fs (st_world st') !! q = Some File
         /\ Path.dirname q = "/out/01-10-2022" /\ Path.basename q = "b.jpg".
Proof.
  destruct (process_file e2e e2e_self "/cam/b.png" (mkstate empty_world 0 0))
    as [st'|] eqn:H; [|vm_compute in H; discriminate].
  destruct (destination_layout e2e e2e_self "/cam/b.png" _ _ (or_intror eq_refl) H)
    as (d & Hd & Hdir & _ & _ & _ & Hout).
  assert (Hc : processed_count st' = 1)
    by (vm_compute in H; injection H as <-; reflexivity).
  injection Hd as <-. exists st'. split; [reflexivity|]. split; [exact Hdir|].
  exact (Hout Hc).
Defined.

(** ** Parsing what the format prints *)

Section RoundTrip.

Lemma bind_alt {A B} (p q : Re.t A) (f : A -> Re.t B) (s : string) :
  Re.bind (Re.alt p q) f s = (Re.bind p f s ++ Re.bind q f s)%list.
Proof. unfold Re.bind, Re.alt. apply flat_map_app. Qed.

Lemma bind_one {A B} (p : Re.t A) (f : A -> Re.t B) (s r : string) (a : A) :
  p s = [(a, r)] -> Re.bind p f s = f a r.
Proof. unfold Re.bind. intros ->. simpl. apply List.app_nil_r. Qed.

Lemma bind_none {A B} (p : Re.t A) (f : A -> Re.t B) (s : string) :
  p s = [] -> Re.bind p f s = [].
Proof. unfold Re.bind. intros ->. reflexivity. Qed.

Lemma cls_char (lo hi d : Z) (r : string) :
  Re.cls lo hi (String (Strftime.digit_char d) r)
  = if ((lo <=? d mod 10) && (d mod 10 <=? hi))%Z then [((d mod 10)%Z, r)] else [].
Proof. unfold Re.cls. rewrite digit_of_char. reflexivity. Qed.

Lemma lit_same (c : ascii) (r : string) : Re.lit c (String c r) = [(tt, r)].
Proof. unfold Re.lit. rewrite Ascii.eqb_refl. reflexivity. Qed.

Lemma lower_digit_char (d : Z) :
  Str.lower_char (Strftime.digit_char d) = Strftime.digit_char d.
Proof.
  unfold Str.lower_char, Str.is_upper, Strftime.digit_char.
  pose proof (Z.mod_pos_bound d 10 ltac:(lia)) as Hb.
  rewrite nat_ascii_embedding by lia.
  assert ((65 <=? 48 + Z.to_nat (d mod 10))%nat = false) as ->
    by (apply Nat.leb_gt; lia).
  reflexivity.
Qed.

(** A separator of the format is no digit, so it does not match one. *)
Lemma lit_digit (c : ascii) (d : Z) (r : string) :
  Re.ascii_digit (Str.lower_char c) = None ->
  Re.lit c (String (Strftime.digit_char d) r) = [].
Proof.
  intros Hc. unfold Re.lit. rewrite lower_digit_char.
  destruct (Ascii.eqb_spec (Strftime.digit_char d) (Str.lower_char c)) as [He|];
    [|reflexivity].
  rewrite <- He, digit_of_char in Hc. discriminate.
Qed.

Lemma digits_step (k : nat) (acc d : Z) (r : string) :
  Re.digits (S k) acc (String (Strftime.digit_char d) r)
  = Re.digits k (10 * acc + d mod 10)%Z r.
Proof.
  change (Re.digits (S k) acc) with
    (Re.bind (Re.cls 0 9) (fun x => Re.digits k (10 * acc + x)%Z)).
  rewrite (bind_one _ _ _ _ _ (cls_digit_char d r)). reflexivity.
Qed.


Lemma bind_cls {B} (lo hi d : Z) (r : string) (f : Z -> Re.t B) :
  Re.bind (Re.cls lo hi) f (String (Strftime.digit_char d) r)
  = if ((lo <=? d mod 10) && (d mod 10 <=? hi))%Z then f (d mod 10)%Z r else [].
Proof.
  unfold Re.bind. rewrite cls_char. destruct (_ && _)%Z; [|reflexivity].
  simpl. apply List.app_nil_r.
Qed.

(** An ASCII digit is one byte, and [\d] reads its value. *)
Lemma dec_char (d : Z) (r : string) :
  Re.dec (String (Strftime.digit_char d) r) = [((d mod 10)%Z, r)].
Proof.
  pose proof (Z.mod_pos_bound d 10 ltac:(lia)) as Hb.
  unfold Re.dec, Strftime.digit_char.
  assert (Hc : (d mod 10 = 0 \/ d mod 10 = 1 \/ d mod 10 = 2 \/ d mod 10 = 3
                \/ d mod 10 = 4 \/ d mod 10 = 5 \/ d mod 10 = 6 \/ d mod 10 = 7
                \/ d mod 10 = 8 \/ d mod 10 = 9)%Z) by lia.
  destruct Hc as [H|[H|[H|[H|[H|[H|[H|[H|[H|H]]]]]]]]]; rewrite H; reflexivity.
Qed.

Lemma bind_dec {B} (d : Z) (r : string) (f : Z -> Re.t B) :
  Re.bind Re.dec f (String (Strftime.digit_char d) r) = f (d mod 10)%Z r.
Proof. apply bind_one, dec_char. Qed.

(** A two-digit field followed by its separator, read by an alternative
    of two character classes. *)
Lemma two_pad {B} (a b c d n : Z) (sep : ascii) (r : string)
    (k : Z -> Re.t B) :
  (0 <= n < 100)%Z ->
  Re.bind (Re.two a b c d) (fun v => Re.bind (Re.lit sep) (fun _ => k v))
    (Strftime.pad2 n +:+ String sep r)
  = if ((a <=? n / 10) && (n / 10 <=? b) && ((c <=? n mod 10) && (n mod 10 <=? d)))%Z
    then k n r else [].
Proof.
  intros Hn. unfold Strftime.pad2, Re.two.
  change (String ?x (String ?y "") +:+ ?z) with (String x (String y z)).
  unfold Re.bind at 1. rewrite bind_cls.
  assert ((n / 10) mod 10 = n / 10)%Z as -> by (Z.to_euclidean_division_equations; lia).
  destruct ((a <=? n / 10) && (n / 10 <=? b))%Z; [|reflexivity].
  rewrite bind_cls.
  destruct ((c <=? n mod 10) && (n mod 10 <=? d))%Z; [|reflexivity].
  unfold Re.ret. cbn [flat_map fst snd andb]. rewrite List.app_nil_r.
  rewrite (bind_one _ _ _ _ _ (lit_same sep r)).
  f_equal. Z.to_euclidean_division_equations; lia.
Qed.

(** The same, where the second digit is any [\d]. *)
Lemma two_d_pad {B} (a b n : Z) (sep : ascii) (r : string)
    (k : Z -> Re.t B) :
  (0 <= n < 100)%Z ->
  Re.bind (Re.two_d a b) (fun v => Re.bind (Re.lit sep) (fun _ => k v))
    (Strftime.pad2 n +:+ String sep r)
  = if ((a <=? n / 10) && (n / 10 <=? b))%Z then k n r else [].
Proof.
  intros Hn. unfold Strftime.pad2, Re.two_d.
  change (String ?x (String ?y "") +:+ ?z) with (String x (String y z)).
  unfold Re.bind at 1. rewrite bind_cls.
  assert ((n / 10) mod 10 = n / 10)%Z as -> by (Z.to_euclidean_division_equations; lia).
  destruct ((a <=? n / 10) && (n / 10 <=? b))%Z; [|reflexivity].
  rewrite bind_dec.
  unfold Re.ret. cbn [flat_map fst snd andb]. rewrite List.app_nil_r.
  rewrite (bind_one _ _ _ _ _ (lit_same sep r)).
  f_equal. Z.to_euclidean_division_equations; lia.
Qed.

(** The alternative of one [\d] stops before the second digit too. *)
Lemma dec_pad {B} (n : Z) (sep : ascii) (r : string) (k : Z -> Re.t B) :
  Re.ascii_digit (Str.lower_char sep) = None ->
  Re.bind Re.dec (fun v => Re.bind (Re.lit sep) (fun _ => k v))
    (Strftime.pad2 n +:+ String sep r) = [].
Proof.
  intros Hs. unfold Strftime.pad2.
  change (String ?x (String ?y "") +:+ ?z) with (String x (String y z)).
  rewrite bind_dec. apply bind_none, lit_digit, Hs.
Qed.

(** The one-digit alternative of a field stops before the second digit,
    where no separator is. *)
Lemma one_pad {B} (lo hi n : Z) (sep : ascii) (r : string)
    (k : Z -> Re.t B) :
  Re.ascii_digit (Str.lower_char sep) = None ->
  Re.bind (Re.cls lo hi) (fun v => Re.bind (Re.lit sep) (fun _ => k v))
    (Strftime.pad2 n +:+ String sep r) = [].
Proof.
  intros Hs. unfold Strftime.pad2.
  change (String ?x (String ?y "") +:+ ?z) with (String x (String y z)).
  rewrite bind_cls. destruct (_ && _)%Z; [|reflexivity].
  apply bind_none, lit_digit, Hs.
Qed.

(** The alternative of the day that starts with a space does not start
    with a digit. *)
Lemma space_pad {B} (n : Z) (r : string) (f : Z -> Re.t B) :
  Re.bind (Re.bind (Re.lit " ") (fun _ => Re.cls 1 9)) f (Strftime.pad2 n +:+ r) = [].
Proof.
  unfold Strftime.pad2.
  change (String ?x (String ?y "") +:+ ?z) with (String x (String y z)).
  apply bind_none, bind_none, lit_digit. reflexivity.
Qed.

Ltac field_cases n :=
  let Hd := fresh "Hd" in
  let Hm := fresh "Hm" in
  pose proof (Z.div_mod n 10 ltac:(lia)) as Hd;
  pose proof (Z.mod_pos_bound n 10 ltac:(lia)) as Hm;
  generalize dependent (n / 10)%Z; generalize dependent (n mod 10)%Z;
  intros;
  repeat match goal with
         | |- context [(?a <=? ?b)%Z] => destruct (Z.leb_spec a b); try lia
         end;
  cbn [andb Datatypes.app]; rewrite ?List.app_nil_r; reflexivity.

Lemma grp_m_pad {B} (n : Z) (sep : ascii) (r : string) (k : Z -> Re.t B) :
  Re.ascii_digit (Str.lower_char sep) = None -> (1 <= n <= 12)%Z ->
  Re.bind Strptime.grp_m (fun v => Re.bind (Re.lit sep) (fun _ => k v))
    (Strftime.pad2 n +:+ String sep r) = k n r.
Proof.
  intros Hs Hn. unfold Strptime.grp_m.
  rewrite !bind_alt, !two_pad, one_pad by (exact Hs || lia).
  field_cases n.
Qed.

Lemma grp_d_pad {B} (n : Z) (sep : ascii) (r : string) (k : Z -> Re.t B) :
  Re.ascii_digit (Str.lower_char sep) = None -> (1 <= n <= 31)%Z ->
  Re.bind Strptime.grp_d (fun v => Re.bind (Re.lit sep) (fun _ => k v))
    (Strftime.pad2 n +:+ String sep r) = k n r.
Proof.
  intros Hs Hn. unfold Strptime.grp_d.
  rewrite !bind_alt, !two_pad, two_d_pad, one_pad, space_pad by (exact Hs || lia).
  field_cases n.
Qed.

Lemma grp_H_pad {B} (n : Z) (sep : ascii) (r : string) (k : Z -> Re.t B) :
  Re.ascii_digit (Str.lower_char sep) = None -> (0 <= n <= 23)%Z ->
  Re.bind Strptime.grp_H (fun v => Re.bind (Re.lit sep) (fun _ => k v))
    (Strftime.pad2 n +:+ String sep r) = k n r.
Proof.
  intros Hs Hn. unfold Strptime.grp_H.
  rewrite !bind_alt, two_pad, two_d_pad, dec_pad by (exact Hs || lia).
  field_cases n.
Qed.

Lemma grp_M_pad {B} (n : Z) (sep : ascii) (r : string) (k : Z -> Re.t B) :
  Re.ascii_digit (Str.lower_char sep) = None -> (0 <= n <= 59)%Z ->
  Re.bind Strptime.grp_M (fun v => Re.bind (Re.lit sep) (fun _ => k v))
    (Strftime.pad2 n +:+ String sep r) = k n r.
Proof.
  intros Hs Hn. unfold Strptime.grp_M.
  rewrite !bind_alt, two_d_pad, dec_pad by (exact Hs || lia).
  field_cases n.
Qed.

Lemma grp_S_pad {B} (n : Z) (sep : ascii) (r : string) (k : Z -> Re.t B) :
  Re.ascii_digit (Str.lower_char sep) = None -> (0 <= n <= 59)%Z ->
  Re.bind Strptime.grp_S (fun v => Re.bind (Re.lit sep) (fun _ => k v))
    (Strftime.pad2 n +:+ String sep r) = k n r.
Proof.
  intros Hs Hn. unfold Strptime.grp_S.
  rewrite !bind_alt, two_pad, two_d_pad, dec_pad by (exact Hs || lia).
  field_cases n.
Qed.

Lemma bind_bind {A B C} (p : Re.t A) (g : A -> Re.t B) (f : B -> Re.t C)
    (s : string) :
  Re.bind (Re.bind p g) f s = Re.bind p (fun x => Re.bind (g x) f) s.
Proof.
  unfold Re.bind. induction (p s) as [|[a r] l IH]; [reflexivity|].
  cbn [flat_map fst snd]. rewrite flat_map_app, IH. reflexivity.
Qed.

Lemma bind_ret {A B} (a : A) (f : A -> Re.t B) (s : string) :
  Re.bind (Re.ret a) f s = f a s.
Proof. apply bind_one. reflexivity. Qed.

Lemma grp_Y_pad {B} (n : Z) (sep : ascii) (r : string) (k : Z -> Re.t B) :
  (0 <= n < 10000)%Z ->
  Re.bind Strptime.grp_Y (fun v => Re.bind (Re.lit sep) (fun _ => k v))
    (Strftime.pad4 n +:+ String sep r) = k n r.
Proof.
  intros Hn. unfold Strptime.grp_Y, Strftime.pad4, Strftime.pad2.
  change (String ?a (String ?b (String ?c (String ?d ""))) +:+ ?z)
    with (String a (String b (String c (String d z)))).
  change (Re.decs 4 0) with
    (Re.bind Re.dec (fun a => Re.bind Re.dec (fun b =>
     Re.bind Re.dec (fun c => Re.bind Re.dec (fun d =>
       Re.ret (10 * (10 * (10 * (10 * 0 + a) + b) + c) + d)%Z))))).
  do 4 rewrite bind_bind, bind_dec. rewrite bind_ret.
  rewrite (bind_one _ _ _ _ _ (lit_same sep r)).
  f_equal. Z.to_euclidean_division_equations; lia.
Qed.

Lemma bind_digits_step {B} (k : nat) (acc d : Z) (r : string) (f : Z -> Re.t B) :
  Re.bind (Re.digits (S k) acc) f (String (Strftime.digit_char d) r)
  = Re.bind (Re.digits k (10 * acc + d mod 10)%Z) f r.
Proof. unfold Re.bind. rewrite digits_step. reflexivity. Qed.

Lemma bind_digits_done {B} (acc : Z) (r : string) (f : Z -> Re.t B) :
  Re.bind (Re.digits 0 acc) f r = f acc r.
Proof. apply bind_ret. Qed.

(** The fraction in six digits: the alternatives that take fewer digits
    stop before a digit, where no [Z] is. *)
Lemma grp_f_pad {B} (n : Z) (r : string) (k : Z -> Re.t B) :
  (0 <= n <= 999999)%Z ->
  Re.bind Strptime.grp_f (fun v => Re.bind (Re.lit "Z") (fun _ => k v))
    (pad6 n +:+ String "Z" r) = k n r.
Proof.
  intros Hn. unfold Strptime.grp_f, pad6, Strftime.pad4, Strftime.pad2.
  change (String ?a (String ?b (String ?c (String ?d (String ?e (String ?f ""))))) +:+ ?z)
    with (String a (String b (String c (String d (String e (String f z)))))).
  rewrite !bind_alt, !bind_bind.
  rewrite !bind_digits_step, !bind_digits_done, !bind_ret.
  rewrite !(bind_none _ _ _ (lit_digit "Z" _ _ eq_refl)).
  rewrite (bind_one _ _ _ _ _ (lit_same "Z" r)).
  cbn [Datatypes.app]. rewrite List.app_nil_r. f_equal.
  Z.to_euclidean_division_equations; lia.
Qed.

Lemma iso_pattern_isoformat (dt : datetime) :
  well_formed dt -> Strptime.iso_pattern (isoformat dt) = [(dt, "")].
Proof.
  intros (HY & Hm & Hd & HH & HM & HS & Hf).
  assert (Hd' : (1 <= day dt <= 31)%Z).
  { revert Hd. unfold Strptime.days_in_month.
    repeat match goal with |- context [if ?b then _ else _] => destruct b end; lia. }
  unfold Strptime.iso_pattern, isoformat.
  cbn [String.append].
  rewrite grp_Y_pad by lia. cbv beta.
  rewrite grp_m_pad by (reflexivity || lia). cbv beta.
  rewrite grp_d_pad by (reflexivity || lia). cbv beta.
  rewrite grp_H_pad by (reflexivity || lia). cbv beta.
  rewrite grp_M_pad by (reflexivity || lia). cbv beta.
  rewrite grp_S_pad by (reflexivity || lia). cbv beta.
  rewrite grp_f_pad by lia.
  destruct dt; reflexivity.
Qed.

Lemma well_formed_valid (dt : datetime) : well_formed dt -> Strptime.valid dt = true.
Proof.
  intros (HY & Hm & Hd & HH & HM & HS & Hf). unfold Strptime.valid.
  rewrite !andb_true_iff, !Z.leb_le. lia.
Qed.

Lemma strptime_isoformat (dt : datetime) :
  well_formed dt -> Strptime.strptime (isoformat dt) = Ok dt.
Proof.
  intros H. unfold Strptime.strptime.
  rewrite (iso_pattern_isoformat dt H), (well_formed_valid dt H). reflexivity.
Qed.

End RoundTrip.

(** ** What the parser lets through *)

Section Accepted.

Lemma in_digits (k : nat) (acc : Z) (s : string) (v : Z) (r : string) :
  In (v, r) (Re.digits k acc s) ->
  (acc * 10 ^ Z.of_nat k <= v < (acc + 1) * 10 ^ Z.of_nat k)%Z.
Proof.
  revert acc s. induction k as [|k IH]; intros acc s.
  - intros [= -> _]%in_ret. simpl. lia.
  - simpl Re.digits. intros (x & r1 & Hx & H)%in_bind.
    apply in_cls in Hx. apply IH in H.
    rewrite Nat2Z.inj_succ, Z.pow_succ_r by lia. nia.
Qed.

Lemma in_grp_H (s : string) (v : Z) (r : string) :
  In (v, r) (Strptime.grp_H s) -> (0 <= v <= 23)%Z.
Proof.
  unfold Strptime.grp_H. rewrite !in_alt.
  intros [H|[H|H]]; [apply in_two in H|apply in_two_d in H|apply in_dec in H]; lia.
Qed.

Lemma in_grp_M (s : string) (v : Z) (r : string) :
  In (v, r) (Strptime.grp_M s) -> (0 <= v <= 59)%Z.
Proof.
  unfold Strptime.grp_M. rewrite !in_alt.
  intros [H|H]; [apply in_two_d in H|apply in_dec in H]; lia.
Qed.

Lemma in_grp_S (s : string) (v : Z) (r : string) :
  In (v, r) (Strptime.grp_S s) -> (0 <= v <= 61)%Z.
Proof.
  unfold Strptime.grp_S. rewrite !in_alt.
  intros [H|[H|H]]; [apply in_two in H|apply in_two_d in H|apply in_dec in H]; lia.
Qed.

Lemma in_scaled (k : nat) (c : Z) (s : string) (v : Z) (r : string) :
  In (v, r) (Re.bind (Re.digits k 0) (fun x => Re.ret (x * c)%Z) s) ->
  exists x, (0 <= x < 10 ^ Z.of_nat k)%Z /\ v = (x * c)%Z.
Proof.
  intros (x & r1 & Hx & H)%in_bind. apply in_ret in H as [= -> _].
  apply in_digits in Hx. exists x. split; [lia|reflexivity].
Qed.

Lemma in_grp_f (s : string) (v : Z) (r : string) :
  In (v, r) (Strptime.grp_f s) -> (0 <= v <= 999999)%Z.
Proof.
  unfold Strptime.grp_f. rewrite !in_alt.
  intros [H|[H|[H|[H|[H|H]]]]];
    [apply in_digits in H; simpl in H; lia| | | | |];
    apply in_scaled in H as (x & Hx & ->); simpl in Hx; lia.
Qed.

(** What [strptime] accepts is a date and a time of day that exist. *)
Lemma strptime_well_formed (s : string) (dt : datetime) :
  Strptime.strptime s = Ok dt -> well_formed dt.
Proof.
  intros Hs. pose proof (strptime_range s dt Hs) as (HY & Hm & Hd).
  revert Hs. unfold Strptime.strptime.
  destruct (Strptime.iso_pattern s) as [|[dt' [|? ?]] rest] eqn:Hp; try discriminate.
  destruct (Strptime.valid dt') eqn:Hv; [|discriminate]. intros [= ->].
  assert (Hin : In (dt, "") (Strptime.iso_pattern s)) by (rewrite Hp; left; reflexivity).
  clear Hp. unfold Strptime.iso_pattern in Hin.
  apply in_bind in Hin as (Y & r1 & _ & Hin).
  apply in_bind in Hin as (? & r2 & _ & Hin).
  apply in_bind in Hin as (m & r3 & _ & Hin).
  apply in_bind in Hin as (? & r4 & _ & Hin).
  apply in_bind in Hin as (d & r5 & _ & Hin).
  apply in_bind in Hin as (? & r6 & _ & Hin).
  apply in_bind in Hin as (H & r7 & HH & Hin).
  apply in_bind in Hin as (? & r8 & _ & Hin).
  apply in_bind in Hin as (M & r9 & HM & Hin).
  apply in_bind in Hin as (? & r10 & _ & Hin).
  apply in_bind in Hin as (S & r11 & HS & Hin).
  apply in_bind in Hin as (? & r12 & _ & Hin).
  apply in_bind in Hin as (f & r13 & Hf & Hin).
  apply in_bind in Hin as (? & r14 & _ & Hin).
  apply in_ret in Hin as [= -> _].
  apply in_grp_H in HH. apply in_grp_M in HM. apply in_grp_S in HS.
  apply in_grp_f in Hf.
  unfold Strptime.valid in Hv. cbn [year month day hour minute second microsecond] in *.
  apply andb_true_iff in Hv as [Hv H3]. apply andb_true_iff in Hv as [_ H2].
  apply Z.leb_le in H2, H3.
  unfold well_formed. cbn [year month day hour minute second microsecond]. lia.
Qed.

End Accepted.

(** X8. Every date and time of day that [datetime] can hold, printed in
    the format [%Y-%m-%dT%H:%M:%S.%fZ] with all digits, is read back by
    [strptime] as the same value.  A file whose first tagged stream carries
    such a text is therefore placed by its metadata, never by the file
    system date. *)
Theorem canonical_timestamp_is_accepted (E : platform) (p : string)
    (l : list stream) (dt : datetime) :
  well_formed dt ->
  ffprobe E p = Ok (mkprobe (Some l)) ->
  first_creation_time l = Some (isoformat dt) ->
  Strptime.strptime (isoformat dt) = Ok dt
  /\ metadata_date E p = Some dt
  /\ get_creation_date E p = Ok (Strftime.strftime dt).
Proof.
  intros Hwf Hprobe Hfirst. pose proof (strptime_isoformat dt Hwf) as Hs.
  assert (Hm : metadata_date E p = Some dt).
  { unfold metadata_date. rewrite Hprobe. cbn [streams]. rewrite Hfirst, Hs.
    reflexivity. }
  split; [exact Hs|]. split; [exact Hm|].
  rewrite get_creation_date_eq, Hm. reflexivity.
Qed.

Lemma canonical_timestamp_is_accepted_witness :
  isoformat (mkdt 2023 5 1 10 20 30 0) = may_2023
  /\ get_creation_date e2e "/cam/a.jpg" = Ok "05-01-2023".
Proof.
  split; [reflexivity|].
  assert (Hwf : well_formed (mkdt 2023 5 1 10 20 30 0))
    by (unfold well_formed; cbn; lia).
  exact (proj2 (proj2 (canonical_timestamp_is_accepted e2e "/cam/a.jpg"
           [mkstream None; tagged may_2023] (mkdt 2023 5 1 10 20 30 0)
           Hwf eq_refl eq_refl))).
Defined.

(** X9. The [creation_time] of the first tagged stream decides what the
    resolver returns.  When it parses, the date exists in the calendar:
    month 1 to 12, a day of that month in that year (29 February in leap
    years only), hour up to 23, minute and second up to 59, and a fraction
    below one million; printed in full and parsed again it is the same
    date, and the resolver returns it printed with [%m-%d-%Y].  When it
    does not parse, [strptime] raises [ValueError] and the resolver does
    what its fallback does: it prints the creation time of the file
    system, or raises what reading that raises. *)
Theorem metadata_date_is_a_calendar_date (E : platform) (p : string)
    (l : list stream) (ct : string) :
  ffprobe E p = Ok (mkprobe (Some l)) ->
  first_creation_time l = Some ct ->
  match Strptime.strptime ct with
  | Ok dt =>
      well_formed dt
      /\ Strptime.strptime (isoformat dt) = Ok dt
      /\ get_creation_date E p = Ok (Strftime.strftime dt)
  | Raise e =>
      e = ValueError
      /\ get_creation_date E p
         = (t ← getctime E p; dt ← fromtimestamp E t; Ok (Strftime.strftime dt))
  end.
Proof.
  intros Hprobe Hfirst. rewrite get_creation_date_eq. unfold metadata_date, fs_date.
  rewrite Hprobe. cbn [streams]. rewrite Hfirst.
  destruct (Strptime.strptime ct) as [dt|e] eqn:Hp.
  - pose proof (strptime_well_formed _ _ Hp) as Hwf.
    split; [exact Hwf|]. split; [apply strptime_isoformat, Hwf|reflexivity].
  - split; [|reflexivity]. revert Hp. unfold Strptime.strptime.
    destruct (Strptime.iso_pattern ct) as [|[dt' [|? ?]] rest];
      [| destruct (Strptime.valid dt')|]; congruence.
Qed.

Lemma metadata_date_is_a_calendar_date_witness :
  (well_formed (mkdt 2023 5 1 10 20 30 0)
   /\ get_creation_date e2e "/cam/a.jpg" = Ok "05-01-2023")
  /\ (Strptime.strptime "2023-05-01 10:20:30" = Raise ValueError
      /\ get_creation_date mixed "/cam/c.mts" = Ok "01-10-2022").
Proof.
  split.
  - pose proof (metadata_date_is_a_calendar_date e2e "/cam/a.jpg"
                  [mkstream None; tagged may_2023] may_2023 eq_refl eq_refl) as H.
    assert (Hs : Strptime.strptime may_2023 = Ok (mkdt 2023 5 1 10 20 30 0))
      by reflexivity.
    rewrite Hs in H. destruct H as (H1 & _ & H3). split; [exact H1|exact H3].
  - pose proof (metadata_date_is_a_calendar_date mixed "/cam/c.mts"
                  [tagged "2023-05-01 10:20:30"; tagged may_2023]
                  "2023-05-01 10:20:30" eq_refl eq_refl) as H.
    assert (Hs : Strptime.strptime "2023-05-01 10:20:30" = Raise ValueError)
      by reflexivity.
    rewrite Hs in H. destruct H as (_ & H).
    split; [exact Hs|]. rewrite H. reflexivity.
Defined.


(** ** Files that share an output *)


Section CollisionFacts.

Variable E : platform.
Variable self : organizer.

End CollisionFacts.

(** X10. Two files of the same day whose names have the same stem and
    whose outputs have the same extension (two images, or a clip and an
    index file, or clips of the same name in two folders) share one output
    path.  Once the first is counted as processed, the loop body leaves the
    world as it is for the second: no encoder run, nothing printed, and
    the second file is counted as skipped. *)
Theorem same_stem_shares_output (E : platform) (self : organizer)
    (p q d : string) (st st1 st2 : run_state) :
  get_creation_date E p = Ok d -> get_creation_date E q = Ok d ->
  fst (Path.splitext (Path.basename p)) = fst (Path.splitext (Path.basename q)) ->
  out_ext p = out_ext q ->
  has_job E q = true ->
  process_file E self p st = Ok st1 ->
  processed_count st1 = S (processed_count st) ->
  process_file E self q st1 = Ok st2 ->
  output_path self d q = output_path self d p
  /\ st_world st2 = st_world st1
  /\ processed_count st2 = processed_count st1
  /\ skipped_count st2 = S (skipped_count st1).
Proof.
  intros Hp Hq Hstem Hext Hj H1 Hc H2.
  assert (Ho : output_path self d q = output_path self d p)
    by (unfold output_path; rewrite Hstem, Hext; reflexivity).
  split; [exact Ho|].
  assert (Hin : processed_in E self (st_world st1) q).
  { exists d. split; [exact Hq|]. split.
    - exact (proj1 (process_file_frame E self _ _ _ _ Hp H1)).
    - intros _. rewrite Ho. unfold path_exists.
      rewrite (processed_has_output E self _ _ _ _ Hp H1 Hc). reflexivity. }
  rewrite (process_file_processed E self _ _ Hin), Hj in H2.
  injection H2 as <-. simpl. auto.
Qed.

Lemma same_stem_shares_output_witness :
  exists st1 st2,
    process_file twins e2e_self "/cam/a/IMG_1.jpg" (mkstate empty_world 0 0) = Ok st1
    /\ process_file twins e2e_self "/cam/b/IMG_1.png" st1 = Ok st2
    /\ output_path e2e_self "01-10-2022" "/cam/b/IMG_1.png"
       = output_path e2e_self "01-10-2022" "/cam/a/IMG_1.jpg"
    /\ processed_count st2 = 1 /\ skipped_count st2 = 1.
Proof.
  destruct (process_file twins e2e_self "/cam/a/IMG_1.jpg" (mkstate empty_world 0 0))
    as [st1|] eqn:H1; [|vm_compute in H1; discriminate].
  destruct (process_file twins e2e_self "/cam/b/IMG_1.png" st1)
    as [st2|] eqn:H2.
  2:{ vm_compute in H1. injection H1 as <-. vm_compute in H2. discriminate. }
  assert (Hc : processed_count st1 = 1 /\ skipped_count st1 = 0).
  { vm_compute in H1. injection H1 as <-. split; reflexivity. }
  destruct Hc as [Hc Hs].
  destruct (same_stem_shares_output twins e2e_self "/cam/a/IMG_1.jpg"
              "/cam/b/IMG_1.png" "01-10-2022" (mkstate empty_world 0 0) st1 st2
              eq_refl eq_refl eq_refl eq_refl eq_refl H1 Hc H2)
    as (Ho & _ & Hp2 & Hs2).
  exists st1, st2. split; [reflexivity|]. split; [exact H2|].
  split; [exact Ho|]. split; [congruence|congruence].
Defined.




(** ** The graphical worker and the command line *)

Section WorkerFacts.

Variable E : platform.

Lemma process_file_root (self : organizer) (p : string) (st : run_state) :
  process_file E self p st = process_file E (mkorganizer "" (destination_root self)) p st.
Proof. reflexivity. Qed.

Lemma process_loop_root (self : organizer) (files : list string) (st : run_state) :
  process_loop E self files st
  = process_loop E (mkorganizer "" (destination_root self)) files st.
Proof.
  revert st. induction files as [|p files IH]; intros st; [reflexivity|].
  simpl. rewrite process_file_root.
  destruct (process_file _ _ p st) as [st1|]; [|reflexivity].
  rewrite !bind_ok. apply IH.
Qed.

End WorkerFacts.

(** X12. The loop of the graphical worker acts on the world as the loop
    of [process_media_files] does, whatever the counters: from the same
    world and the same list of files both return or both raise the same
    exception, and when they return, the file system and the encoder runs
    are the same; the command line prints four more lines, its summary. *)
Theorem worker_acts_as_command_line (E : platform) (self : organizer) (w : world) :
  (forall files a b,
     Gui.worker_loop E (destination_root self) files w
     = (st ← process_loop E self files (mkstate w a b); Ok (st_world st)))
  /\ (forall st, process_media_files E self w = Ok st ->
        exists w', Gui.worker_loop E (destination_root self)
                     (os_walk E (camera_path self)) w = Ok w'
          /\ fs (st_world st) = fs w'
          /\ ffmpeg_calls (st_world st) = ffmpeg_calls w'
          /\ exists l, stdout (st_world st) = (stdout w' ++ l)%list /\ length l = 4)
  /\ (forall e, process_media_files E self w = Raise e ->
        Gui.worker_loop E (destination_root self)
          (os_walk E (camera_path self)) w = Raise e).
Proof.
  assert (H : forall files a b,
     Gui.worker_loop E (destination_root self) files w
     = (st ← process_loop E self files (mkstate w a b); Ok (st_world st))).
  { intros files a b. rewrite (worker_loop_eq E _ files w a b), <- process_loop_root.
    reflexivity. }
  split; [exact H|]. split.
  - intros st. unfold process_media_files. rewrite (H _ 0 0).
    destruct (process_loop E self _ _) as [st1|]; [|discriminate].
    rewrite !bind_ok. intros [= <-]. exists (st_world st1).
    split; [reflexivity|]. split; [reflexivity|]. split; [reflexivity|].
    unfold summary, print. cbn [st_world stdout].
    eexists [_; _; _; _]. rewrite <- !List.app_assoc. split; reflexivity.
  - intros e. unfold process_media_files. rewrite (H _ 0 0).
    destruct (process_loop E self _ _) as [st1|]; [discriminate|].
    intros [= <-]. reflexivity.
Qed.

Lemma worker_acts_as_command_line_witness :
  exists st w',
    process_media_files e2e e2e_self empty_world = Ok st
    /\ Gui.worker_loop e2e "/out" ["/cam/a.jpg"; "/cam/b.png"; "/cam/c.mts"]
         empty_world = Ok w'
    /\ ffmpeg_calls (st_world st) = ffmpeg_calls w'.
Proof.
  destruct (process_media_files e2e e2e_self empty_world) as [st|] eqn:H;
    [|vm_compute in H; discriminate].
  destruct (proj1 (proj2 (worker_acts_as_command_line e2e e2e_self empty_world)) st H)
    as (w' & Hw & _ & Hc & _).
  exists st, w'. split; [reflexivity|]. split; [exact Hw|exact Hc].
Defined.

(** ** When a run returns, and what it prints *)

Section TotalFacts.

Variable E : platform.
Variable self : organizer.

Lemma join_last (a b : string) :
  b <> "" -> Str.last_char (Path.join a b) = Str.last_char b.
Proof.
  intros Hb. unfold Path.join. destruct (Str.startswith b "/"); [reflexivity|].
  destruct (String.eqb a "" || Str.endswith a "/"); [apply last_char_app, Hb|].
  rewrite last_char_app by discriminate.
  destruct b; [congruence|reflexivity].
Qed.

Lemma output_path_last (d p : string) :
  Str.last_char (output_path self d p) = Some "g"%char
  \/ Str.last_char (output_path self d p) = Some "s"%char.
Proof.
  unfold output_path.
  assert (Hne : out_ext p <> "") by (unfold out_ext; destruct (classify p); discriminate).
  rewrite join_last.
  2:{ destruct (fst (Path.splitext (Path.basename p))); [exact Hne|discriminate]. }
  rewrite (last_char_app _ _ Hne). unfold out_ext. destruct (classify p); auto.
Qed.

(** No output path is the path of a date folder. *)
Lemma output_not_date_dir (d p : string) (dt : datetime) :
  output_path self d p <> date_dir self (Strftime.strftime dt).
Proof.
  intros Heq. pose proof (date_dir_last (destination_root self) dt) as Hl.
  fold (date_dir self (Strftime.strftime dt)) in Hl. rewrite <- Heq in Hl.
  pose proof (digit_of_char (year dt)) as Hd.
  destruct (output_path_last d p) as [Hg|Hg]; rewrite Hg in Hl;
    injection Hl as Hl; rewrite <- Hl in Hd; discriminate.
Qed.

Lemma startswith_app (pre x : string) : Str.startswith (pre +:+ x) pre = true.
Proof.
  induction pre as [|c pre IH]; [destruct x; reflexivity|].
  cbn [String.append Str.startswith]. rewrite Ascii.eqb_refl. exact IH.
Qed.

Lemma rpartition_length (y : string) :
  String.length (fst (Path.rpartition y)) <= String.length y.
Proof.
  induction y as [|c y IH]; [simpl; lia|].
  cbn [Path.rpartition]. destruct (Str.contains "/" y).
  - destruct (Path.rpartition y) as [h t]. simpl in *. lia.
  - destruct (Ascii.eqb c "/"); simpl; lia.
Qed.

Lemma dirname_length (y : string) :
  String.length (Path.dirname y) <= String.length y.
Proof.
  unfold Path.dirname. pose proof (rpartition_length y) as H1.
  pose proof (rstrip_length (fst (Path.rpartition y))) as H2.
  destruct (Str.rstrip_slash (fst (Path.rpartition y))); simpl in *; lia.
Qed.

(** The directories above a path are no longer than its [dirname]. *)
Lemma parents_go_length (fuel : nat) (x a : string) :
  In a (Path.parents_go fuel x) ->
  String.length a <= String.length (Path.dirname x).
Proof.
  revert x. induction fuel as [|fuel IH]; intros x; [intros []|].
  cbn [Path.parents_go]. cbv zeta.
  destruct (String.eqb (Str.rstrip_slash (Path.dirname x)) ""); [intros []|].
  intros [<-|Hin]; [lia|]. apply IH in Hin.
  pose proof (dirname_length (Path.dirname x)). lia.
Qed.

Lemma join_length (a b : string) :
  Str.contains "/" b = false ->
  String.length a + String.length b <= String.length (Path.join a b).
Proof.
  intros Hb. unfold Path.join. rewrite (startswith_no_sep _ Hb).
  destruct (String.eqb a "" || Str.endswith a "/"); rewrite !app_length_s; simpl; lia.
Qed.

(** The [dirname] of a folder placed in the root is no longer than the
    root. *)
Lemma dirname_join_length (root x : string) :
  Str.contains "/" x = false ->
  String.length (Path.dirname (Path.join root x)) <= String.length root.
Proof.
  intros Hx. unfold Path.join. rewrite (startswith_no_sep _ Hx).
  destruct (String.eqb_spec root "") as [->|Hne].
  - cbn [orb String.append]. unfold Path.dirname.
    rewrite (rpartition_no_sep _ Hx). simpl. lia.
  - cbn [orb]. destruct (Str.endswith root "/") eqn:He.
    + unfold Path.dirname. rewrite (rpartition_app _ _ Hx He). cbn [fst].
      pose proof (rstrip_length root).
      destruct (Str.rstrip_slash root); simpl in *; lia.
    + assert (Hs : Str.endswith (root +:+ "/") "/" = true)
        by (apply endswith_spec; exists root; reflexivity).
      rewrite <- app_assoc_s. unfold Path.dirname.
      rewrite (rpartition_app _ _ Hx Hs). cbn [fst]. rewrite rstrip_app_slash.
      pose proof (rstrip_length root).
      destruct (Str.rstrip_slash root) eqn:Hr; [|simpl in *; lia].
      destruct (rstrip_empty _ Hr) as [?|Hl]; [contradiction|].
      apply endswith_slash_last in Hl. congruence.
Qed.

(** No output path is a directory above a date folder. *)
Lemma output_not_above (d p a : string) (dt dt' : datetime) :
  d = Strftime.strftime dt ->
  In a (Path.parents (date_dir self (Strftime.strftime dt'))) ->
  output_path self d p <> a.
Proof.
  intros -> Hin Heq. apply parents_go_length in Hin.
  pose proof (dirname_join_length (destination_root self) _ (strftime_no_slash dt')).
  unfold date_dir in Hin. rewrite <- Heq in Hin. unfold output_path, date_dir in Hin.
  pose proof (join_length (Path.join (destination_root self) (Strftime.strftime dt))
                _ (out_name_no_sep p)) as H1.
  pose proof (join_length (destination_root self) _ (strftime_no_slash dt)) as H2.
  rewrite app_length_s in H1.
  assert (0 < String.length (out_ext p))
    by (unfold out_ext; destruct (classify p); simpl; lia).
  lia.
Qed.

(** A file that the loop body adds stands in the way of no date folder. *)
Lemma process_file_keeps_way (p d d' : string) (dt' : datetime) (st st' : run_state) :
  get_creation_date E p = Ok d ->
  process_file E self p st = Ok st' ->
  d' = Strftime.strftime dt' ->
  forall q, In q (date_dir self d' :: Path.parents (date_dir self d')) ->
    fs (st_world st') !! q = Some File -> fs (st_world st) !! q = Some File.
Proof.
  intros Hd Hp -> q Hin Hf.
  destruct (process_file_frame E self _ _ _ _ Hd Hp) as (_ & _ & HF & _).
  destruct (HF _ Hf) as [Hold|Hnew]; [exact Hold|]. exfalso.
  destruct (get_creation_date_shape E _ _ Hd) as [dt Hdt].
  destruct Hin as [Hq|Hq].
  - apply (output_not_date_dir d p dt'). rewrite <- Hnew. symmetry. exact Hq.
  - symmetry in Hnew. exact (output_not_above _ _ _ _ _ Hdt Hq Hnew).
Qed.

Lemma process_loop_returns (files : list string) (st : run_state) :
  Forall (fun p => exists d, get_creation_date E p = Ok d
                     /\ can_make (st_world st) (date_dir self d)) files ->
  exists st', process_loop E self files st = Ok st'.
Proof.
  revert st. induction files as [|p files IH]; intros st Hall; [simpl; eauto|].
  inversion Hall as [|? ? (d & Hd & Hfree) Hrest]; subst.
  destruct (makedirs_returns _ _ Hfree) as [w Hm].
  destruct (process_file_returns E self _ _ _ _ Hd Hm) as [st1 Hp].
  simpl. rewrite Hp, bind_ok. apply IH.
  eapply Forall_impl; [exact Hrest|]. cbv beta.
  intros q (d' & Hd' & Hfree'). exists d'. split; [exact Hd'|].
  destruct (process_file_frame E self _ _ _ _ Hd Hp) as (_ & Hup & _).
  destruct (get_creation_date_shape E _ _ Hd') as [dt' Hdt'].
  apply (can_make_mono (st_world st)); [exact Hup| |
    exact (process_file_refused E self _ _ _ Hp)|exact Hfree'].
  exact (process_file_keeps_way _ _ _ _ _ _ Hd Hp Hdt').
Qed.

(** What a run raises, in terms of the world it started in. *)
Lemma process_loop_raises (files : list string) (st : run_state) (e : exn) :
  process_loop E self files st = Raise e ->
  (exists p, In p files /\ get_creation_date E p = Raise e)
  \/ (e = FileExistsError
      /\ exists p d, In p files /\ get_creation_date E p = Ok d
           /\ fs (st_world st) !! date_dir self d = Some File)
  \/ (e = NotADirectoryError
      /\ exists p d a, In p files /\ get_creation_date E p = Ok d
           /\ In a (Path.parents (date_dir self d))
           /\ fs (st_world st) !! a = Some File)
  \/ (exists p d a e', In p files /\ get_creation_date E p = Ok d
        /\ In a (date_dir self d :: Path.parents (date_dir self d))
        /\ fs (st_world st) !! a = None /\ refused (st_world st) a = Some e').
Proof.
  revert st. induction files as [|p files IH]; intros st; [discriminate|].
  simpl. destruct (process_file E self p st) as [st1|e1] eqn:Hp.
  - rewrite bind_ok. intros Hl.
    destruct (get_creation_date E p) as [d|] eqn:Hd.
    2:{ rewrite process_file_eq, Hd in Hp. discriminate. }
    destruct (process_file_frame E self _ _ _ _ Hd Hp) as (_ & Hup & _).
    pose proof (process_file_refused E self _ _ _ Hp) as Hr.
    destruct (IH _ Hl) as [(q & Hin & Hq)
      |[(-> & q & d' & Hin & Hd' & Hf)
       |[(-> & q & d' & a & Hin & Hd' & Ha & Hf)
        |(q & d' & a & e' & Hin & Hd' & Ha & Hn & Hre)]]].
    + left. exists q. auto.
    + right. left. split; [reflexivity|]. exists q, d'.
      split; [auto|]. split; [exact Hd'|].
      destruct (get_creation_date_shape E _ _ Hd') as [dt' Hdt'].
      apply (process_file_keeps_way _ _ _ _ _ _ Hd Hp Hdt'); [left; reflexivity|exact Hf].
    + right. right. left. split; [reflexivity|]. exists q, d', a.
      split; [auto|]. split; [exact Hd'|]. split; [exact Ha|].
      destruct (get_creation_date_shape E _ _ Hd') as [dt' Hdt'].
      apply (process_file_keeps_way _ _ _ _ _ _ Hd Hp Hdt'); [right; exact Ha|exact Hf].
    + right. right. right. exists q, d', a, e'.
      split; [auto|]. split; [exact Hd'|]. split; [exact Ha|]. split.
      * destruct (fs (st_world st) !! a) as [k|] eqn:Hk; [|reflexivity].
        rewrite (Hup _ _ Hk) in Hn. discriminate.
      * rewrite <- Hr. exact Hre.
  - intros [= ->]. rewrite process_file_eq in Hp.
    destruct (get_creation_date E p) as [d|e'] eqn:Hd.
    + rewrite bind_ok in Hp.
      destruct (makedirs (date_dir self d) (st_world st)) as [w|e'] eqn:Hm.
      * rewrite bind_ok in Hp.
        destruct (classify p); try discriminate.
        destruct (find_associated_video E p) as [v|]; [|discriminate].
        destruct (String.eqb v ""); discriminate.
      * injection Hp as ->.
        destruct (makedirs_raises _ _ _ Hm) as [[-> Hf]|[(-> & a & Ha & Hf)|(a & e' & Ha & Hn & Hr)]].
        -- right. left. split; [reflexivity|]. exists p, d. simpl. auto.
        -- right. right. left. split; [reflexivity|]. exists p, d, a. simpl. auto.
        -- right. right. right. exists p, d, a, e'. simpl. auto.
    + injection Hp as ->. left. exists p. simpl. auto.
Qed.

(** With [print] as it can fail: the loop raises what it raises with a
    [print] that cannot, or [UnicodeEncodeError] for an error line that
    the standard output cannot hold. *)
Lemma strict_process_loop_raises (files : list string) (st : run_state) (e : exn) :
  Strict.process_loop E self files st = Raise e ->
  process_loop E self files st = Raise e
  \/ (e = UnicodeEncodeError
      /\ exists line, stdout_encodes E line = false
           /\ Str.startswith line "Error converting " = true).
Proof.
  revert st. induction files as [|p files IH]; intros st; [discriminate|].
  cbn [Strict.process_loop process_loop].
  pose proof (strict_process_file_refines E self p st) as Hp.
  destruct (Strict.process_file E self p st) as [st1|e1] eqn:Hs.
  - rewrite Hp, !bind_ok. apply IH.
  - intros [= ->]. destruct Hp as [->|[-> [st' Hb]]]; [left; reflexivity|]. right.
    split; [reflexivity|]. revert Hs. rewrite strict_process_file_eq.
    rewrite process_file_eq in Hb.
    destruct (get_creation_date E p) as [d|]; [|discriminate Hb].
    rewrite bind_ok in Hb. rewrite bind_ok.
    destruct (makedirs _ _) as [w|]; [|discriminate Hb]. rewrite bind_ok.
    destruct (job_input E p) as [input|]; [|discriminate].
    rewrite strict_convert_eq.
    destruct (path_exists w _); [discriminate|]. cbv zeta.
    destruct (ffmpeg_run E w _) as [|msg partial]; [discriminate|].
    destruct (write E _ _) as [w'|e'] eqn:Hw; [discriminate|].
    intros _. apply write_raise in Hw as [_ Hw].
    exists (error_line p input msg). split; [exact Hw|].
    unfold error_line. destruct (classify p); apply startswith_app.
Qed.

Lemma strict_summary_total (st : run_state) :
  (forall line, stdout_encodes E line = true) ->
  Strict.summary E self st = Ok (summary self st).
Proof.
  intros Henc. unfold Strict.summary, summary, write.
  rewrite !Henc, ?bind_ok. reflexivity.
Qed.

Lemma strict_summary_ok (st : run_state) (w' : world) :
  Strict.summary E self st = Ok w' -> w' = summary self st.
Proof.
  unfold Strict.summary, summary.
  destruct (write E _ (st_world st)) as [w1|] eqn:H1; [|discriminate].
  apply write_ok in H1 as [-> _]. rewrite bind_ok.
  destruct (write E _ _) as [w2|] eqn:H2; [|discriminate].
  apply write_ok in H2 as [-> _]. rewrite bind_ok.
  destruct (write E _ _) as [w3|] eqn:H3; [|discriminate].
  apply write_ok in H3 as [-> _]. rewrite bind_ok.
  intros H4. apply write_ok in H4 as [-> _]. reflexivity.
Qed.

(** The two runs agree: on a standard output that holds every line they
    are the same, and whenever the run with [write] returns, the run with
    [print] returns the same. *)
Lemma strict_run_total (w : world) :
  (forall line, stdout_encodes E line = true) ->
  Strict.process_media_files E self w = process_media_files E self w.
Proof.
  intros Henc. unfold Strict.process_media_files, process_media_files.
  rewrite (strict_process_loop_total E self _ _ Henc).
  destruct (process_loop E self _ _) as [st|e]; [|reflexivity].
  rewrite !bind_ok, (strict_summary_total _ Henc), bind_ok. reflexivity.
Qed.

Lemma strict_run_refines (w : world) (st : run_state) :
  Strict.process_media_files E self w = Ok st ->
  process_media_files E self w = Ok st.
Proof.
  unfold Strict.process_media_files, process_media_files.
  pose proof (strict_process_loop_refines E self (os_walk E (camera_path self))
                (mkstate w 0 0)) as Hl.
  destruct (Strict.process_loop E self _ _) as [st1|e]; [|discriminate].
  rewrite Hl, !bind_ok.
  destruct (Strict.summary E self st1) as [w'|e] eqn:Hs; [|discriminate].
  apply strict_summary_ok in Hs as ->. rewrite bind_ok. auto.
Qed.

Lemma strict_summary_raises (st : run_state) (e : exn) :
  Strict.summary E self st = Raise e ->
  e = UnicodeEncodeError /\ exists line, stdout_encodes E line = false.
Proof.
  unfold Strict.summary.
  destruct (write E _ (st_world st)) as [w1|e1] eqn:H1.
  2:{ intros [= <-]. apply write_raise in H1 as [-> H1]. eauto. }
  rewrite bind_ok. destruct (write E _ w1) as [w2|e2] eqn:H2.
  2:{ intros [= <-]. apply write_raise in H2 as [-> H2]. eauto. }
  rewrite bind_ok. destruct (write E _ w2) as [w3|e3] eqn:H3.
  2:{ intros [= <-]. apply write_raise in H3 as [-> H3]. eauto. }
  rewrite bind_ok. intros H4. apply write_raise in H4 as [-> H4]. eauto.
Qed.

(** What the loop prints: one line for every encoder run that is not
    counted as processed, and nothing else. *)
Lemma process_file_prints (p : string) (st st' : run_state) :
  process_file E self p st = Ok st' ->
  exists errs l,
    stdout (st_world st') = (stdout (st_world st) ++ errs)%list
    /\ ffmpeg_calls (st_world st') = (ffmpeg_calls (st_world st) ++ l)%list
    /\ length errs + processed_count st' = length l + processed_count st
    /\ Forall (fun line => Str.startswith line "Error converting " = true) errs.
Proof.
  destruct (job_input E p) as [input|] eqn:Hj.
  - rewrite (process_file_job _ _ _ _ _ Hj).
    destruct (get_creation_date E p) as [d|]; [|discriminate]. rewrite bind_ok.
    destruct (makedirs _ _) as [w|] eqn:Hm; [|discriminate]. rewrite bind_ok.
    destruct (makedirs_ok _ _ _ Hm) as (_ & Hs & Hc & _).
    rewrite convert_eq. intros [= <-]. rewrite <- Hs, <- Hc.
    destruct (path_exists w (output_path self d p)).
    { exists [], []. rewrite !List.app_nil_r. simpl. auto. }
    cbv zeta. destruct (ffmpeg_run E w _) as [|msg partial].
    + exists [], [job_args p input (output_path self d p)].
      rewrite List.app_nil_r. unfold count. cbn [snd fst st_world processed_count].
      split; [reflexivity|]. split; [reflexivity|]. split; [simpl; lia|constructor].
    + exists [error_line p input msg], [job_args p input (output_path self d p)].
      unfold count. cbn [snd fst st_world processed_count].
      split; [reflexivity|]. split; [reflexivity|]. split; [simpl; lia|].
      constructor; [|constructor].
      unfold error_line. destruct (classify p); apply startswith_app.
  - rewrite (process_file_nojob _ _ _ _ Hj).
    destruct (get_creation_date E p) as [d|]; [|discriminate]. rewrite bind_ok.
    destruct (makedirs _ _) as [w|] eqn:Hm; [|discriminate]. rewrite bind_ok.
    destruct (makedirs_ok _ _ _ Hm) as (_ & Hs & Hc & _).
    intros [= <-]. exists [], []. rewrite !List.app_nil_r. simpl. auto.
Qed.

Lemma process_loop_prints (files : list string) (st st' : run_state) :
  process_loop E self files st = Ok st' ->
  exists errs l,
    stdout (st_world st') = (stdout (st_world st) ++ errs)%list
    /\ ffmpeg_calls (st_world st') = (ffmpeg_calls (st_world st) ++ l)%list
    /\ length errs + processed_count st' = length l + processed_count st
    /\ Forall (fun line => Str.startswith line "Error converting " = true) errs.
Proof.
  revert st. induction files as [|p files IH]; intros st.
  - intros [= <-]. exists [], []. rewrite !List.app_nil_r. simpl. auto.
  - simpl. destruct (process_file E self p st) as [st1|] eqn:Hp; [|discriminate].
    rewrite bind_ok. intros Hl.
    destruct (process_file_prints _ _ _ Hp) as (e1 & l1 & A1 & B1 & C1 & D1).
    destruct (IH _ Hl) as (e2 & l2 & A2 & B2 & C2 & D2).
    exists (e1 ++ e2)%list, (l1 ++ l2)%list.
    split; [rewrite A2, A1, List.app_assoc; reflexivity|].
    split; [rewrite B2, B1, List.app_assoc; reflexivity|].
    split; [rewrite !List.length_app; lia|].
    apply Forall_app. auto.
Qed.

End TotalFacts.



(** X14. What a run that returns has printed: lines starting with
    [Error converting], one for every encoder run that did not end in a
    processed file, followed by the four lines of the summary with the two
    counts and the destination root.  Skipping an existing output prints
    nothing. *)
Theorem run_prints_errors_and_summary (E : platform) (self : organizer)
    (w : world) (st : run_state) :
  process_media_files E self w = Ok st ->
  exists errs l,
    stdout (st_world st)
    = (stdout w ++ errs
       ++ [String "010" "Processing complete!";
           "Processed " +:+ pretty (processed_count st) +:+ " files";
           "Skipped " +:+ pretty (skipped_count st)
             +:+ " files (already existed or errors)";
           "Media organized in: " +:+ destination_root self])%list
    /\ ffmpeg_calls (st_world st) = (ffmpeg_calls w ++ l)%list
    /\ length errs + processed_count st = length l
    /\ Forall (fun line => Str.startswith line "Error converting " = true) errs.
Proof.
  unfold process_media_files.
  destruct (process_loop E self _ _) as [st1|] eqn:Hl; [|discriminate].
  rewrite bind_ok. intros [= <-].
  destruct (process_loop_prints E self _ _ _ Hl) as (errs & l & A & B & C & D).
  cbn [st_world processed_count skipped_count] in *.
  exists errs, l. split; [|split; [exact B|split; [lia|exact D]]].
  unfold summary, print. cbn [stdout]. rewrite A, <- !List.app_assoc. reflexivity.
Qed.

Lemma run_prints_errors_and_summary_witness :
  exists st, process_media_files broken_encoder e2e_self empty_world = Ok st
    /\ exists (errs : list string) (l : list ffmpeg_args),
         length errs + processed_count st = length l
         /\ ffmpeg_calls (st_world st) = l.
Proof.
  destruct (process_media_files broken_encoder e2e_self empty_world)
    as [st|] eqn:H; [|vm_compute in H; discriminate].
  destruct (run_prints_errors_and_summary broken_encoder e2e_self empty_world st H)
    as (errs & l & _ & B & C & _).
  exists st. split; [reflexivity|]. exists errs, l. split; [exact C|exact B].
Defined.

(** ** What the pairer can return *)

Section PairedFacts.

(** A lower-case [.cpi] is not removed from a name with a dot-free base. *)
Lemma remove_cpi_lower (base : string) :
  Str.contains "." base = false ->
  Str.remove_all (base +:+ ".cpi") ".CPI" = base +:+ ".cpi".
Proof.
  unfold Str.remove_all. induction base as [|c base IH]; intros H; [reflexivity|].
  simpl in H. apply orb_false_elim in H as [Hc Hb].
  change (String c base +:+ ".cpi") with (String c (base +:+ ".cpi")).
  simpl. rewrite Hc. simpl. rewrite (IH Hb). reflexivity.
Qed.

Lemma head_map_filter {A B} (f : A -> B) (g : A -> bool) (l : list A) (y : B) :
  head (List.map f (List.filter g l)) = Some y ->
  exists x, In x l /\ g x = true /\ y = f x.
Proof.
  induction l as [|x l IH]; [discriminate|].
  simpl. destruct (g x) eqn:Hg.
  - simpl. intros [= <-]. exists x. auto.
  - intros H. destruct (IH H) as (x' & Hin & Hg' & ->). exists x'. auto.
Qed.

Lemma join_suffix (a b : string) : exists pre, Path.join a b = pre +:+ b.
Proof.
  unfold Path.join. destruct (Str.startswith b "/"); [exists ""; reflexivity|].
  destruct (String.eqb a "" || Str.endswith a "/"); [exists a; reflexivity|].
  exists (a +:+ "/"). rewrite app_assoc_s. reflexivity.
Qed.

End PairedFacts.

(** X15. What the pairer returns, when neither the clip name nor the
    directory holds a wildcard character, is an entry listed in the parent
    of the parent directory, joined to it, whose name is the clip name,
    anything, and upper-case [.MTS]; it is never the empty string, so an
    index file with such a clip always has a job.  For an index file named
    in lower case, [base.cpi], nothing is removed: the clip name is the
    whole name [base.cpi]. *)
Theorem paired_clip_is_listed (E : platform) (cpi v : string) :
  let clip_name := Str.remove_all (Path.basename cpi) ".CPI" in
  let clip_dir := Path.dirname (Path.dirname cpi) in
  Glob.has_magic clip_dir = false -> Glob.has_magic clip_name = false ->
  find_associated_video E cpi = Some v ->
  (exists n mid, In n (listdir E clip_dir) /\ n = clip_name +:+ mid +:+ ".MTS"
     /\ v = Path.join clip_dir n)
  /\ Str.endswith v ".MTS" = true
  /\ v <> ""
  /\ (classify cpi = VideoIndex -> job_input E cpi = Some v)
  /\ (forall base, Path.basename cpi = base +:+ ".cpi" ->
        Str.contains "." base = false -> clip_name = base +:+ ".cpi").
Proof.
  intros clip_name clip_dir Hdir Hclip Hv.
  pose proof (find_associated_video_eq E cpi Hdir Hclip) as Heq.
  fold clip_name clip_dir in Heq. rewrite Hv in Heq. symmetry in Heq.
  apply head_map_filter in Heq as (n & Hin & Hp & ->).
  apply pairs_with_spec in Hp as [[mid Hn] _].
  assert (Hend : Str.endswith (Path.join clip_dir n) ".MTS" = true).
  { apply endswith_spec. destruct (join_suffix clip_dir n) as [pre ->].
    exists (pre +:+ clip_name +:+ mid). rewrite Hn, !app_assoc_s. reflexivity. }
  assert (Hne : Path.join clip_dir n <> "").
  { intros He. rewrite He in Hend. discriminate. }
  split; [exists n, mid; auto|]. split; [exact Hend|]. split; [exact Hne|]. split.
  - intros Hc. unfold job_input. rewrite Hc, Hv.
    destruct (String.eqb_spec (Path.join clip_dir n) ""); [contradiction|reflexivity].
  - intros base Hb Hdot. unfold clip_name. rewrite Hb. apply remove_cpi_lower, Hdot.
Qed.

Lemma paired_clip_is_listed_witness :
  find_associated_video avchd "/cam/BDMV/CLIPINF/00001.CPI" = Some "/cam/BDMV/00001b.MTS"
  /\ job_input avchd "/cam/BDMV/CLIPINF/00001.CPI" = Some "/cam/BDMV/00001b.MTS"
  /\ Str.remove_all (Path.basename "/cam/BDMV/CLIPINF/00002.cpi") ".CPI" = "00002.cpi".
Proof.
  split; [reflexivity|].
  destruct (paired_clip_is_listed avchd "/cam/BDMV/CLIPINF/00001.CPI"
              "/cam/BDMV/00001b.MTS" eq_refl eq_refl eq_refl) as (_ & _ & _ & Hj & _).
  split; [exact (Hj eq_refl)|reflexivity].
Defined.

Lemma second_run_is_idle_witness :
  exists st1 st2,
    process_media_files e2e e2e_self empty_world = Ok st1
    /\ process_media_files e2e e2e_self (st_world st1) = Ok st2
    /\ processed_count st2 = 0 /\ skipped_count st2 = 3.
Proof.
  destruct (process_media_files e2e e2e_self empty_world) as [st1|] eqn:H;
    [|vm_compute in H; discriminate].
  destruct (second_run_is_idle e2e e2e_self
              ltac:(intros w a msg; discriminate) empty_world st1 H)
    as (st2 & H2 & Hp & Hs & _).
  exists st1, st2. split; [reflexivity|]. split; [exact H2|].
  split; [exact Hp|exact Hs].
Defined.
